(** * Relay policy of the node: a shallow embedding of [src/policy/policy.cpp]

    The file follows the source top-down: the data model of the
    transaction types the checks read, the external collaborators the
    checks call (script solver, script evaluator, serialisation, fee
    arithmetic), the early-return control flow of the checkers, the
    checkers themselves, and then the properties of each. *)

From Stdlib Require Import ZArith Lia Bool List String.
From Stdlib.Strings Require Import Byte.
From stdpp Require Import base decidable list strings gmap.

Local Open Scope string_scope.
Local Open Scope list_scope.
Local Open Scope Z_scope.

(** ** Data model *)

Definition CScript := list byte.
Definition CAmount := Z.

(** [v.size()] of a byte vector or of a vector of items.  Sizes are
    [size_t]; a vector held in memory cannot come near 2^64 elements, so
    the small constants added to sizes below never wrap. *)
Definition size_of {A : Type} (v : list A) : Z := Z.of_nat (length v).

Record CFeeRate := mkFeeRate { nSatoshisPerK : CAmount }.

Record CTxOut := mkTxOut { nValue : CAmount; scriptPubKey : CScript }.

Record COutPoint := mkOutPoint { prev_hash : list byte; prev_n : Z }.

Record CScriptWitness := mkWitness { stack : list (list byte) }.

Record CTxIn := mkTxIn {
  prevout : COutPoint;
  scriptSig : CScript;
  nSequence : Z;
  scriptWitness : CScriptWitness
}.

Record CTransaction := mkTx {
  nVersion : Z;
  vin : list CTxIn;
  vout : list CTxOut;
  nLockTime : Z
}.

Record Coin := mkCoin { out : CTxOut; fCoinBase : bool; nHeight : Z }.

(** The coin view is read through [AccessCoin] only. *)
Definition CCoinsViewCache := COutPoint -> Coin.
Definition AccessCoin (mapInputs : CCoinsViewCache) (o : COutPoint) : Coin :=
  mapInputs o.

Inductive txnouttype :=
  | TX_NONSTANDARD
  | TX_PUBKEY
  | TX_PUBKEYHASH
  | TX_SCRIPTHASH
  | TX_MULTISIG
  | TX_NULL_DATA
  | TX_WITNESS_V0_SCRIPTHASH
  | TX_WITNESS_V0_KEYHASH.

#[global] Instance txnouttype_eq_dec : EqDecision txnouttype.
Proof. solve_decision. Defined.

(** [ignore_rejects_type] is a set of strings; [count] is its membership
    test. *)
Abbreviation ignore_rejects_type := (gset string).

Definition count (ignore_rejects : ignore_rejects_type) (reason : string) : bool :=
  bool_decide (reason ∈ ignore_rejects).

(** Modelled from the spec: the witness scale factor, a constant of
    consensus.h that policy.cpp uses without defining; the specification
    fixes it at 4. *)
Definition WITNESS_SCALE_FACTOR : Z := 4.

(** Modelled from the spec: [CScriptWitness::IsNull], declared in
    script.h; a witness is null ("empty") when its stack holds no
    item. *)
Definition IsNull (w : CScriptWitness) : bool :=
  match stack w with [] => true | _ :: _ => false end.

(** Two's-complement reading of a value as [int64_t] and as
    [unsigned int]. *)
Definition int64 (z : Z) : Z := (z + 2 ^ 63) mod 2 ^ 64 - 2 ^ 63.
Definition uint32 (z : Z) : Z := z mod 2 ^ 32.

(** ** External collaborators

    Everything [policy.cpp] calls but does not define: the script
    predicates and the solver, the evaluator (always invoked with an
    empty initial stack, [SCRIPT_VERIFY_NONE], the base signature checker
    and [SIGVERSION_BASE]; [None] stands for a [false] return), sizes,
    fee arithmetic, the constants of policy.h and the process-wide
    tunables. *)
Class Collaborators := {
  IsUnspendable : CScript -> bool;
  IsWitnessProgram : CScript -> option (Z * list byte);
  IsPayToScriptHash : CScript -> bool;
  IsPushOnly : CScript -> bool;
  GetSigOpCount : CScript -> bool -> Z;
  Solver : CScript -> bool * txnouttype * list (list byte);
  EvalScript : CScript -> option (list (list byte));
  GetSerializeSize : CTxOut -> Z;
  GetTransactionWeight : CTransaction -> Z;
  IsCoinBase : CTransaction -> bool;
  GetFee : CFeeRate -> Z -> CAmount;
  MAX_STANDARD_VERSION : Z;
  MAX_STANDARD_TX_WEIGHT : Z;
  MAX_P2SH_SIGOPS : Z;
  MAX_STANDARD_P2WSH_SCRIPT_SIZE : Z;
  MAX_STANDARD_P2WSH_STACK_ITEMS : Z;
  MAX_STANDARD_P2WSH_STACK_ITEM_SIZE : Z;
  fAcceptDatacarrier : bool;
  nMaxDatacarrierBytes : Z;
  fIsBareMultisigStd : bool;
  dustRelayFee : CFeeRate;
  nBytesPerSigOp : Z
}.

(** ** Control flow of the checkers

    Every checker returns [bool], writes [out_reason] just before a
    [return false], and may leave early from inside a loop.  [M A] is the
    computation of a statement: it either goes on with a value or leaves
    the function with its verdict.  The state carries [out_reason] and
    the scripts handed to [EvalScript] so far, oldest first. *)

Record state := mkState { out_reason : string; evaluated : list CScript }.

Inductive flow (A : Type) :=
  | Next (a : A)
  | Return (b : bool).
Arguments Next {A} a.
Arguments Return {A} b.

Definition M (A : Type) := state -> flow A * state.

Definition pure {A : Type} (a : A) : M A := fun st => (Next a, st).

Definition bind {A B : Type} (m : M A) (k : A -> M B) : M B :=
  fun st =>
    match m st with
    | (Next a, st') => k a st'
    | (Return b, st') => (Return b, st')
    end.

Definition return_ {A : Type} (b : bool) : M A := fun st => (Return b, st).

Declare Scope policy_scope.
Delimit Scope policy_scope with policy.
Notation "'do' x <- m ; k" := (bind m (fun x => k))
  (at level 20, x name, m at level 100, k at level 200) : policy_scope.
Notation "m ;; k" := (bind m (fun _ => k))
  (at level 100, k at level 200, right associativity) : policy_scope.
Local Open Scope policy_scope.

Definition when (c : bool) (m : M unit) : M unit :=
  if c then m else pure tt.

Fixpoint foldM {A B : Type} (body : B -> A -> M B) (l : list A) (acc : B) : M B :=
  match l with
  | [] => pure acc
  | x :: l' => do acc' <- body acc x ; foldM body l' acc'
  end.

Definition for_each {A : Type} (l : list A) (body : A -> M unit) : M unit :=
  foldM (fun _ x => body x) l tt.

Definition set_out_reason (r : string) : M unit :=
  fun st => (Next tt, mkState r (evaluated st)).

(** Verdict and final state of a checker; every checker ends in an
    explicit [return true]. *)
Definition run (m : M unit) (st : state) : bool * state :=
  match m st with
  | (Return b, st') => (b, st')
  | (Next _, st') => (true, st')
  end.

Definition MaybeReject_ (reason reason_prefix : string)
    (ignore_rejects : ignore_rejects_type) (st : state) : bool * state :=
  if count ignore_rejects (reason_prefix +:+ reason) then (false, st)
  else (true, mkState (reason_prefix +:+ reason) (evaluated st)).

(** The [MaybeReject] macro. *)
Definition MaybeReject (reason reason_prefix : string)
    (ignore_rejects : ignore_rejects_type) : M unit :=
  fun st =>
    let (rejected, st') := MaybeReject_ reason reason_prefix ignore_rejects st in
    if rejected then (Return false, st') else (Next tt, st').

Section Policy.
Context {env : Collaborators}.

(** ** Dust *)

Definition GetDustThreshold (txout : CTxOut) (dustRelayFeeIn : CFeeRate) : CAmount :=
  if IsUnspendable (scriptPubKey txout) then 0
  else
    let nSize := GetSerializeSize txout in
    let nSize :=
      match IsWitnessProgram (scriptPubKey txout) with
      | Some _ => nSize + (32 + 4 + 1 + (107 ÷ WITNESS_SCALE_FACTOR) + 4)
      | None => nSize + (32 + 4 + 1 + 107 + 4)
      end in
    GetFee dustRelayFeeIn nSize.

Definition IsDust (txout : CTxOut) (dustRelayFeeIn : CFeeRate) : bool :=
  nValue txout <? GetDustThreshold txout dustRelayFeeIn.

(** ** Output scripts *)

(** [vSolutions.front()[0]] and [vSolutions.back()[0]].  The source reads
    them only for a multisig script, for which the solver returns the
    two count bytes around the keys; reading an absent element is
    undefined there and yields 0 here. *)
Definition front0 (vSolutions : list (list byte)) : Z :=
  match vSolutions with
  | (b :: _) :: _ => Z.of_N (Byte.to_N b)
  | _ => 0
  end.

Definition back0 (vSolutions : list (list byte)) : Z :=
  match last vSolutions with
  | Some (b :: _) => Z.of_N (Byte.to_N b)
  | _ => 0
  end.

(** Returns the verdict together with [whichType], which the source
    assigns through its reference parameter on every path. *)
Definition IsStandard (scriptPubKey : CScript) (witnessEnabled : bool)
    : bool * txnouttype :=
  let '(solved, whichType, vSolutions) := Solver scriptPubKey in
  if negb solved then (false, whichType)
  else if bool_decide (whichType = TX_MULTISIG) then
    let m := front0 vSolutions in
    let n := back0 vSolutions in
    if (n <? 1) || (3 <? n) then (false, whichType)
    else if (m <? 1) || (n <? m) then (false, whichType)
    else (negb (bool_decide (whichType = TX_NONSTANDARD)), whichType)
  else if bool_decide (whichType = TX_NULL_DATA)
          && (negb fAcceptDatacarrier
              || (nMaxDatacarrierBytes <? size_of scriptPubKey)) then
    (false, whichType)
  else if negb witnessEnabled
          && (bool_decide (whichType = TX_WITNESS_V0_KEYHASH)
              || bool_decide (whichType = TX_WITNESS_V0_SCRIPTHASH)) then
    (false, whichType)
  else (negb (bool_decide (whichType = TX_NONSTANDARD)), whichType).

(** ** Transaction-level standardness *)

(** The body of the loop over [tx.vin]. *)
Definition IsStandardTx_input (fCheckPushOnly : bool) (reason_prefix : string)
    (ignore_rejects : ignore_rejects_type) (txin : CTxIn) : M unit :=
  when (1650 <? size_of (scriptSig txin))
    (MaybeReject "scriptsig-size" reason_prefix ignore_rejects) ;;
  when (fCheckPushOnly && negb (IsPushOnly (scriptSig txin)))
    (set_out_reason "scriptsig-not-pushonly" ;; return_ false).

(** The body of the loop over [tx.vout]; [nDataOut] is the loop's
    [unsigned int] counter. *)
Definition IsStandardTx_output (witnessEnabled : bool) (reason_prefix : string)
    (ignore_rejects : ignore_rejects_type) (nDataOut : Z) (txout : CTxOut) : M Z :=
  let '(standard, whichType) := IsStandard (scriptPubKey txout) witnessEnabled in
  when (negb standard) (MaybeReject "scriptpubkey" reason_prefix ignore_rejects) ;;
  if bool_decide (whichType = TX_NULL_DATA) then pure (uint32 (nDataOut + 1))
  else
    when (bool_decide (whichType = TX_MULTISIG) && negb fIsBareMultisigStd)
      (MaybeReject "bare-multisig" reason_prefix ignore_rejects) ;;
    when (IsDust txout dustRelayFee)
      (MaybeReject "dust" reason_prefix ignore_rejects) ;;
    pure nDataOut.

Definition IsStandardTx_body (tx : CTransaction) (witnessEnabled : bool)
    (ignore_rejects : ignore_rejects_type) : M unit :=
  let reason_prefix := EmptyString in
  when ((MAX_STANDARD_VERSION <? nVersion tx) || (nVersion tx <? 1))
    (MaybeReject "version" reason_prefix ignore_rejects) ;;
  when (negb (count ignore_rejects "tx-size"))
    (let sz := uint32 (GetTransactionWeight tx) in
     when (MAX_STANDARD_TX_WEIGHT <=? sz)
       (set_out_reason "tx-size" ;; return_ false)) ;;
  let fCheckPushOnly := negb (count ignore_rejects "scriptsig-not-pushonly") in
  when (negb (count ignore_rejects "scriptsig-size") || fCheckPushOnly)
    (for_each (vin tx)
       (IsStandardTx_input fCheckPushOnly reason_prefix ignore_rejects)) ;;
  when (negb (count ignore_rejects "scriptpubkey"
              && count ignore_rejects "bare-multisig"
              && count ignore_rejects "dust"
              && count ignore_rejects "multi-op-return"))
    (do nDataOut <-
       foldM (IsStandardTx_output witnessEnabled reason_prefix ignore_rejects)
         (vout tx) 0 ;
     when (1 <? nDataOut)
       (MaybeReject "multi-op-return" reason_prefix ignore_rejects)) ;;
  return_ true.

(** [out_reason] is the caller's string, handed in and possibly
    overwritten; the result pairs the verdict with its final contents. *)
Definition IsStandardTx (tx : CTransaction) (out_reason0 : string)
    (witnessEnabled : bool) (ignore_rejects : ignore_rejects_type)
    : bool * string :=
  let (verdict, st) :=
    run (IsStandardTx_body tx witnessEnabled ignore_rejects)
        (mkState out_reason0 []) in
  (verdict, out_reason st).

(** ** Input standardness *)

(** A call of [EvalScript]: the script is noted in the state and the
    resulting stack, if any, is handed on. *)
Definition eval (script : CScript) : M (option (list (list byte))) :=
  fun st =>
    (Next (EvalScript script),
     mkState (out_reason st) (evaluated st ++ [script])).

(** [CScript(stack.back().begin(), stack.back().end())] of a stack known
    to be non-empty. *)
Definition back (stack : list (list byte)) : CScript :=
  match last stack with Some item => item | None => [] end.

(** The body of the loop over [tx.vin]. *)
Definition AreInputsStandard_input (mapInputs : CCoinsViewCache)
    (reason_prefix : string) (ignore_rejects : ignore_rejects_type)
    (txin : CTxIn) : M unit :=
  let prev := out (AccessCoin mapInputs (prevout txin)) in
  let prevScript := scriptPubKey prev in
  let '(solved, whichType, vSolutions) := Solver prevScript in
  when (negb solved) (MaybeReject "script-unknown" reason_prefix ignore_rejects) ;;
  when (bool_decide (whichType = TX_SCRIPTHASH))
    (if negb (IsPushOnly (scriptSig txin)) then pure tt (* continue *)
     else
       do r <- eval (scriptSig txin) ;
       match r with
       | None =>
           set_out_reason (reason_prefix +:+ "scriptsig-failure") ;; return_ false
       | Some [] =>
           set_out_reason (reason_prefix +:+ "scriptcheck-missing") ;; return_ false
       | Some stack =>
           let subscript := back stack in
           when (MAX_P2SH_SIGOPS <? GetSigOpCount subscript true)
             (MaybeReject "scriptcheck-sigops" reason_prefix ignore_rejects)
       end).

Definition AreInputsStandard_body (tx : CTransaction) (mapInputs : CCoinsViewCache)
    (reason_prefix : string) (ignore_rejects : ignore_rejects_type) : M unit :=
  if IsCoinBase tx then return_ true
  else
    for_each (vin tx)
      (AreInputsStandard_input mapInputs reason_prefix ignore_rejects) ;;
    return_ true.

Definition AreInputsStandard (tx : CTransaction) (mapInputs : CCoinsViewCache)
    (reason_prefix out_reason0 : string) (ignore_rejects : ignore_rejects_type)
    : bool * string :=
  let (verdict, st) :=
    run (AreInputsStandard_body tx mapInputs reason_prefix ignore_rejects)
        (mkState out_reason0 []) in
  (verdict, out_reason st).

(** ** Witness standardness *)

(** The P2WSH limits on the witness stack of one input. *)
Definition IsWitnessStandard_p2wsh (reason_prefix : string)
    (ignore_rejects : ignore_rejects_type) (witness : list (list byte)) : M unit :=
  when (MAX_STANDARD_P2WSH_SCRIPT_SIZE <? size_of (back witness))
    (MaybeReject "script-size" reason_prefix ignore_rejects) ;;
  let sizeWitnessStack := size_of witness - 1 in
  when (MAX_STANDARD_P2WSH_STACK_ITEMS <? sizeWitnessStack)
    (MaybeReject "stackitem-count" reason_prefix ignore_rejects) ;;
  for_each (take (Z.to_nat sizeWitnessStack) witness)
    (fun item =>
       when (MAX_STANDARD_P2WSH_STACK_ITEM_SIZE <? size_of item)
         (MaybeReject "stackitem-size" reason_prefix ignore_rejects)).

(** What follows the P2SH unwrapping, on the effective [prevScript]. *)
Definition IsWitnessStandard_program (reason_prefix : string)
    (ignore_rejects : ignore_rejects_type) (txin : CTxIn)
    (prevScript : CScript) : M unit :=
  match IsWitnessProgram prevScript with
  | None =>
      set_out_reason (reason_prefix +:+ "nonwitness-input") ;; return_ false
  | Some (witnessversion, witnessprogram) =>
      when ((witnessversion =? 0) && (size_of witnessprogram =? 32))
        (IsWitnessStandard_p2wsh reason_prefix ignore_rejects
           (stack (scriptWitness txin)))
  end.

(** The body of the loop over [tx.vin]. *)
Definition IsWitnessStandard_input (mapInputs : CCoinsViewCache)
    (reason_prefix : string) (ignore_rejects : ignore_rejects_type)
    (txin : CTxIn) : M unit :=
  if IsNull (scriptWitness txin) then pure tt (* continue *)
  else
    let prev := out (AccessCoin mapInputs (prevout txin)) in
    let prevScript := scriptPubKey prev in
    if IsPayToScriptHash prevScript then
      do r <- eval (scriptSig txin) ;
      match r with
      | None =>
          set_out_reason (reason_prefix +:+ "scriptsig-failure") ;; return_ false
      | Some [] =>
          set_out_reason (reason_prefix +:+ "scriptcheck-missing") ;; return_ false
      | Some stack =>
          IsWitnessStandard_program reason_prefix ignore_rejects txin (back stack)
      end
    else IsWitnessStandard_program reason_prefix ignore_rejects txin prevScript.

Definition IsWitnessStandard_body (tx : CTransaction) (mapInputs : CCoinsViewCache)
    (reason_prefix : string) (ignore_rejects : ignore_rejects_type) : M unit :=
  if IsCoinBase tx then return_ true
  else
    for_each (vin tx)
      (IsWitnessStandard_input mapInputs reason_prefix ignore_rejects) ;;
    return_ true.

Definition IsWitnessStandard (tx : CTransaction) (mapInputs : CCoinsViewCache)
    (reason_prefix out_reason0 : string) (ignore_rejects : ignore_rejects_type)
    : bool * string :=
  let (verdict, st) :=
    run (IsWitnessStandard_body tx mapInputs reason_prefix ignore_rejects)
        (mkState out_reason0 []) in
  (verdict, out_reason st).

(** ** Virtual size *)

(** [int64_t] arithmetic throughout: [nBytesPerSigOp] is converted to
    [int64_t] for the product, and the division truncates. *)
Definition GetVirtualTransactionSize (nWeight nSigOpCost : Z) : Z :=
  int64 (int64 (Z.max nWeight (int64 (nSigOpCost * nBytesPerSigOp))
                + WITNESS_SCALE_FACTOR) - 1)
  ÷ WITNESS_SCALE_FACTOR.

(** ** The rules of the transaction checker as conditions

    [triggers tx witnessEnabled reason] tells whether the transaction
    meets the condition under which [IsStandardTx] raises [reason]; a
    string that names no rule is triggered by no transaction. *)

Definition is_null_data (witnessEnabled : bool) (txout : CTxOut) : bool :=
  bool_decide (snd (IsStandard (scriptPubKey txout) witnessEnabled) = TX_NULL_DATA).

(** The value of the counter [nDataOut] after the outputs [outs]. *)
Definition count_null_data (witnessEnabled : bool) (outs : list CTxOut) (n0 : Z) : Z :=
  fold_left
    (fun n txout => if is_null_data witnessEnabled txout then uint32 (n + 1) else n)
    outs n0.

Definition triggers (tx : CTransaction) (witnessEnabled : bool) (reason : string) : bool :=
  if bool_decide (reason = "version") then
    (MAX_STANDARD_VERSION <? nVersion tx) || (nVersion tx <? 1)
  else if bool_decide (reason = "tx-size") then
    MAX_STANDARD_TX_WEIGHT <=? uint32 (GetTransactionWeight tx)
  else if bool_decide (reason = "scriptsig-size") then
    existsb (fun txin => 1650 <? size_of (scriptSig txin)) (vin tx)
  else if bool_decide (reason = "scriptsig-not-pushonly") then
    existsb (fun txin => negb (IsPushOnly (scriptSig txin))) (vin tx)
  else if bool_decide (reason = "scriptpubkey") then
    existsb (fun txout => negb (fst (IsStandard (scriptPubKey txout) witnessEnabled)))
      (vout tx)
  else if bool_decide (reason = "bare-multisig") then
    existsb
      (fun txout =>
         bool_decide (snd (IsStandard (scriptPubKey txout) witnessEnabled) = TX_MULTISIG)
         && negb fIsBareMultisigStd)
      (vout tx)
  else if bool_decide (reason = "dust") then
    existsb
      (fun txout =>
         negb (is_null_data witnessEnabled txout) && IsDust txout dustRelayFee)
      (vout tx)
  else if bool_decide (reason = "multi-op-return") then
    1 <? count_null_data witnessEnabled (vout tx) 0
  else false.

(** [r] is the ceiling of the quotient [a / b]. *)
Definition is_ceil_div (r a b : Z) : Prop := b * (r - 1) < a <= b * r.

End Policy.

(** ** Reference collaborators

    One implementation of the collaborators, on which the checkers can be
    evaluated on concrete transactions: the standard script templates in
    their byte form, the serialised sizes, the fee of a rate given per
    1000 bytes, and the default constants and tunables. *)
Module Reference.

Definition b2z (b : byte) : Z := Z.of_N (Byte.to_N b).

Definition OP_PUSHDATA1 : Z := 0x4c.
Definition OP_PUSHDATA2 : Z := 0x4d.
Definition OP_PUSHDATA4 : Z := 0x4e.
Definition OP_1NEGATE : Z := 0x4f.
Definition OP_1 : Z := 0x51.
Definition OP_16 : Z := 0x60.
Definition OP_RETURN : Z := 0x6a.
Definition OP_DUP : Z := 0x76.
Definition OP_EQUAL : Z := 0x87.
Definition OP_EQUALVERIFY : Z := 0x88.
Definition OP_HASH160 : Z := 0xa9.
Definition OP_CHECKSIG : Z := 0xac.
Definition OP_CHECKSIGVERIFY : Z := 0xad.
Definition OP_CHECKMULTISIG : Z := 0xae.
Definition OP_CHECKMULTISIGVERIFY : Z := 0xaf.
Definition OP_INVALIDOPCODE : Z := 0xff.
Definition MAX_SCRIPT_SIZE : Z := 10000.
Definition MAX_SCRIPT_ELEMENT_SIZE : Z := 520.
Definition MAX_PUBKEYS_PER_MULTISIG : Z := 20.

(** Little-endian value of a length field. *)
Definition le_bytes (l : list byte) : Z :=
  fold_right (fun b acc => b2z b + 256 * acc) 0 l.

(** Modelled from the spec: [CScript::GetOp] of script.h, which is not
    among the sources: the next opcode, the data it pushes and the rest
    of the script, or [None] when the script ends inside a push. *)
Definition GetOp (s : CScript) : option (Z * list byte * CScript) :=
  match s with
  | [] => None
  | b :: rest =>
      let opcode := b2z b in
      if OP_PUSHDATA4 <? opcode then Some (opcode, [], rest)
      else
        let width :=
          if opcode <? OP_PUSHDATA1 then 0%nat
          else if opcode =? OP_PUSHDATA1 then 1%nat
          else if opcode =? OP_PUSHDATA2 then 2%nat
          else 4%nat in
        if (length rest <? width)%nat then None
        else
          let nSize :=
            if opcode <? OP_PUSHDATA1 then opcode
            else le_bytes (take width rest) in
          let rest := drop width rest in
          if size_of rest <? nSize then None
          else Some (opcode, take (Z.to_nat nSize) rest, drop (Z.to_nat nSize) rest)
  end.

(** The operations of a script in order, and whether the whole script
    decoded; every operation takes at least one byte, so the length of
    the script is fuel enough. *)
Fixpoint decode_ops (fuel : nat) (s : CScript) : list (Z * list byte) * bool :=
  match fuel with
  | O => ([], true)
  | S fuel' =>
      match s with
      | [] => ([], true)
      | _ :: _ =>
          match GetOp s with
          | None => ([], false)
          | Some (opcode, data, rest) =>
              let (ops, complete) := decode_ops fuel' rest in
              ((opcode, data) :: ops, complete)
          end
      end
  end.

Definition decode (s : CScript) : list (Z * list byte) * bool :=
  decode_ops (length s) s.

(** Modelled from the spec: [CScript::IsPushOnly] ("consist solely of
    data-push operations"); script.cpp is not among the sources. *)
Definition IsPushOnly (s : CScript) : bool :=
  let (ops, complete) := decode s in
  complete && forallb (fun op => fst op <=? OP_16) ops.

(** Modelled from the spec: [CScript::IsUnspendable], a script that
    starts with [OP_RETURN] or is longer than a script may be. *)
Definition IsUnspendable (s : CScript) : bool :=
  match s with
  | b :: _ => (b2z b =? OP_RETURN) || (MAX_SCRIPT_SIZE <? size_of s)
  | [] => false
  end.

(** Modelled from the spec: [CScript::IsPayToScriptHash], the template
    [OP_HASH160 <20 bytes> OP_EQUAL]. *)
Definition IsPayToScriptHash (s : CScript) : bool :=
  match s with
  | h :: l :: rest =>
      (size_of s =? 23) && (b2z h =? OP_HASH160) && (b2z l =? 0x14)
      && bool_decide (b2z <$> last rest = Some OP_EQUAL)
  | _ => false
  end.

(** Modelled from the spec: [CScript::IsWitnessProgram], a version
    opcode followed by one push of 2 to 40 bytes that ends the script. *)
Definition IsWitnessProgram (s : CScript) : option (Z * list byte) :=
  match s with
  | v :: l :: program =>
      let version := b2z v in
      if (size_of s <? 4) || (42 <? size_of s) then None
      else if negb (version =? 0) && ((version <? OP_1) || (OP_16 <? version)) then None
      else if b2z l + 2 =? size_of s then
        Some (if version =? 0 then 0 else version - (OP_1 - 1), program)
      else None
  | _ => None
  end.

(** Modelled from the spec: [CScript::GetSigOpCount]; a signature check
    counts 1, a multi-signature check its key count when that is read
    accurately from the preceding small integer, and 20 otherwise. *)
Definition GetSigOpCount (s : CScript) (fAccurate : bool) : Z :=
  fst
    (fold_left
       (fun '(n, lastOpcode) '(opcode, _) =>
          let n :=
            if (opcode =? OP_CHECKSIG) || (opcode =? OP_CHECKSIGVERIFY) then n + 1
            else if (opcode =? OP_CHECKMULTISIG) || (opcode =? OP_CHECKMULTISIGVERIFY) then
              if fAccurate && (OP_1 <=? lastOpcode) && (lastOpcode <=? OP_16)
              then n + (lastOpcode - (OP_1 - 1))
              else n + MAX_PUBKEYS_PER_MULTISIG
            else n in
          (n, opcode))
       (fst (decode s)) (0, OP_INVALIDOPCODE)).

(** Modelled from the spec: [EvalScript] without verification flags, as
    far as the checkers need it, that is on the operations of a push-only
    script: data pushes put their data on the stack and the
    small-integer opcodes their number.  Any other opcode, an oversized
    element or script, and a script that ends inside a push are reported
    as a failure. *)
Definition EvalScript (s : CScript) : option (list (list byte)) :=
  let (ops, complete) := decode s in
  if negb complete || (MAX_SCRIPT_SIZE <? size_of s) then None
  else
    fold_left
      (fun (acc : option (list (list byte))) '(opcode, data) =>
         match acc with
         | None => None
         | Some stack =>
             if MAX_SCRIPT_ELEMENT_SIZE <? size_of data then None
             else if opcode <=? OP_PUSHDATA4 then Some (stack ++ [data])
             else if opcode =? OP_1NEGATE then Some (stack ++ [[x81]])
             else if (OP_1 <=? opcode) && (opcode <=? OP_16) then
               match Byte.of_N (Z.to_N (opcode - (OP_1 - 1))) with
               | Some b => Some (stack ++ [[b]])
               | None => None
               end
             else None
         end)
      ops (Some []).

Definition is_small_integer (opcode : Z) : bool :=
  (opcode =? 0) || ((OP_1 <=? opcode) && (opcode <=? OP_16)).

Definition small_integer (opcode : Z) : byte :=
  let n := if opcode =? 0 then 0 else opcode - (OP_1 - 1) in
  match Byte.of_N (Z.to_N n) with Some b => b | None => x00 end.

Definition is_pubkey (op : Z * list byte) : bool :=
  (33 <=? size_of (snd op)) && (size_of (snd op) <=? 65).

(** Modelled from the spec: [Solver] of standard.cpp, which always
    yields a type: pay-to-script-hash, the two version-0 witness
    programs, null data, pay-to-pubkey, pay-to-pubkey-hash and
    m-of-n multisig (solutions: the byte [m], the keys, the byte [n]);
    anything else is [TX_NONSTANDARD]. *)
Definition Solver (s : CScript) : bool * txnouttype * list (list byte) :=
  if IsPayToScriptHash s then (true, TX_SCRIPTHASH, [take 20 (drop 2 s)])
  else
    match IsWitnessProgram s with
    | Some (version, program) =>
        if (version =? 0) && (size_of program =? 20) then
          (true, TX_WITNESS_V0_KEYHASH, [program])
        else if (version =? 0) && (size_of program =? 32) then
          (true, TX_WITNESS_V0_SCRIPTHASH, [program])
        else (false, TX_NONSTANDARD, [])
    | None =>
        match s with
        | b :: rest =>
            if (b2z b =? OP_RETURN) && IsPushOnly rest then (true, TX_NULL_DATA, [])
            else
              let (ops, complete) := decode s in
              if negb complete then (false, TX_NONSTANDARD, [])
              else
                match ops with
                | [(_, key) as k; (c, _)] =>
                    if is_pubkey k && (c =? OP_CHECKSIG) then (true, TX_PUBKEY, [key])
                    else (false, TX_NONSTANDARD, [])
                | [(d, _); (h, _); (_, keyhash); (e, _); (c, _)] =>
                    if (d =? OP_DUP) && (h =? OP_HASH160) && (size_of keyhash =? 20)
                       && (e =? OP_EQUALVERIFY) && (c =? OP_CHECKSIG)
                    then (true, TX_PUBKEYHASH, [keyhash])
                    else (false, TX_NONSTANDARD, [])
                | (m, _) :: more =>
                    match reverse more with
                    | (c, _) :: (n, _) :: keys =>
                        if is_small_integer m && is_small_integer n
                           && (c =? OP_CHECKMULTISIG) && forallb is_pubkey keys
                           && (1 <=? b2z (small_integer m))
                           && (b2z (small_integer m) <=? b2z (small_integer n))
                           && (size_of keys =? b2z (small_integer n))
                        then (true, TX_MULTISIG,
                              [small_integer m] :: (snd <$> reverse keys)
                              ++ [[small_integer n]])
                        else (false, TX_NONSTANDARD, [])
                    | _ => (false, TX_NONSTANDARD, [])
                    end
                | [] => (false, TX_NONSTANDARD, [])
                end
        | [] => (false, TX_NONSTANDARD, [])
        end
    end.

(** Size of the length prefix of a serialised vector. *)
Definition GetSizeOfCompactSize (nSize : Z) : Z :=
  if nSize <? 253 then 1
  else if nSize <=? 0xffff then 3
  else if nSize <=? 0xffffffff then 5
  else 9.

Definition script_size (s : CScript) : Z :=
  GetSizeOfCompactSize (size_of s) + size_of s.

(** Modelled from the spec: the serialised size of an output, its
    8-byte value and its length-prefixed script. *)
Definition GetSerializeSize (txout : CTxOut) : Z :=
  8 + script_size (scriptPubKey txout).

Definition sum_sizes {A : Type} (f : A -> Z) (l : list A) : Z :=
  fold_right (fun x acc => f x + acc) 0 l.

Definition base_size (tx : CTransaction) : Z :=
  4 + GetSizeOfCompactSize (size_of (vin tx))
  + sum_sizes (fun txin => 36 + script_size (scriptSig txin) + 4) (vin tx)
  + GetSizeOfCompactSize (size_of (vout tx))
  + sum_sizes GetSerializeSize (vout tx)
  + 4.

Definition witness_size (tx : CTransaction) : Z :=
  if forallb (fun txin => IsNull (scriptWitness txin)) (vin tx) then 0
  else
    2 + sum_sizes
          (fun txin =>
             GetSizeOfCompactSize (size_of (stack (scriptWitness txin)))
             + sum_sizes script_size (stack (scriptWitness txin)))
          (vin tx).

(** Modelled from the spec: the weight of a transaction, the size
    without witnesses counted [WITNESS_SCALE_FACTOR - 1] times plus the
    full size. *)
Definition GetTransactionWeight (tx : CTransaction) : Z :=
  base_size tx * (WITNESS_SCALE_FACTOR - 1) + (base_size tx + witness_size tx).

(** Modelled from the spec: a coinbase has a single input that refers
    to no previous output. *)
Definition IsCoinBase (tx : CTransaction) : bool :=
  match vin tx with
  | [txin] =>
      forallb (fun b => b2z b =? 0) (prev_hash (prevout txin))
      && (prev_n (prevout txin) =? 0xffffffff)
  | _ => false
  end.

(** Modelled from the spec: "fee for N bytes" of a rate given per 1000
    bytes; a non-zero size never costs nothing at a non-zero rate. *)
Definition GetFee (rate : CFeeRate) (nBytes : Z) : CAmount :=
  let nFee := nSatoshisPerK rate * nBytes ÷ 1000 in
  if (nFee =? 0) && negb (nBytes =? 0) then
    if 0 <? nSatoshisPerK rate then 1
    else if nSatoshisPerK rate <? 0 then -1
    else nFee
  else nFee.

#[export] Instance collaborators : Collaborators :=
  Build_Collaborators
    IsUnspendable IsWitnessProgram IsPayToScriptHash IsPushOnly GetSigOpCount
    Solver EvalScript GetSerializeSize GetTransactionWeight IsCoinBase GetFee
    2        (* MAX_STANDARD_VERSION *)
    400000   (* MAX_STANDARD_TX_WEIGHT *)
    15       (* MAX_P2SH_SIGOPS *)
    3600     (* MAX_STANDARD_P2WSH_SCRIPT_SIZE *)
    100      (* MAX_STANDARD_P2WSH_STACK_ITEMS *)
    80       (* MAX_STANDARD_P2WSH_STACK_ITEM_SIZE *)
    true     (* fAcceptDatacarrier *)
    83       (* nMaxDatacarrierBytes *)
    true     (* fIsBareMultisigStd *)
    (mkFeeRate 3000) (* dustRelayFee *)
    20       (* nBytesPerSigOp *).

End Reference.

(** ** Concrete scripts and transactions

    The standard templates with filler hashes and keys, and small
    transactions over them, for evaluating the checkers on the reference
    collaborators. *)
Module Examples.

Definition p2pkh : CScript := [x76; xa9; x14] ++ replicate 20 x11 ++ [x88; xac].
Definition p2sh : CScript := [xa9; x14] ++ replicate 20 x22 ++ [x87].
Definition p2wpkh : CScript := [x00; x14] ++ replicate 20 x33.
Definition p2wsh : CScript := [x00; x20] ++ replicate 32 x44.

(** [OP_RETURN] followed by a push of two bytes. *)
Definition nulldata : CScript := [x6a; x02; xab; xcd].

(** [OP_m <key>...<key> OP_n OP_CHECKMULTISIG] with [k] compressed keys. *)
Definition multisig (m n : byte) (k : nat) : CScript :=
  [m] ++ mjoin (replicate k ([x21] ++ replicate 33 x02)) ++ [n; xae].

Definition default_rate : CFeeRate := mkFeeRate 3000.

Definition ref : Collaborators := Reference.collaborators.

Definition outpoint : COutPoint := mkOutPoint (replicate 32 xaa) 0.

(** A coin view in which every previous output carries [script]. *)
Definition coins_paying (script : CScript) : CCoinsViewCache :=
  fun _ => mkCoin (mkTxOut 100000 script) false 1.

Definition spend (scriptSig : CScript) (witness : list (list byte)) : CTxIn :=
  mkTxIn outpoint scriptSig 0xffffffff (mkWitness witness).

(** Two data-carrier outputs, with a standard and with a zero version. *)
Definition tx_two_nulldata : CTransaction :=
  mkTx 1 [spend [] []] [mkTxOut 0 nulldata; mkTxOut 0 nulldata] 0.
Definition tx_two_nulldata_v0 : CTransaction :=
  mkTx 0 [spend [] []] [mkTxOut 0 nulldata; mkTxOut 0 nulldata] 0.

(** One pay-to-pubkey-hash output well above the dust threshold. *)
Definition tx_plain : CTransaction :=
  mkTx 1 [spend [] []] [mkTxOut 100000 p2pkh] 0.

(** An input with a one-item witness. *)
Definition tx_with_witness : CTransaction :=
  mkTx 1 [spend [] [[x51]]] [mkTxOut 100000 p2pkh] 0.

(** An input with two arguments and a witness script. *)
Definition tx_p2wsh : CTransaction :=
  mkTx 1 [spend [] [[x01]; [x02; x03]; [x51]]] [mkTxOut 100000 p2pkh] 0.

(** An input whose scriptSig is [OP_RESERVED]: push-only, yet failing
    when evaluated. *)
Definition tx_reserved : CTransaction :=
  mkTx 1 [spend [x50] [[x51]]] [mkTxOut 100000 p2pkh] 0.

(** An input whose scriptSig is [OP_DUP], which is not push-only, and
    after it one that pushes the one-byte redeem script [OP_1]. *)
Definition txin_dup : CTxIn := spend [x76] [].
Definition tx_dup : CTransaction :=
  mkTx 1 [txin_dup; spend [x01; x51] []] [mkTxOut 100000 p2pkh] 0.

End Examples.

(** ** Predicates on statements and transactions *)

Section Predicates.
Context {env : Collaborators}.

(** Two statements that behave alike from every state. *)
Definition same {A : Type} (m m' : M A) : Prop := forall st, m st = m' st.

(** A statement that goes on without touching the state. *)
Definition quiet (m : M unit) : Prop := forall st, m st = (Next tt, st).

(** Whenever the statement leaves with [false], the reason it leaves in
    [out_reason] is not ignored. *)
Definition rejects_outside {A : Type} (S : ignore_rejects_type) (m : M A) : Prop :=
  forall st st', m st = (Return false, st') -> out_reason st' ∉ S.

(** What one output asks of the ignore set for the loop to pass it. *)
Definition output_passes (S : ignore_rejects_type) (we : bool) (txout : CTxOut) : Prop :=
  (fst (IsStandard (scriptPubKey txout) we) = false -> count S "scriptpubkey" = true)
  /\ (bool_decide (snd (IsStandard (scriptPubKey txout) we) = TX_MULTISIG)
      && negb fIsBareMultisigStd = true -> count S "bare-multisig" = true)
  /\ (negb (is_null_data we txout) && IsDust txout dustRelayFee = true ->
      count S "dust" = true).

(** A rule the transaction either does not trigger or the set ignores. *)
Definition tolerates (S : ignore_rejects_type) (tx : CTransaction) (we : bool)
    (reason : string) : Prop :=
  triggers tx we reason = true -> count S reason = true.

(** A statement that never leaves the function with [true]. *)
Definition no_true {A : Type} (m : M A) : Prop :=
  forall st st', m st <> (Return true, st').

(** A statement that always leaves the function with [false]. *)
Definition fails {A : Type} (m : M A) : Prop :=
  forall st, exists st', m st = (Return false, st').

(** The limits the witness stack of a P2WSH input is held to: the last
    item is the witness script, the others are its arguments. *)
Definition within_p2wsh_limits (witness : list (list byte)) : Prop :=
  size_of (back witness) <= MAX_STANDARD_P2WSH_SCRIPT_SIZE
  /\ size_of witness - 1 <= MAX_STANDARD_P2WSH_STACK_ITEMS
  /\ (forall item,
        In item (take (Z.to_nat (size_of witness - 1)) witness) ->
        size_of item <= MAX_STANDARD_P2WSH_STACK_ITEM_SIZE).

End Predicates.

(** ** Sigop accounting

    What the sigop accountant calls outside [policy.cpp].  The two
    counters assert that the coins they read are unspent, and
    [CountWitnessSigOps] asserts its flags, so a call may fail to
    return: [None] stands for a failed assertion. *)
Class SigOpCollaborators := {
  GetP2SHSigOpCount : CTransaction -> CCoinsViewCache -> option Z;
  CountWitnessSigOps : CScript -> CScript -> CScriptWitness -> Z -> option Z;
  IsSpent : Coin -> bool;
  SCRIPT_VERIFY_P2SH : Z;
  SCRIPT_VERIFY_WITNESS : Z
}.

Section Accounting.
Context {env : Collaborators} {sigops : SigOpCollaborators}.

(** The overload of [GetVirtualTransactionSize] that takes the
    transaction. *)
Definition GetVirtualTransactionSize_tx (tx : CTransaction) (nSigOpCost : Z) : Z :=
  GetVirtualTransactionSize (GetTransactionWeight tx) nSigOpCost.

(** [flags & flag], read as a condition. *)
Definition flag_set (flags flag : Z) : bool := negb (Z.land flags flag =? 0).

(** The first loop of [GetAccurateTransactionSigOpCost]: the
    [unsigned int] sum of the legacy counts of the scriptSigs. *)
Definition legacy_sigops (txins : list CTxIn) (nSigOps : Z) : Z :=
  fold_left
    (fun n txin => uint32 (n + GetSigOpCount (scriptSig txin) false))
    txins nSigOps.

(** The second loop: each coin must be unspent, and its witness count
    is added to the [unsigned int] sum. *)
Fixpoint witness_sigops (inputs : CCoinsViewCache) (flags : Z)
    (txins : list CTxIn) (nSigOps : Z) : option Z :=
  match txins with
  | [] => Some nSigOps
  | txin :: txins' =>
      let coin := AccessCoin inputs (prevout txin) in
      if IsSpent coin then None (* assert(!coin.IsSpent()) *)
      else
        let prevout := out coin in
        match CountWitnessSigOps (scriptSig txin) (scriptPubKey prevout)
                (scriptWitness txin) flags with
        | None => None
        | Some c => witness_sigops inputs flags txins' (uint32 (nSigOps + c))
        end
  end.

Definition GetAccurateTransactionSigOpCost (tx : CTransaction)
    (inputs : CCoinsViewCache) (flags : Z) : option Z :=
  if IsCoinBase tx then Some 0
  else
    let nSigOps := legacy_sigops (vin tx) 0 in
    let with_p2sh :=
      if flag_set flags SCRIPT_VERIFY_P2SH then
        match GetP2SHSigOpCount tx inputs with
        | None => None
        | Some c => Some (uint32 (nSigOps + c))
        end
      else Some nSigOps in
    match with_p2sh with
    | None => None
    | Some nSigOps =>
        let nSigOps := uint32 (nSigOps * WITNESS_SCALE_FACTOR) in
        if flag_set flags SCRIPT_VERIFY_WITNESS then
          witness_sigops inputs flags (vin tx) nSigOps
        else Some nSigOps
    end.

(** ** What the input checkers hand to the evaluator *)

Definition AreInputsStandard_evaluated (tx : CTransaction)
    (mapInputs : CCoinsViewCache) (reason_prefix : string)
    (ignore_rejects : ignore_rejects_type) : list CScript :=
  evaluated
    (snd (run (AreInputsStandard_body tx mapInputs reason_prefix ignore_rejects)
            (mkState EmptyString []))).

Definition IsWitnessStandard_evaluated (tx : CTransaction)
    (mapInputs : CCoinsViewCache) (reason_prefix : string)
    (ignore_rejects : ignore_rejects_type) : list CScript :=
  evaluated
    (snd (run (IsWitnessStandard_body tx mapInputs reason_prefix ignore_rejects)
            (mkState EmptyString []))).

(** The script [IsWitnessStandard] looks for a witness program in: the
    previous output's script, or for a pay-to-script-hash output the top
    of the stack the scriptSig evaluates to, if there is one. *)
Definition effective_script (mapInputs : CCoinsViewCache) (txin : CTxIn)
    : option CScript :=
  let prevScript := scriptPubKey (out (AccessCoin mapInputs (prevout txin))) in
  if IsPayToScriptHash prevScript then
    match EvalScript (scriptSig txin) with
    | Some (item :: stack) => Some (back (item :: stack))
    | _ => None
    end
  else Some prevScript.

(** The three P2WSH limits, each either kept or its rejection ignored. *)
Definition p2wsh_limits_or_ignored (reason_prefix : string)
    (S : ignore_rejects_type) (witness : list (list byte)) : Prop :=
  (MAX_STANDARD_P2WSH_SCRIPT_SIZE < size_of (back witness) ->
   reason_prefix +:+ "script-size" ∈ S)
  /\ (MAX_STANDARD_P2WSH_STACK_ITEMS < size_of witness - 1 ->
      reason_prefix +:+ "stackitem-count" ∈ S)
  /\ (forall item,
        In item (take (Z.to_nat (size_of witness - 1)) witness) ->
        MAX_STANDARD_P2WSH_STACK_ITEM_SIZE < size_of item ->
        reason_prefix +:+ "stackitem-size" ∈ S).

(** ** Further predicates on statements *)

(** Whenever the statement leaves with [false], the reason it leaves in
    [out_reason] satisfies [P]. *)
Definition rejects_with {A : Type} (P : string -> Prop) (m : M A) : Prop :=
  forall st st', m st = (Return false, st') -> P (out_reason st').

(** The statement hands to the evaluator only scripts that satisfy [Q]. *)
Definition evaluates_only {A : Type} (Q : CScript -> Prop) (m : M A) : Prop :=
  forall st fl st',
    m st = (fl, st') ->
    exists more, evaluated st' = evaluated st ++ more /\ Forall Q more.

(** Whatever lets [m] go on, or leave with [true], does the same for
    [m']. *)
Definition passes_on {A : Type} (m m' : M A) : Prop :=
  forall st fl st',
    m st = (fl, st') -> fl <> Return false -> m' st = (fl, st').

(** The eight rejection identifiers of [IsStandardTx]. *)
Definition IsStandardTx_reasons : list string :=
  ["version"; "tx-size"; "scriptsig-size"; "scriptsig-not-pushonly";
   "scriptpubkey"; "bare-multisig"; "dust"; "multi-op-return"].

End Accounting.

Module ReferenceSigOps.

(** Modelled from the spec: the sigops of a witness program, 1 for a
    version-0 key hash and the accurate count of the witness script for
    a version-0 script hash. *)
Definition WitnessSigOps (version : Z) (program : list byte)
    (witness : CScriptWitness) : Z :=
  if (version =? 0) && (size_of program =? 20) then 1
  else if (version =? 0) && (size_of program =? 32) then
    match stack witness with
    | [] => 0
    | _ :: _ => Reference.GetSigOpCount (back (stack witness)) true
    end
  else 0.

Definition SCRIPT_VERIFY_P2SH : Z := 1.
Definition SCRIPT_VERIFY_WITNESS : Z := 2048.

(** Modelled from the spec: [CountWitnessSigOps] of interpreter.cpp,
    which counts the witness program of the output or of the redeem
    script a push-only scriptSig ends in, and asserts the P2SH flag. *)
Definition CountWitnessSigOps (scriptSig scriptPubKey : CScript)
    (witness : CScriptWitness) (flags : Z) : option Z :=
  if Z.land flags SCRIPT_VERIFY_WITNESS =? 0 then Some 0
  else if Z.land flags SCRIPT_VERIFY_P2SH =? 0 then None
  else
    match Reference.IsWitnessProgram scriptPubKey with
    | Some (version, program) => Some (WitnessSigOps version program witness)
    | None =>
        if Reference.IsPayToScriptHash scriptPubKey && Reference.IsPushOnly scriptSig then
          match last (fst (Reference.decode scriptSig)) with
          | Some (_, subscript) =>
              match Reference.IsWitnessProgram subscript with
              | Some (version, program) => Some (WitnessSigOps version program witness)
              | None => Some 0
              end
          | None => Some 0
          end
        else Some 0
    end.

(** Modelled from the spec: a coin is spent when its output is null,
    which is marked by the value -1. *)
Definition IsSpent (coin : Coin) : bool := nValue (out coin) =? -1.

(** Modelled from the spec: [GetP2SHSigOpCount] of tx_verify.cpp, the
    accurate counts of the redeem scripts of the pay-to-script-hash
    coins spent, each of which must be unspent. *)
Definition GetP2SHSigOpCount (tx : CTransaction) (inputs : CCoinsViewCache)
    : option Z :=
  if Reference.IsCoinBase tx then Some 0
  else
    fold_left
      (fun (acc : option Z) txin =>
         match acc with
         | None => None
         | Some n =>
             let coin := AccessCoin inputs (prevout txin) in
             if IsSpent coin then None
             else if Reference.IsPayToScriptHash (scriptPubKey (out coin)) then
               match last (fst (Reference.decode (scriptSig txin))) with
               | Some (_, subscript) =>
                   Some (uint32 (n + Reference.GetSigOpCount subscript true))
               | None => Some n
               end
             else Some n
         end)
      (vin tx) (Some 0).

#[export] Instance sigop_collaborators : SigOpCollaborators :=
  Build_SigOpCollaborators GetP2SHSigOpCount CountWitnessSigOps IsSpent
    SCRIPT_VERIFY_P2SH SCRIPT_VERIFY_WITNESS.

End ReferenceSigOps.

Module MoreExamples.
Import Examples.

Definition refops : SigOpCollaborators := ReferenceSigOps.sigop_collaborators.

(** A signature and a key pushed, as a pay-to-pubkey-hash output is
    spent; the key is followed by nothing that counts as a sigop. *)
Definition sig_and_key : CScript :=
  [x02; x30; x01] ++ [x21] ++ replicate 33 x02.

(** The redeem script [OP_CHECKSIG] repeated 16 times, pushed. *)
Definition push_16_checksigs : CScript := [x10] ++ replicate 16 xac.

Definition tx_checksigs : CTransaction :=
  mkTx 1 [spend push_16_checksigs []] [mkTxOut 100000 p2pkh] 0.

(** A witness script of 3601 bytes. *)
Definition tx_big_witness_script : CTransaction :=
  mkTx 1 [spend [] [[x01]; replicate 3601 x51]] [mkTxOut 100000 p2pkh] 0.

(** A version-1 witness program of 32 bytes. *)
Definition witness_v1 : CScript := [x51; x20] ++ replicate 32 x55.

(** A scriptSig that pushes the 34 bytes of [p2wsh]. *)
Definition push_p2wsh : CScript := [x22] ++ p2wsh.

Definition tx_wrapped_p2wsh : CTransaction :=
  mkTx 1 [spend push_p2wsh [[x01]; [x51]]] [mkTxOut 100000 p2pkh] 0.

(** A coin view whose coins are all spent. *)
Definition coins_spent : CCoinsViewCache :=
  fun _ => mkCoin (mkTxOut (-1) []) false 0.

(** An output script the solver does not know, and a dust output. *)
Definition tx_unknown_and_dust : CTransaction :=
  mkTx 3 [spend [x76] []] [mkTxOut 100000 [x76]; mkTxOut 1 p2pkh] 0.


Definition all_reasons : gset string :=
  {["version"; "tx-size"; "scriptsig-size"; "scriptsig-not-pushonly";
    "scriptpubkey"; "bare-multisig"; "dust"; "multi-op-return"]}.

End MoreExamples.

(** ** Properties *)

Section Properties.
Context {env : Collaborators}.

(** *** The ignore set *)

Lemma count_true (S : ignore_rejects_type) (x : string) :
  count S x = true <-> x ∈ S.
Proof. unfold count. apply bool_decide_eq_true. Qed.

Lemma count_false (S : ignore_rejects_type) (x : string) :
  count S x = false <-> x ∉ S.
Proof. unfold count. apply bool_decide_eq_false. Qed.

Lemma count_added (S : ignore_rejects_type) (r : string) :
  count (S ∪ {[r]}) r = true.
Proof. apply count_true. set_solver. Qed.

Lemma count_other (S : ignore_rejects_type) (r x : string) :
  x <> r -> count (S ∪ {[r]}) x = count S x.
Proof.
  intros Hne. unfold count. apply bool_decide_ext.
  rewrite elem_of_union, elem_of_singleton. tauto.
Qed.

Lemma count_mono (S : ignore_rejects_type) (r x : string) :
  count S x = true -> count (S ∪ {[r]}) x = true.
Proof. rewrite !count_true. set_solver. Qed.

(** *** Control flow *)

Lemma MaybeReject_ignored (reason reason_prefix : string)
    (S : ignore_rejects_type) (st : state) :
  count S (reason_prefix +:+ reason) = true ->
  MaybeReject reason reason_prefix S st = (Next tt, st).
Proof. intros H. unfold MaybeReject, MaybeReject_. rewrite H. reflexivity. Qed.

Lemma MaybeReject_rejects (reason reason_prefix : string)
    (S : ignore_rejects_type) (st : state) :
  count S (reason_prefix +:+ reason) = false ->
  MaybeReject reason reason_prefix S st
  = (Return false, mkState (reason_prefix +:+ reason) (evaluated st)).
Proof. intros H. unfold MaybeReject, MaybeReject_. rewrite H. reflexivity. Qed.

Lemma bind_Next {A B : Type} (m : M A) (k : A -> M B) (st st' : state) (a : A) :
  m st = (Next a, st') -> bind m k st = k a st'.
Proof. intros H. unfold bind. now rewrite H. Qed.

Lemma bind_Return {A B : Type} (m : M A) (k : A -> M B) (st st' : state) (b : bool) :
  m st = (Return b, st') -> bind m k st = (Return b, st').
Proof. intros H. unfold bind. now rewrite H. Qed.

Lemma foldM_app {A B : Type} (body : B -> A -> M B) (l1 l2 : list A) (acc : B)
    (st : state) :
  foldM body (l1 ++ l2) acc st
  = bind (foldM body l1 acc) (foldM body l2) st.
Proof.
  revert acc st. induction l1 as [|x l1 IH]; intros acc st; simpl.
  - reflexivity.
  - unfold bind in *. destruct (body acc x st) as [[a|b] st1].
    + apply IH.
    + reflexivity.
Qed.

Lemma for_each_app {A : Type} (body : A -> M unit) (l1 l2 : list A) (st : state) :
  for_each (l1 ++ l2) body st
  = bind (for_each l1 body) (fun _ => for_each l2 body) st.
Proof.
  unfold for_each. rewrite foldM_app. unfold bind.
  destruct (foldM _ l1 tt st) as [[[]|b] st1]; reflexivity.
Qed.

Lemma same_refl {A : Type} (m : M A) : same m m.
Proof. now intros st. Qed.

Lemma same_bind {A B : Type} (m m' : M A) (k k' : A -> M B) :
  same m m' -> (forall a, same (k a) (k' a)) -> same (bind m k) (bind m' k').
Proof.
  intros Hm Hk st. unfold bind. rewrite Hm.
  destruct (m' st) as [[a|b] st1]; [apply Hk | reflexivity].
Qed.

Lemma same_when (c c' : bool) (m m' : M unit) :
  c = c' -> (c = true -> same m m') -> same (when c m) (when c' m').
Proof.
  intros <- Hm. destruct c; simpl; [now apply Hm | apply same_refl].
Qed.

Lemma same_foldM {A B : Type} (body body' : B -> A -> M B) (l : list A) :
  (forall x, In x l -> forall acc, same (body acc x) (body' acc x)) ->
  forall acc, same (foldM body l acc) (foldM body' l acc).
Proof.
  induction l as [|x l IH]; intros Hb acc; simpl.
  - apply same_refl.
  - apply same_bind.
    + apply Hb. now left.
    + intros a. apply IH. intros y Hy. apply Hb. now right.
Qed.

Lemma quiet_bind (m k : M unit) : quiet m -> quiet k -> quiet (m ;; k).
Proof. intros Hm Hk st. unfold bind. rewrite Hm. apply Hk. Qed.

Lemma bind_quiet {B : Type} (m : M unit) (k : unit -> M B) (st : state) :
  quiet m -> bind m k st = k tt st.
Proof. intros Hm. unfold bind. now rewrite Hm. Qed.

Lemma quiet_when (c : bool) (m : M unit) :
  (c = true -> quiet m) -> quiet (when c m).
Proof. intros Hm. destruct c; simpl; [now apply Hm | now intros st]. Qed.

Lemma quiet_for_each {A : Type} (body : A -> M unit) (l : list A) :
  (forall x, In x l -> quiet (body x)) -> quiet (for_each l body).
Proof.
  unfold for_each. induction l as [|x l IH]; intros Hb st; simpl.
  - reflexivity.
  - unfold bind. rewrite (Hb x (or_introl eq_refl)).
    apply IH. intros y Hy. apply Hb. now right.
Qed.

Lemma quiet_same (m m' : M unit) : quiet m -> quiet m' -> same m m'.
Proof. intros H H' st. now rewrite H, H'. Qed.

Lemma quiet_MaybeReject (reason : string) (S : ignore_rejects_type) :
  count S reason = true -> quiet (MaybeReject reason EmptyString S).
Proof. intros H st. now apply MaybeReject_ignored. Qed.

(** *** Rejections of [IsStandardTx] lie outside the ignore set *)

Lemma rejects_outside_pure {A : Type} (S : ignore_rejects_type) (a : A) :
  rejects_outside S (pure a).
Proof. intros st st' H. discriminate H. Qed.

Lemma rejects_outside_bind {A B : Type} (S : ignore_rejects_type)
    (m : M A) (k : A -> M B) :
  rejects_outside S m -> (forall a, rejects_outside S (k a)) ->
  rejects_outside S (bind m k).
Proof.
  intros Hm Hk st st' H. unfold bind in H.
  destruct (m st) as [[a|b] st1] eqn:E.
  - now apply (Hk a st1).
  - inversion H; subst. now apply (Hm st).
Qed.

Lemma rejects_outside_when (S : ignore_rejects_type) (c : bool) (m : M unit) :
  (c = true -> rejects_outside S m) -> rejects_outside S (when c m).
Proof.
  intros Hm. destruct c; simpl; [now apply Hm | apply rejects_outside_pure].
Qed.

Lemma rejects_outside_foldM {A B : Type} (S : ignore_rejects_type)
    (body : B -> A -> M B) (l : list A) :
  (forall acc x, rejects_outside S (body acc x)) ->
  forall acc, rejects_outside S (foldM body l acc).
Proof.
  intros Hb. induction l as [|x l IH]; intros acc; simpl.
  - apply rejects_outside_pure.
  - apply rejects_outside_bind; [apply Hb | apply IH].
Qed.

Lemma rejects_outside_MaybeReject (S : ignore_rejects_type) (reason : string) :
  rejects_outside S (MaybeReject reason EmptyString S).
Proof.
  intros st st' H. unfold MaybeReject, MaybeReject_ in H.
  destruct (count S (EmptyString +:+ reason)) eqn:E; inversion H; subst; simpl.
  now apply count_false.
Qed.

Lemma rejects_outside_set (S : ignore_rejects_type) (reason : string) :
  count S reason = false ->
  rejects_outside S (set_out_reason reason ;; @return_ unit false).
Proof.
  intros Hc st st' H. unfold bind, set_out_reason, return_ in H.
  inversion H; subst; simpl. now apply count_false.
Qed.

Lemma rejects_outside_return_true (S : ignore_rejects_type) :
  rejects_outside S (@return_ unit true).
Proof. intros st st' H. discriminate H. Qed.

Lemma IsStandardTx_body_rejects_outside (tx : CTransaction)
    (witnessEnabled : bool) (S : ignore_rejects_type) :
  rejects_outside S (IsStandardTx_body tx witnessEnabled S).
Proof.
  unfold IsStandardTx_body.
  apply rejects_outside_bind;
    [apply rejects_outside_when; intros _; apply rejects_outside_MaybeReject|intros _].
  apply rejects_outside_bind; [|intros _].
  { apply rejects_outside_when. intros Hc. apply negb_true_iff in Hc.
    apply rejects_outside_when. intros _. now apply rejects_outside_set. }
  apply rejects_outside_bind; [|intros _].
  { apply rejects_outside_when. intros _. unfold for_each.
    apply rejects_outside_foldM. intros _ txin. unfold IsStandardTx_input.
    apply rejects_outside_bind;
      [apply rejects_outside_when; intros _; apply rejects_outside_MaybeReject|intros _].
    apply rejects_outside_when. intros Hc. apply andb_true_iff in Hc as [Hc _].
    apply negb_true_iff in Hc. now apply rejects_outside_set. }
  apply rejects_outside_bind; [|intros _; apply rejects_outside_return_true].
  apply rejects_outside_when. intros _.
  apply rejects_outside_bind.
  - apply rejects_outside_foldM. intros nDataOut txout.
    unfold IsStandardTx_output.
    destruct (IsStandard (scriptPubKey txout) witnessEnabled) as [standard whichType].
    apply rejects_outside_bind;
      [apply rejects_outside_when; intros _; apply rejects_outside_MaybeReject|intros _].
    destruct (bool_decide (whichType = TX_NULL_DATA)).
    + apply rejects_outside_pure.
    + apply rejects_outside_bind;
        [apply rejects_outside_when; intros _; apply rejects_outside_MaybeReject|intros _].
      apply rejects_outside_bind;
        [apply rejects_outside_when; intros _; apply rejects_outside_MaybeReject|intros _].
      apply rejects_outside_pure.
  - intros nDataOut. apply rejects_outside_when. intros _.
    apply rejects_outside_MaybeReject.
Qed.

(** What [IsStandardTx] returns, read off the run of its body. *)
Lemma IsStandardTx_run (tx : CTransaction) (out_reason0 : string)
    (witnessEnabled : bool) (S : ignore_rejects_type) (fl : flow unit) (st : state) :
  IsStandardTx_body tx witnessEnabled S (mkState out_reason0 []) = (fl, st) ->
  IsStandardTx tx out_reason0 witnessEnabled S
  = (match fl with Return b => b | Next _ => true end, out_reason st).
Proof.
  intros H. unfold IsStandardTx, run. rewrite H. now destruct fl.
Qed.

(** *** The rules, one by one *)

Lemma triggers_version (tx : CTransaction) (we : bool) :
  triggers tx we "version"
  = (MAX_STANDARD_VERSION <? nVersion tx) || (nVersion tx <? 1).
Proof. reflexivity. Qed.

Lemma triggers_tx_size (tx : CTransaction) (we : bool) :
  triggers tx we "tx-size"
  = (MAX_STANDARD_TX_WEIGHT <=? uint32 (GetTransactionWeight tx)).
Proof. reflexivity. Qed.

Lemma triggers_scriptsig_size (tx : CTransaction) (we : bool) :
  triggers tx we "scriptsig-size"
  = existsb (fun txin => 1650 <? size_of (scriptSig txin)) (vin tx).
Proof. reflexivity. Qed.

Lemma triggers_not_pushonly (tx : CTransaction) (we : bool) :
  triggers tx we "scriptsig-not-pushonly"
  = existsb (fun txin => negb (IsPushOnly (scriptSig txin))) (vin tx).
Proof. reflexivity. Qed.

Lemma triggers_scriptpubkey (tx : CTransaction) (we : bool) :
  triggers tx we "scriptpubkey"
  = existsb (fun txout => negb (fst (IsStandard (scriptPubKey txout) we))) (vout tx).
Proof. reflexivity. Qed.

Lemma triggers_bare_multisig (tx : CTransaction) (we : bool) :
  triggers tx we "bare-multisig"
  = existsb
      (fun txout =>
         bool_decide (snd (IsStandard (scriptPubKey txout) we) = TX_MULTISIG)
         && negb fIsBareMultisigStd)
      (vout tx).
Proof. reflexivity. Qed.

Lemma triggers_dust (tx : CTransaction) (we : bool) :
  triggers tx we "dust"
  = existsb
      (fun txout => negb (is_null_data we txout) && IsDust txout dustRelayFee)
      (vout tx).
Proof. reflexivity. Qed.

Lemma triggers_multi_op_return (tx : CTransaction) (we : bool) :
  triggers tx we "multi-op-return" = (1 <? count_null_data we (vout tx) 0).
Proof. reflexivity. Qed.

Lemma existsb_false_at {A : Type} (f : A -> bool) (l : list A) (x : A) :
  existsb f l = false -> In x l -> f x = false.
Proof.
  intros He Hx. destruct (f x) eqn:E; [|reflexivity].
  assert (existsb f l = true) by (apply existsb_exists; eauto). congruence.
Qed.

Lemma existsb_true_at {A : Type} (f : A -> bool) (l : list A) (x : A) :
  In x l -> f x = true -> existsb f l = true.
Proof. intros Hx E. apply existsb_exists. eauto. Qed.

(** Adding [r] to the ignore set leaves a guarded [MaybeReject] alone
    when the guard fails whenever the rule is [r] itself. *)
Lemma same_MaybeReject_when (S : ignore_rejects_type) (r reason : string) (c : bool) :
  (reason = r -> c = false) ->
  same (when c (MaybeReject reason EmptyString (S ∪ {[r]})))
       (when c (MaybeReject reason EmptyString S)).
Proof.
  intros Hc. apply same_when; [reflexivity|]. intros ->.
  intros st. unfold MaybeReject, MaybeReject_.
  change (EmptyString +:+ reason) with reason.
  rewrite count_other; [reflexivity|]. intros ->. now discriminate Hc.
Qed.

Lemma quiet_MaybeReject_when (S : ignore_rejects_type) (reason : string) (c : bool) :
  (c = true -> count S reason = true) ->
  quiet (when c (MaybeReject reason EmptyString S)).
Proof. intros Hc. apply quiet_when. intros E. apply quiet_MaybeReject. now apply Hc. Qed.

Lemma same_bind_strong {A B : Type} (m m' : M A) (k k' : A -> M B) :
  same m m' ->
  (forall st a st', m' st = (Next a, st') -> k a st' = k' a st') ->
  same (bind m k) (bind m' k').
Proof.
  intros Hm Hk st. unfold bind. rewrite Hm.
  destruct (m' st) as [[a|b] st1] eqn:E; [now apply (Hk st) | reflexivity].
Qed.

Lemma same_when_guard (g' g : bool) (m' m : M unit) :
  same m' m ->
  (g' = true -> g = true) ->
  (g' = false -> g = true -> quiet m) ->
  same (when g' m') (when g m).
Proof.
  intros Hs Hmono Hq. destruct g', g; simpl.
  - exact Hs.
  - now discriminate Hmono.
  - intros st. now rewrite Hq.
  - apply same_refl.
Qed.

(** The loop over the inputs. *)

Lemma IsStandardTx_input_quiet (S : ignore_rejects_type) (f : bool) (txin : CTxIn) :
  ((1650 <? size_of (scriptSig txin)) = true -> count S "scriptsig-size" = true) ->
  f && negb (IsPushOnly (scriptSig txin)) = false ->
  quiet (IsStandardTx_input f EmptyString S txin).
Proof.
  intros Hsize Hpush. unfold IsStandardTx_input. apply quiet_bind.
  - now apply quiet_MaybeReject_when.
  - rewrite Hpush. now intros st.
Qed.

Lemma IsStandardTx_input_same (S : ignore_rejects_type) (r : string)
    (f' f : bool) (txin : CTxIn) :
  (r = "scriptsig-size" -> (1650 <? size_of (scriptSig txin)) = false) ->
  f' && negb (IsPushOnly (scriptSig txin)) = f && negb (IsPushOnly (scriptSig txin)) ->
  same (IsStandardTx_input f' EmptyString (S ∪ {[r]}) txin) (IsStandardTx_input f EmptyString S txin).
Proof.
  intros Hsize Hpush. unfold IsStandardTx_input. apply same_bind.
  - apply same_MaybeReject_when. intros <-. now apply Hsize.
  - intros _. rewrite Hpush. apply same_refl.
Qed.

(** The loop over the outputs. *)

Lemma foldM_outputs_Next (S : ignore_rejects_type) (we : bool) (outs : list CTxOut) :
  forall n st n' st',
    foldM (IsStandardTx_output we EmptyString S) outs n st = (Next n', st') ->
    n' = count_null_data we outs n.
Proof.
  induction outs as [|txout outs IH]; intros n st n' st' H; simpl in *.
  - unfold pure in H. now inversion H.
  - unfold bind in H.
    destruct (IsStandardTx_output we EmptyString S n txout st) as [[a|b] st1] eqn:E;
      [|discriminate H].
    apply IH in H. subst n'. f_equal.
    unfold IsStandardTx_output, is_null_data in *.
    destruct (IsStandard (scriptPubKey txout) we) as [standard whichType]; simpl.
    unfold bind in E.
    destruct (when (negb standard) _ st) as [[[]|b] st2]; [|discriminate E].
    destruct (bool_decide (whichType = TX_NULL_DATA)).
    + unfold pure in E. now inversion E.
    + destruct (when (_ && negb fIsBareMultisigStd) _ st2) as [[[]|b] st3];
        [|discriminate E].
      destruct (when (IsDust txout dustRelayFee) _ st3) as [[[]|b] st4];
        [|discriminate E].
      unfold pure in E. now inversion E.
Qed.

Lemma foldM_outputs_quiet (S : ignore_rejects_type) (we : bool) (outs : list CTxOut) :
  (forall txout, In txout outs -> output_passes S we txout) ->
  forall n st,
    foldM (IsStandardTx_output we EmptyString S) outs n st
    = (Next (count_null_data we outs n), st).
Proof.
  induction outs as [|txout outs IH]; intros Hp n st; simpl.
  - reflexivity.
  - destruct (Hp txout (or_introl eq_refl)) as (Hspk & Hbare & Hdust).
    assert (E : IsStandardTx_output we EmptyString S n txout st
                = (Next (if is_null_data we txout then uint32 (n + 1) else n), st)).
    { unfold IsStandardTx_output, is_null_data in *.
      destruct (IsStandard (scriptPubKey txout) we) as [standard whichType];
        simpl in *.
      unfold bind. rewrite quiet_MaybeReject_when
        by (intros Hc; apply Hspk; now apply negb_true_iff).
      destruct (bool_decide (whichType = TX_NULL_DATA)); [reflexivity|].
      rewrite quiet_MaybeReject_when by exact Hbare.
      rewrite quiet_MaybeReject_when by exact Hdust.
      reflexivity. }
    unfold bind. rewrite E. apply IH. intros y Hy. apply Hp. now right.
Qed.

Lemma IsStandardTx_output_same (S : ignore_rejects_type) (r : string) (we : bool)
    (n : Z) (txout : CTxOut) :
  (r = "scriptpubkey" -> fst (IsStandard (scriptPubKey txout) we) = true) ->
  (r = "bare-multisig" ->
   bool_decide (snd (IsStandard (scriptPubKey txout) we) = TX_MULTISIG)
   && negb fIsBareMultisigStd = false) ->
  (r = "dust" -> negb (is_null_data we txout) && IsDust txout dustRelayFee = false) ->
  same (IsStandardTx_output we EmptyString (S ∪ {[r]}) n txout)
       (IsStandardTx_output we EmptyString S n txout).
Proof.
  intros Hspk Hbare Hdust. unfold IsStandardTx_output, is_null_data in *.
  destruct (IsStandard (scriptPubKey txout) we) as [standard whichType]; simpl in *.
  apply same_bind.
  - apply same_MaybeReject_when. intros <-. rewrite Hspk; reflexivity.
  - intros _. destruct (bool_decide (whichType = TX_NULL_DATA)); simpl in *.
    + apply same_refl.
    + apply same_bind; [|intros _; apply same_bind; [|intros _; apply same_refl]].
      * apply same_MaybeReject_when. intros <-. now apply Hbare.
      * apply same_MaybeReject_when. intros <-. now apply Hdust.
Qed.

Lemma tolerates_added (S : ignore_rejects_type) (tx : CTransaction) (we : bool)
    (r reason : string) :
  triggers tx we r = false ->
  count (S ∪ {[r]}) reason = true ->
  tolerates S tx we reason.
Proof.
  intros Hr Hc Ht. destruct (decide (reason = r)) as [->|Hne].
  - congruence.
  - now rewrite count_other in Hc.
Qed.

Lemma inputs_quiet (S : ignore_rejects_type) (tx : CTransaction) (we : bool) :
  tolerates S tx we "scriptsig-size" ->
  tolerates S tx we "scriptsig-not-pushonly" ->
  quiet (for_each (vin tx)
           (IsStandardTx_input (negb (count S "scriptsig-not-pushonly")) EmptyString S)).
Proof.
  intros Hsize Hpush. apply quiet_for_each. intros txin Hin.
  apply IsStandardTx_input_quiet.
  - intros E. apply Hsize. rewrite triggers_scriptsig_size.
    now apply (existsb_true_at _ _ txin).
  - destruct (count S "scriptsig-not-pushonly") eqn:Ec; [reflexivity|]. simpl.
    destruct (negb (IsPushOnly (scriptSig txin))) eqn:E; [|reflexivity].
    assert (Hc : count S "scriptsig-not-pushonly" = true); [|congruence].
    apply Hpush. rewrite triggers_not_pushonly.
    now apply (existsb_true_at _ _ txin).
Qed.

Lemma outputs_pass (S : ignore_rejects_type) (tx : CTransaction) (we : bool) :
  tolerates S tx we "scriptpubkey" ->
  tolerates S tx we "bare-multisig" ->
  tolerates S tx we "dust" ->
  forall txout, In txout (vout tx) -> output_passes S we txout.
Proof.
  intros Hspk Hbare Hdust txout Hin. repeat split; intros E.
  - apply Hspk. rewrite triggers_scriptpubkey.
    apply (existsb_true_at _ _ txout Hin). now rewrite E.
  - apply Hbare. rewrite triggers_bare_multisig.
    now apply (existsb_true_at _ _ txout Hin).
  - apply Hdust. rewrite triggers_dust.
    now apply (existsb_true_at _ _ txout Hin).
Qed.

Lemma outputs_quiet (S : ignore_rejects_type) (tx : CTransaction) (we : bool) :
  tolerates S tx we "scriptpubkey" ->
  tolerates S tx we "bare-multisig" ->
  tolerates S tx we "dust" ->
  tolerates S tx we "multi-op-return" ->
  quiet (do nDataOut <- foldM (IsStandardTx_output we EmptyString S) (vout tx) 0 ;
         when (1 <? nDataOut) (MaybeReject "multi-op-return" EmptyString S)).
Proof.
  intros Hspk Hbare Hdust Hmulti st. unfold bind.
  rewrite foldM_outputs_quiet by now apply outputs_pass.
  apply quiet_MaybeReject_when. intros E. apply Hmulti.
  now rewrite triggers_multi_op_return.
Qed.

(** *** Irrelevant overrides *)

Lemma IsStandardTx_body_same (tx : CTransaction) (we : bool)
    (S : ignore_rejects_type) (r : string) :
  triggers tx we r = false ->
  same (IsStandardTx_body tx we (S ∪ {[r]})) (IsStandardTx_body tx we S).
Proof.
  intros Hr. unfold IsStandardTx_body.
  apply same_bind; [|intros _; apply same_bind; [|intros _; apply same_bind;
    [|intros _; apply same_bind; [|intros _; apply same_refl]]]].
  - (* version *)
    apply same_MaybeReject_when. intros <-. now rewrite triggers_version in Hr.
  - (* tx-size *)
    destruct (decide (r = "tx-size")) as [->|Hne].
    + rewrite triggers_tx_size in Hr. rewrite Hr.
      apply quiet_same; apply quiet_when; intros _ st; reflexivity.
    + rewrite count_other by congruence. apply same_refl.
  - (* inputs *)
    apply same_when_guard.
    + unfold for_each. apply same_foldM. intros txin Hin _.
      apply IsStandardTx_input_same.
      * intros ->. rewrite triggers_scriptsig_size in Hr.
        apply (existsb_false_at _ _ _ Hr Hin).
      * destruct (decide (r = "scriptsig-not-pushonly")) as [->|Hne].
        -- rewrite triggers_not_pushonly in Hr.
           rewrite (existsb_false_at _ _ _ Hr Hin). now rewrite !andb_false_r.
        -- now rewrite count_other by congruence.
    + intros Hg.
      destruct (count S "scriptsig-size") eqn:E1; [|reflexivity].
      destruct (count S "scriptsig-not-pushonly") eqn:E2; [|reflexivity].
      now rewrite !count_mono in Hg.
    + intros Hg _. apply orb_false_iff in Hg as [Hg1 Hg2].
      apply negb_false_iff in Hg1, Hg2.
      apply (inputs_quiet S tx we); now apply (tolerates_added _ _ _ r).
  - (* outputs *)
    apply same_when_guard.
    + apply same_bind_strong.
      * apply same_foldM. intros txout Hin n.
        apply IsStandardTx_output_same.
        -- intros ->. rewrite triggers_scriptpubkey in Hr.
           apply negb_false_iff. apply (existsb_false_at _ _ _ Hr Hin).
        -- intros ->. rewrite triggers_bare_multisig in Hr.
           apply (existsb_false_at _ _ _ Hr Hin).
        -- intros ->. rewrite triggers_dust in Hr.
           apply (existsb_false_at _ _ _ Hr Hin).
      * intros st n st' E. apply foldM_outputs_Next in E. subst n.
        apply same_MaybeReject_when. intros <-.
        now rewrite triggers_multi_op_return in Hr.
    + intros Hg.
      destruct (count S "scriptpubkey") eqn:E1; [|reflexivity].
      destruct (count S "bare-multisig") eqn:E2; [|reflexivity].
      destruct (count S "dust") eqn:E3; [|reflexivity].
      destruct (count S "multi-op-return") eqn:E4; [|reflexivity].
      now rewrite !count_mono in Hg.
    + intros Hg _. apply negb_false_iff in Hg.
      apply andb_true_iff in Hg as [Hg H4].
      apply andb_true_iff in Hg as [Hg H3].
      apply andb_true_iff in Hg as [H1 H2].
      apply outputs_quiet; now apply (tolerates_added _ _ _ r).
Qed.

(** C3.  Adding to the ignore set a reason whose rule the transaction
    does not trigger changes neither the verdict of [IsStandardTx] nor
    the reason string it leaves. *)
Theorem IsStandardTx_irrelevant_override (tx : CTransaction) (out_reason0 : string)
    (witnessEnabled : bool) (S : ignore_rejects_type) (r : string) :
  triggers tx witnessEnabled r = false ->
  IsStandardTx tx out_reason0 witnessEnabled (S ∪ {[r]})
  = IsStandardTx tx out_reason0 witnessEnabled S.
Proof.
  intros Hr. unfold IsStandardTx, run.
  now rewrite (IsStandardTx_body_same tx witnessEnabled S r Hr).
Qed.

(** C10.  A reason reported by [IsStandardTx] together with [false] is
    never a member of the ignore set it was given. *)
Theorem IsStandardTx_reason_not_ignored (tx : CTransaction) (out_reason0 : string)
    (witnessEnabled : bool) (S : ignore_rejects_type) (reason : string) :
  IsStandardTx tx out_reason0 witnessEnabled S = (false, reason) ->
  reason ∉ S.
Proof.
  unfold IsStandardTx, run. intros H.
  destruct (IsStandardTx_body tx witnessEnabled S (mkState out_reason0 []))
    as [[[]|b] st] eqn:E; inversion H; subst.
  now apply (IsStandardTx_body_rejects_outside tx witnessEnabled S _ _ E).
Qed.

(** *** More than one data-carrier output *)

(** Below 2^32 outputs the counter does not wrap and counts the
    data-carrier outputs. *)
Lemma count_null_data_filter (we : bool) (outs : list CTxOut) :
  forall n0,
    0 <= n0 -> n0 + size_of outs < 2 ^ 32 ->
    count_null_data we outs n0 = n0 + size_of (List.filter (is_null_data we) outs).
Proof.
  unfold size_of.
  induction outs as [|txout outs IH]; intros n0 H0 Hlt; simpl in *.
  - lia.
  - destruct (is_null_data we txout); simpl.
    + unfold uint32. rewrite Z.mod_small by lia. rewrite IH by lia. lia.
    + rewrite IH by lia. lia.
Qed.

Lemma no_true_pure {A : Type} (a : A) : no_true (pure a).
Proof. intros st st' H. discriminate H. Qed.

Lemma no_true_bind {A B : Type} (m : M A) (k : A -> M B) :
  no_true m -> (forall a, no_true (k a)) -> no_true (bind m k).
Proof.
  intros Hm Hk st st' H. unfold bind in H.
  destruct (m st) as [[a|b] st1] eqn:E.
  - now apply (Hk a st1 st').
  - inversion H; subst. now apply (Hm st st').
Qed.

Lemma no_true_when (c : bool) (m : M unit) : no_true m -> no_true (when c m).
Proof. intros Hm. destruct c; simpl; [exact Hm | apply no_true_pure]. Qed.

Lemma no_true_foldM {A B : Type} (body : B -> A -> M B) (l : list A) :
  (forall acc x, no_true (body acc x)) -> forall acc, no_true (foldM body l acc).
Proof.
  intros Hb. induction l as [|x l IH]; intros acc; simpl.
  - apply no_true_pure.
  - apply no_true_bind; [apply Hb | apply IH].
Qed.

Lemma no_true_MaybeReject (reason reason_prefix : string) (S : ignore_rejects_type) :
  no_true (MaybeReject reason reason_prefix S).
Proof.
  intros st st' H. unfold MaybeReject, MaybeReject_ in H.
  destruct (count S (reason_prefix +:+ reason)); discriminate H.
Qed.

Lemma no_true_set (reason : string) :
  no_true (set_out_reason reason ;; @return_ unit false).
Proof. intros st st' H. discriminate H. Qed.

Lemma fails_bind_l {A B : Type} (m : M A) (k : A -> M B) :
  fails m -> fails (bind m k).
Proof. intros Hm st. destruct (Hm st) as [st' E]. exists st'. unfold bind. now rewrite E. Qed.

Lemma fails_bind_r {A B : Type} (m : M A) (k : A -> M B) :
  no_true m -> (forall a, fails (k a)) -> fails (bind m k).
Proof.
  intros Hm Hk st. unfold bind. destruct (m st) as [[a|[]] st1] eqn:E.
  - apply Hk.
  - now apply Hm in E.
  - now exists st1.
Qed.

Lemma fails_bind_strong {A B : Type} (m : M A) (k : A -> M B) :
  no_true m ->
  (forall st a st', m st = (Next a, st') -> exists st'', k a st' = (Return false, st'')) ->
  fails (bind m k).
Proof.
  intros Hm Hk st. unfold bind. destruct (m st) as [[a|[]] st1] eqn:E.
  - now apply (Hk st).
  - now apply Hm in E.
  - now exists st1.
Qed.

Lemma IsStandardTx_input_no_true (f : bool) (S : ignore_rejects_type) (txin : CTxIn) :
  no_true (IsStandardTx_input f EmptyString S txin).
Proof.
  unfold IsStandardTx_input. apply no_true_bind.
  - apply no_true_when, no_true_MaybeReject.
  - intros _. apply no_true_when, no_true_set.
Qed.

Lemma IsStandardTx_output_no_true (we : bool) (S : ignore_rejects_type) (n : Z)
    (txout : CTxOut) :
  no_true (IsStandardTx_output we EmptyString S n txout).
Proof.
  unfold IsStandardTx_output.
  destruct (IsStandard (scriptPubKey txout) we) as [standard whichType].
  apply no_true_bind; [apply no_true_when, no_true_MaybeReject|intros _].
  destruct (bool_decide (whichType = TX_NULL_DATA)); [apply no_true_pure|].
  apply no_true_bind; [apply no_true_when, no_true_MaybeReject|intros _].
  apply no_true_bind; [apply no_true_when, no_true_MaybeReject|intros _].
  apply no_true_pure.
Qed.

(** With more than one data-carrier output counted and the rule not
    ignored, the body cannot end well. *)
Lemma IsStandardTx_body_fails (tx : CTransaction) (we : bool) (S : ignore_rejects_type) :
  (1 <? count_null_data we (vout tx) 0) = true ->
  count S "multi-op-return" = false ->
  fails (IsStandardTx_body tx we S).
Proof.
  intros Hn Hc. unfold IsStandardTx_body.
  apply fails_bind_r; [apply no_true_when, no_true_MaybeReject|intros _].
  apply fails_bind_r; [apply no_true_when, no_true_when, no_true_set|intros _].
  apply fails_bind_r.
  { apply no_true_when. unfold for_each. apply no_true_foldM.
    intros _ txin. apply IsStandardTx_input_no_true. }
  intros _. apply fails_bind_l.
  rewrite Hc, !andb_false_r. simpl.
  apply fails_bind_strong.
  - apply no_true_foldM. intros n txout. apply IsStandardTx_output_no_true.
  - intros st n st' E. apply foldM_outputs_Next in E. subst n.
    rewrite Hn. simpl. rewrite MaybeReject_rejects by exact Hc. eauto.
Qed.

Lemma tx_size_quiet (S : ignore_rejects_type) (tx : CTransaction) (we : bool) :
  tolerates S tx we "tx-size" ->
  quiet (when (negb (count S "tx-size"))
           (when (MAX_STANDARD_TX_WEIGHT <=? uint32 (GetTransactionWeight tx))
              (set_out_reason "tx-size" ;; return_ false))).
Proof.
  intros Ht. apply quiet_when. intros Hc. apply negb_true_iff in Hc.
  destruct (MAX_STANDARD_TX_WEIGHT <=? uint32 (GetTransactionWeight tx)) eqn:E.
  - rewrite Ht in Hc; [discriminate Hc|]. now rewrite triggers_tx_size.
  - now intros st.
Qed.

Lemma version_quiet (S : ignore_rejects_type) (tx : CTransaction) (we : bool) :
  tolerates S tx we "version" ->
  quiet (when ((MAX_STANDARD_VERSION <? nVersion tx) || (nVersion tx <? 1))
           (MaybeReject "version" EmptyString S)).
Proof.
  intros Ht. apply quiet_MaybeReject_when. intros E. apply Ht.
  now rewrite triggers_version.
Qed.

Lemma inputs_guard_quiet (S : ignore_rejects_type) (tx : CTransaction) (we : bool) :
  tolerates S tx we "scriptsig-size" ->
  tolerates S tx we "scriptsig-not-pushonly" ->
  quiet (when (negb (count S "scriptsig-size")
               || negb (count S "scriptsig-not-pushonly"))
           (for_each (vin tx)
              (IsStandardTx_input (negb (count S "scriptsig-not-pushonly")) EmptyString S))).
Proof. intros H1 H2. apply quiet_when. intros _. now apply (inputs_quiet S tx we). Qed.

(** With every triggered rule ignored, the body reaches its end and
    leaves [out_reason] alone. *)
Lemma IsStandardTx_body_passes (tx : CTransaction) (we : bool) (S : ignore_rejects_type) :
  (forall r, tolerates S tx we r) ->
  forall st, IsStandardTx_body tx we S st = (Return true, st).
Proof.
  intros Hall st. unfold IsStandardTx_body.
  rewrite (bind_quiet _ _ st (version_quiet S tx we (Hall _))).
  rewrite (bind_quiet _ _ st (tx_size_quiet S tx we (Hall _))).
  rewrite (bind_quiet _ _ st (inputs_guard_quiet S tx we (Hall _) (Hall _))).
  rewrite bind_quiet; [reflexivity|].
  apply quiet_when. intros _. apply outputs_quiet; apply Hall.
Qed.

(** With every triggered rule but "multi-op-return" ignored, and that one
    triggered, the body leaves with it. *)
Lemma IsStandardTx_body_multi (tx : CTransaction) (we : bool) (S : ignore_rejects_type) :
  (forall r, r <> "multi-op-return" -> tolerates S tx we r) ->
  (1 <? count_null_data we (vout tx) 0) = true ->
  count S "multi-op-return" = false ->
  forall st,
    IsStandardTx_body tx we S st
    = (Return false, mkState "multi-op-return" (evaluated st)).
Proof.
  intros Hall Hn Hc st. unfold IsStandardTx_body.
  assert (Hversion := Hall "version" ltac:(discriminate)).
  assert (Hsize := Hall "tx-size" ltac:(discriminate)).
  assert (Hsig := Hall "scriptsig-size" ltac:(discriminate)).
  assert (Hpush := Hall "scriptsig-not-pushonly" ltac:(discriminate)).
  rewrite (bind_quiet _ _ st (version_quiet S tx we Hversion)).
  rewrite (bind_quiet _ _ st (tx_size_quiet S tx we Hsize)).
  rewrite (bind_quiet _ _ st (inputs_guard_quiet S tx we Hsig Hpush)).
  rewrite Hc, !andb_false_r. simpl. unfold bind.
  rewrite foldM_outputs_quiet
    by (apply (outputs_pass S tx we); apply Hall; discriminate).
  rewrite Hn. simpl. now rewrite MaybeReject_rejects by exact Hc.
Qed.

(** C4, as the code has it.  A transaction with at least two
    data-carrier outputs (and fewer than 2^32 outputs, so that the
    32-bit counter holds their number) is rejected whenever
    "multi-op-return" is not ignored; the reason is "multi-op-return"
    when every other rule it triggers is ignored, for an earlier rule
    would give its own reason first.  With "multi-op-return" ignored as
    well as every other triggered rule, the transaction is accepted and
    [out_reason] is left as it was. *)
Theorem IsStandardTx_multi_op_return (tx : CTransaction) (out_reason0 : string)
    (witnessEnabled : bool) (S : ignore_rejects_type) :
  2 <= size_of (List.filter (is_null_data witnessEnabled) (vout tx)) ->
  size_of (vout tx) < 2 ^ 32 ->
  ("multi-op-return" ∉ S ->
   fst (IsStandardTx tx out_reason0 witnessEnabled S) = false)
  /\ ("multi-op-return" ∉ S ->
      (forall r, r <> "multi-op-return" ->
                 triggers tx witnessEnabled r = true -> r ∈ S) ->
      IsStandardTx tx out_reason0 witnessEnabled S = (false, "multi-op-return"))
  /\ ("multi-op-return" ∈ S ->
      (forall r, r <> "multi-op-return" ->
                 triggers tx witnessEnabled r = true -> r ∈ S) ->
      IsStandardTx tx out_reason0 witnessEnabled S = (true, out_reason0)).
Proof.
  intros Htwo Hlen.
  assert (Hn : (1 <? count_null_data witnessEnabled (vout tx) 0) = true).
  { rewrite count_null_data_filter by (unfold size_of in *; lia).
    apply Z.ltb_lt. lia. }
  split; [|split].
  - intros Hnot. apply count_false in Hnot.
    destruct (IsStandardTx_body_fails tx witnessEnabled S Hn Hnot
                (mkState out_reason0 [])) as [st' E].
    now rewrite (IsStandardTx_run _ _ _ _ _ _ E).
  - intros Hnot Hothers. apply count_false in Hnot.
    assert (Hall : forall r, r <> "multi-op-return" -> tolerates S tx witnessEnabled r).
    { intros r Hne Ht. apply count_true. now apply Hothers. }
    now rewrite (IsStandardTx_run _ _ _ _ _ _
                   (IsStandardTx_body_multi tx witnessEnabled S Hall Hn Hnot _)).
  - intros Hin Hothers.
    assert (Hall : forall r, tolerates S tx witnessEnabled r).
    { intros r Ht. apply count_true.
      destruct (decide (r = "multi-op-return")) as [->|Hne]; [exact Hin|].
      now apply Hothers. }
    now rewrite (IsStandardTx_run _ _ _ _ _ _
                   (IsStandardTx_body_passes tx witnessEnabled S Hall _)).
Qed.

(** *** Dust *)

(** C1, as the code has it.  For an output that is not provably
    unspendable the threshold is the fee of the output's own serialised
    size plus the 32+4+1+4-byte input skeleton plus the estimate of the
    unlocking script, 107 bytes, or 107/4 = 26 for a witness program, and
    the output is dust exactly below it.  So an output of 34 serialised
    bytes that is no witness program is dust exactly below the fee of
    182 bytes, and a witness program of 31 serialised bytes exactly
    below the fee of 98 bytes. *)
Theorem GetDustThreshold_spendable (txout : CTxOut) (feeRate : CFeeRate) :
  IsUnspendable (scriptPubKey txout) = false ->
  let nScript :=
    match IsWitnessProgram (scriptPubKey txout) with
    | Some _ => 107 ÷ WITNESS_SCALE_FACTOR
    | None => 107
    end in
  let nSize := GetSerializeSize txout + (32 + 4 + 1 + nScript + 4) in
  GetDustThreshold txout feeRate = GetFee feeRate nSize
  /\ (IsDust txout feeRate = true <-> nValue txout < GetFee feeRate nSize)
  /\ (IsWitnessProgram (scriptPubKey txout) = None ->
      GetSerializeSize txout = 34 ->
      (IsDust txout feeRate = true <-> nValue txout < GetFee feeRate 182))
  /\ (IsWitnessProgram (scriptPubKey txout) <> None ->
      GetSerializeSize txout = 31 ->
      (IsDust txout feeRate = true <-> nValue txout < GetFee feeRate 98)).
Proof.
  intros Hsp nScript nSize.
  assert (Ht : GetDustThreshold txout feeRate = GetFee feeRate nSize).
  { unfold GetDustThreshold, nSize, nScript. rewrite Hsp.
    now destruct (IsWitnessProgram (scriptPubKey txout)). }
  assert (Hd : IsDust txout feeRate = true <-> nValue txout < GetFee feeRate nSize).
  { unfold IsDust. rewrite Ht. apply Z.ltb_lt. }
  repeat split; try tauto.
  - intros Hlt. apply Hd in Hlt. unfold nSize, nScript in Hlt.
    now rewrite H, H0 in Hlt.
  - intros Hlt. apply Hd. unfold nSize, nScript. now rewrite H, H0.
  - intros Hlt. apply Hd in Hlt. unfold nSize, nScript in Hlt.
    destruct (IsWitnessProgram (scriptPubKey txout)); [|congruence].
    now rewrite H0 in Hlt.
  - intros Hlt. apply Hd. unfold nSize, nScript.
    destruct (IsWitnessProgram (scriptPubKey txout)); [|congruence].
    now rewrite H0.
Qed.

(** C8.  For a provably unspendable script the threshold is 0 whatever
    the value and the fee rate, and the output is not dust, for every
    value an output can carry: the value of an output is never negative
    (it is checked before the policy is consulted). *)
Theorem GetDustThreshold_unspendable (txout : CTxOut) (feeRate : CFeeRate) :
  IsUnspendable (scriptPubKey txout) = true ->
  GetDustThreshold txout feeRate = 0
  /\ (0 <= nValue txout -> IsDust txout feeRate = false).
Proof.
  intros Hu. unfold IsDust, GetDustThreshold. rewrite Hu. split; [reflexivity|].
  intros Hv. now apply Z.ltb_ge.
Qed.

(** *** Multisig outputs *)

(** C6.  A script the solver classifies as multisig, with [m] and [n]
    the counts it extracted, is standard exactly when 1 <= n <= 3 and
    1 <= m <= n; [whichType] is reported as multisig either way. *)
Theorem IsStandard_multisig (scriptPubKey : CScript) (witnessEnabled : bool)
    (vSolutions : list (list byte)) :
  Solver scriptPubKey = (true, TX_MULTISIG, vSolutions) ->
  let m := front0 vSolutions in
  let n := back0 vSolutions in
  (fst (IsStandard scriptPubKey witnessEnabled) = true
   <-> (1 <= n <= 3 /\ 1 <= m <= n))
  /\ snd (IsStandard scriptPubKey witnessEnabled) = TX_MULTISIG
  /\ (n = 4 -> fst (IsStandard scriptPubKey witnessEnabled) = false).
Proof.
  intros Hs m n. unfold IsStandard. rewrite Hs. simpl. fold m n.
  destruct (n <? 1) eqn:E1; [apply Z.ltb_lt in E1|apply Z.ltb_ge in E1]; simpl.
  { repeat split; try lia; discriminate. }
  destruct (3 <? n) eqn:E2; [apply Z.ltb_lt in E2|apply Z.ltb_ge in E2]; simpl.
  { repeat split; try lia; discriminate. }
  destruct (m <? 1) eqn:E3; [apply Z.ltb_lt in E3|apply Z.ltb_ge in E3]; simpl.
  { repeat split; try lia; discriminate. }
  destruct (n <? m) eqn:E4; [apply Z.ltb_lt in E4|apply Z.ltb_ge in E4]; simpl.
  { repeat split; try lia; discriminate. }
  repeat split; try lia.
Qed.

(** *** Virtual size *)

Lemma int64_small (z : Z) : - 2 ^ 63 <= z < 2 ^ 63 -> int64 z = z.
Proof. intros H. unfold int64. rewrite Z.mod_small; lia. Qed.

Lemma GetVirtualTransactionSize_in_range (nWeight nSigOpCost : Z) :
  0 <= nBytesPerSigOp -> 0 <= nSigOpCost ->
  0 <= nWeight ->
  Z.max nWeight (nSigOpCost * nBytesPerSigOp) + 4 < 2 ^ 63 ->
  GetVirtualTransactionSize nWeight nSigOpCost
  = (Z.max nWeight (nSigOpCost * nBytesPerSigOp) + 3) / 4.
Proof.
  intros Hb Hs Hw Hmax. unfold GetVirtualTransactionSize, WITNESS_SCALE_FACTOR.
  assert (0 <= nSigOpCost * nBytesPerSigOp) by lia.
  rewrite (int64_small (nSigOpCost * nBytesPerSigOp)) by lia.
  rewrite (int64_small (_ + 4)) by lia.
  rewrite int64_small by lia.
  rewrite Z.quot_div_nonneg by lia. f_equal. lia.
Qed.

(** C7, as the code has it.  While the larger of the weight and of the
    sigop cost times [nBytesPerSigOp] stays within [int64_t] after the
    scale factor is added, as the source adds it before taking 1 off,
    the virtual size is the ceiling of that maximum over 4.
    [GetVirtualTransactionSize 1000 0] is 250, and a sigop cost of
    [100 * nBytesPerSigOp] gives [25 * nBytesPerSigOp^2]. *)
Theorem GetVirtualTransactionSize_ceil :
  0 <= nBytesPerSigOp ->
  (forall nWeight nSigOpCost,
     0 <= nWeight -> 0 <= nSigOpCost ->
     Z.max nWeight (nSigOpCost * nBytesPerSigOp) + 4 < 2 ^ 63 ->
     is_ceil_div (GetVirtualTransactionSize nWeight nSigOpCost)
       (Z.max nWeight (nSigOpCost * nBytesPerSigOp)) WITNESS_SCALE_FACTOR)
  /\ GetVirtualTransactionSize 1000 0 = 250
  /\ (100 * nBytesPerSigOp * nBytesPerSigOp + 4 < 2 ^ 63 ->
      GetVirtualTransactionSize 0 (100 * nBytesPerSigOp)
      = 25 * nBytesPerSigOp * nBytesPerSigOp).
Proof.
  intros Hb. split; [|split].
  - intros w s Hw Hs Hmax.
    rewrite GetVirtualTransactionSize_in_range by assumption.
    unfold is_ceil_div, WITNESS_SCALE_FACTOR.
    pose proof (Z.div_mod (Z.max w (s * nBytesPerSigOp) + 3) 4 ltac:(lia)).
    pose proof (Z.mod_pos_bound (Z.max w (s * nBytesPerSigOp) + 3) 4 ltac:(lia)).
    lia.
  - rewrite GetVirtualTransactionSize_in_range by lia.
    rewrite Z.mul_0_l. reflexivity.
  - intros Hmax.
    rewrite GetVirtualTransactionSize_in_range by nia.
    rewrite Z.max_r by nia.
    replace (100 * nBytesPerSigOp * nBytesPerSigOp + 3)
      with (3 + (25 * nBytesPerSigOp * nBytesPerSigOp) * 4) by lia.
    rewrite Z.div_add by lia. reflexivity.
Qed.

(** *** Inputs *)

Lemma AreInputsStandard_run (tx : CTransaction) (mapInputs : CCoinsViewCache)
    (reason_prefix out_reason0 : string) (S : ignore_rejects_type)
    (fl : flow unit) (st : state) :
  AreInputsStandard_body tx mapInputs reason_prefix S (mkState out_reason0 [])
  = (fl, st) ->
  AreInputsStandard tx mapInputs reason_prefix out_reason0 S
  = (match fl with Return b => b | Next _ => true end, out_reason st).
Proof. intros H. unfold AreInputsStandard, run. rewrite H. now destruct fl. Qed.

Lemma IsWitnessStandard_run (tx : CTransaction) (mapInputs : CCoinsViewCache)
    (reason_prefix out_reason0 : string) (S : ignore_rejects_type)
    (fl : flow unit) (st : state) :
  IsWitnessStandard_body tx mapInputs reason_prefix S (mkState out_reason0 [])
  = (fl, st) ->
  IsWitnessStandard tx mapInputs reason_prefix out_reason0 S
  = (match fl with Return b => b | Next _ => true end, out_reason st).
Proof. intros H. unfold IsWitnessStandard, run. rewrite H. now destruct fl. Qed.

(** A loop that reaches the input [x] after the inputs [pre] and leaves
    there. *)
Lemma for_each_leaves {A : Type} (body : A -> M unit) (pre post : list A) (x : A)
    (st0 st1 st2 : state) (b : bool) :
  for_each pre body st0 = (Next tt, st1) ->
  body x st1 = (Return b, st2) ->
  for_each (pre ++ x :: post) body st0 = (Return b, st2).
Proof.
  intros Hpre Hx. rewrite for_each_app. rewrite (bind_Next _ _ _ _ _ Hpre).
  unfold for_each. simpl. now rewrite (bind_Return _ _ _ _ _ Hx).
Qed.

(** A push-only input that spends a pay-to-script-hash output has its
    scriptSig evaluated, once. *)
Lemma AreInputsStandard_input_evaluates (mapInputs : CCoinsViewCache)
    (reason_prefix : string) (S : ignore_rejects_type) (txin : CTxIn)
    (vSolutions : list (list byte)) (st st' : state) (fl : flow unit) :
  Solver (scriptPubKey (out (AccessCoin mapInputs (prevout txin))))
  = (true, TX_SCRIPTHASH, vSolutions) ->
  IsPushOnly (scriptSig txin) = true ->
  AreInputsStandard_input mapInputs reason_prefix S txin st = (fl, st') ->
  evaluated st' = evaluated st ++ [scriptSig txin].
Proof.
  intros Hs Hp. unfold AreInputsStandard_input. rewrite Hs, Hp. simpl.
  unfold bind, eval, pure, set_out_reason, return_. simpl.
  destruct (EvalScript (scriptSig txin)) as [[|item stack]|]; simpl.
  - intros H; now inversion H.
  - unfold when. destruct (MAX_P2SH_SIGOPS <? _).
    + unfold MaybeReject, MaybeReject_.
      destruct (count S _); intros H; now inversion H.
    + intros H; now inversion H.
  - intros H; now inversion H.
Qed.

(** C9.  An input that spends a pay-to-script-hash output with a
    scriptSig that is not push-only is passed over: the state after it
    is the state before it, so nothing was handed to [EvalScript] and
    no reason was written, and the loop over the inputs goes on as if
    the input were not there. *)
Theorem AreInputsStandard_skips_non_pushonly (mapInputs : CCoinsViewCache)
    (reason_prefix : string) (S : ignore_rejects_type) (txin : CTxIn)
    (vSolutions : list (list byte)) :
  Solver (scriptPubKey (out (AccessCoin mapInputs (prevout txin))))
  = (true, TX_SCRIPTHASH, vSolutions) ->
  IsPushOnly (scriptSig txin) = false ->
  (forall st,
     AreInputsStandard_input mapInputs reason_prefix S txin st = (Next tt, st))
  /\ (forall pre post st,
        for_each (pre ++ txin :: post)
          (AreInputsStandard_input mapInputs reason_prefix S) st
        = for_each (pre ++ post)
            (AreInputsStandard_input mapInputs reason_prefix S) st).
Proof.
  intros Hs Hp.
  assert (Hq : quiet (AreInputsStandard_input mapInputs reason_prefix S txin)).
  { intros st. unfold AreInputsStandard_input. rewrite Hs, Hp. reflexivity. }
  split; [exact Hq|].
  intros pre post st. rewrite !for_each_app. unfold bind.
  destruct (for_each pre _ st) as [[[]|b] st1]; [|reflexivity].
  unfold for_each. simpl. unfold bind. now rewrite Hq.
Qed.

(** C2.  The structural failures do not consult the ignore set.  In
    either checker, once the loop reaches a pay-to-script-hash input
    whose scriptSig fails to evaluate, the verdict is [false] with
    "scriptsig-failure" after the caller's prefix, and with
    "scriptcheck-missing" when the evaluation leaves an empty stack;
    in [IsWitnessStandard] a non-empty witness on an input whose
    effective script is no witness program gives "nonwitness-input".
    The ignore set is arbitrary throughout. *)
Theorem structural_failures_not_ignorable (tx : CTransaction)
    (mapInputs : CCoinsViewCache) (reason_prefix out_reason0 : string)
    (S : ignore_rejects_type) (pre post : list CTxIn) (txin : CTxIn) :
  IsCoinBase tx = false ->
  vin tx = pre ++ txin :: post ->
  let prevScript := scriptPubKey (out (AccessCoin mapInputs (prevout txin))) in
  (* AreInputsStandard *)
  (forall st1 vSolutions,
     for_each pre (AreInputsStandard_input mapInputs reason_prefix S)
       (mkState out_reason0 []) = (Next tt, st1) ->
     Solver prevScript = (true, TX_SCRIPTHASH, vSolutions) ->
     IsPushOnly (scriptSig txin) = true ->
     (EvalScript (scriptSig txin) = None ->
      AreInputsStandard tx mapInputs reason_prefix out_reason0 S
      = (false, reason_prefix +:+ "scriptsig-failure"))
     /\ (EvalScript (scriptSig txin) = Some [] ->
         AreInputsStandard tx mapInputs reason_prefix out_reason0 S
         = (false, reason_prefix +:+ "scriptcheck-missing")))
  (* IsWitnessStandard *)
  /\ (forall st1,
        for_each pre (IsWitnessStandard_input mapInputs reason_prefix S)
          (mkState out_reason0 []) = (Next tt, st1) ->
        IsNull (scriptWitness txin) = false ->
        (IsPayToScriptHash prevScript = true ->
         EvalScript (scriptSig txin) = None ->
         IsWitnessStandard tx mapInputs reason_prefix out_reason0 S
         = (false, reason_prefix +:+ "scriptsig-failure"))
        /\ (IsPayToScriptHash prevScript = true ->
            EvalScript (scriptSig txin) = Some [] ->
            IsWitnessStandard tx mapInputs reason_prefix out_reason0 S
            = (false, reason_prefix +:+ "scriptcheck-missing"))
        /\ (IsPayToScriptHash prevScript = true ->
            forall item stack,
              EvalScript (scriptSig txin) = Some (item :: stack) ->
              IsWitnessProgram (back (item :: stack)) = None ->
              IsWitnessStandard tx mapInputs reason_prefix out_reason0 S
              = (false, reason_prefix +:+ "nonwitness-input"))
        /\ (IsPayToScriptHash prevScript = false ->
            IsWitnessProgram prevScript = None ->
            IsWitnessStandard tx mapInputs reason_prefix out_reason0 S
            = (false, reason_prefix +:+ "nonwitness-input"))).
Proof.
  intros Hcb Hvin prevScript. split.
  - intros st1 vSolutions Hpre Hs Hp.
    assert (Hbody : forall reason st2,
      AreInputsStandard_input mapInputs reason_prefix S txin st1
      = (Return false, st2) ->
      out_reason st2 = reason ->
      AreInputsStandard tx mapInputs reason_prefix out_reason0 S = (false, reason)).
    { intros reason st2 Hx <-.
      rewrite (AreInputsStandard_run _ _ _ _ _ (Return false) st2); [reflexivity|].
      unfold AreInputsStandard_body. rewrite Hcb, Hvin.
      now rewrite (bind_Return _ _ _ _ _ (for_each_leaves _ _ _ _ _ _ _ _ Hpre Hx)). }
    split; intros He.
    + apply (Hbody _ (mkState (reason_prefix +:+ "scriptsig-failure")
                        (evaluated st1 ++ [scriptSig txin]))); [|reflexivity].
      unfold AreInputsStandard_input. fold prevScript. rewrite Hs, Hp. simpl.
      unfold bind, eval. rewrite He. reflexivity.
    + apply (Hbody _ (mkState (reason_prefix +:+ "scriptcheck-missing")
                        (evaluated st1 ++ [scriptSig txin]))); [|reflexivity].
      unfold AreInputsStandard_input. fold prevScript. rewrite Hs, Hp. simpl.
      unfold bind, eval. rewrite He. reflexivity.
  - intros st1 Hpre Hnull.
    assert (Hbody : forall reason st2,
      IsWitnessStandard_input mapInputs reason_prefix S txin st1
      = (Return false, st2) ->
      out_reason st2 = reason ->
      IsWitnessStandard tx mapInputs reason_prefix out_reason0 S = (false, reason)).
    { intros reason st2 Hx <-.
      rewrite (IsWitnessStandard_run _ _ _ _ _ (Return false) st2); [reflexivity|].
      unfold IsWitnessStandard_body. rewrite Hcb, Hvin.
      now rewrite (bind_Return _ _ _ _ _ (for_each_leaves _ _ _ _ _ _ _ _ Hpre Hx)). }
    repeat split.
    + intros Hsh He.
      apply (Hbody _ (mkState (reason_prefix +:+ "scriptsig-failure")
                        (evaluated st1 ++ [scriptSig txin]))); [|reflexivity].
      unfold IsWitnessStandard_input. fold prevScript. rewrite Hnull, Hsh.
      unfold bind, eval. rewrite He. reflexivity.
    + intros Hsh He.
      apply (Hbody _ (mkState (reason_prefix +:+ "scriptcheck-missing")
                        (evaluated st1 ++ [scriptSig txin]))); [|reflexivity].
      unfold IsWitnessStandard_input. fold prevScript. rewrite Hnull, Hsh.
      unfold bind, eval. rewrite He. reflexivity.
    + intros Hsh item stack He Hw.
      apply (Hbody _ (mkState (reason_prefix +:+ "nonwitness-input")
                        (evaluated st1 ++ [scriptSig txin]))); [|reflexivity].
      unfold IsWitnessStandard_input. fold prevScript. rewrite Hnull, Hsh.
      unfold bind, eval. rewrite He. unfold IsWitnessStandard_program.
      rewrite Hw. reflexivity.
    + intros Hsh Hw.
      apply (Hbody _ (mkState (reason_prefix +:+ "nonwitness-input")
                        (evaluated st1))); [|reflexivity].
      unfold IsWitnessStandard_input. fold prevScript. rewrite Hnull, Hsh.
      unfold IsWitnessStandard_program. rewrite Hw. reflexivity.
Qed.

(** *** Witnesses within the P2WSH limits *)

Lemma IsWitnessStandard_p2wsh_quiet (reason_prefix : string)
    (S : ignore_rejects_type) (witness : list (list byte)) :
  within_p2wsh_limits witness ->
  quiet (IsWitnessStandard_p2wsh reason_prefix S witness).
Proof.
  intros (Hscript & Hcount & Hitems). unfold IsWitnessStandard_p2wsh.
  apply quiet_bind; [|apply quiet_bind].
  - apply quiet_when. intros E. apply Z.ltb_lt in E. lia.
  - apply quiet_when. intros E. apply Z.ltb_lt in E. lia.
  - apply quiet_for_each. intros item Hin. apply quiet_when. intros E.
    apply Z.ltb_lt in E. specialize (Hitems item Hin). lia.
Qed.

(** C5.  When every input that carries a witness spends, directly, a
    version-0 witness program of 32 bytes and its witness stack is
    within the three limits, [IsWitnessStandard] returns [true] and
    leaves [out_reason] alone, whatever the ignore set. *)
Theorem IsWitnessStandard_p2wsh_within_limits (tx : CTransaction)
    (mapInputs : CCoinsViewCache) (reason_prefix out_reason0 : string)
    (S : ignore_rejects_type) :
  (forall txin,
     In txin (vin tx) ->
     IsNull (scriptWitness txin) = false ->
     let prevScript := scriptPubKey (out (AccessCoin mapInputs (prevout txin))) in
     IsPayToScriptHash prevScript = false
     /\ (exists program,
           IsWitnessProgram prevScript = Some (0, program)
           /\ size_of program = 32)
     /\ within_p2wsh_limits (stack (scriptWitness txin))) ->
  IsWitnessStandard tx mapInputs reason_prefix out_reason0 S = (true, out_reason0).
Proof.
  intros Hall.
  rewrite (IsWitnessStandard_run _ _ _ _ _ (Return true) (mkState out_reason0 []));
    [reflexivity|].
  unfold IsWitnessStandard_body. destruct (IsCoinBase tx); [reflexivity|].
  rewrite bind_quiet; [reflexivity|].
  apply quiet_for_each. intros txin Hin st.
  unfold IsWitnessStandard_input.
  destruct (IsNull (scriptWitness txin)) eqn:Hnull; [reflexivity|].
  destruct (Hall txin Hin Hnull) as (Hsh & (program & Hw & Hlen) & Hlimits).
  rewrite Hsh. unfold IsWitnessStandard_program. rewrite Hw, Hlen. simpl.
  now apply IsWitnessStandard_p2wsh_quiet.
Qed.

End Properties.

(** ** The checkers on concrete transactions

    Everything below is evaluated on the reference collaborators. *)

Import Examples.

(** The fee of [n] bytes is [n * rate / 1000] unless that rounds a
    positive fee down to nothing. *)
Lemma GetFee_per_kilobyte (rate : CFeeRate) (n : Z) :
  nSatoshisPerK rate * n ÷ 1000 <> 0 ->
  Reference.GetFee rate n = nSatoshisPerK rate * n ÷ 1000.
Proof.
  intros H. unfold Reference.GetFee.
  destruct (_ =? 0) eqn:E; [|reflexivity].
  apply Z.eqb_eq in E. contradiction.
Qed.

(** The thresholds the comment in the source works out at the default
    rate: 546 for a pay-to-pubkey-hash output (34 serialised bytes) and
    294 for a version-0 key-hash witness program (31 bytes). *)
Lemma GetDustThreshold_default_rate :
  GetDustThreshold (env := ref) (mkTxOut 0 p2pkh) default_rate = 546
  /\ GetDustThreshold (env := ref) (mkTxOut 0 p2wpkh) default_rate = 294
  /\ Reference.GetSerializeSize (mkTxOut 0 p2pkh) = 34
  /\ Reference.GetSerializeSize (mkTxOut 0 p2wpkh) = 31.
Proof. repeat split. Qed.

Lemma GetDustThreshold_spendable_witness :
  (IsDust (env := ref) (mkTxOut 545 p2pkh) default_rate = true
   <-> 545 < Reference.GetFee default_rate 182)
  /\ (IsDust (env := ref) (mkTxOut 294 p2wpkh) default_rate = true
      <-> 294 < Reference.GetFee default_rate 98).
Proof.
  split.
  - apply (GetDustThreshold_spendable (env := ref) (mkTxOut 545 p2pkh) default_rate);
      [reflexivity | reflexivity | reflexivity].
  - apply (GetDustThreshold_spendable (env := ref) (mkTxOut 294 p2wpkh) default_rate);
      [reflexivity | discriminate | reflexivity].
Defined.

(** The threshold is not the fee of the spending input alone: a
    pay-to-script-hash output, which is no witness program and serialises
    to 32 bytes, has the threshold 540, not the fee 444 of 148 bytes; at
    value 541 it is below 182 * 3000 / 1000 and not dust.  A version-0
    script-hash witness program of value 300 is dust although 300 is
    not below 98 * 3000 / 1000. *)
Lemma GetDustThreshold_counterexample :
  Reference.IsUnspendable p2sh = false
  /\ Reference.IsWitnessProgram p2sh = None
  /\ GetDustThreshold (env := ref) (mkTxOut 541 p2sh) default_rate = 540
  /\ Reference.GetFee default_rate (32 + 4 + 1 + 107 + 4) = 444
  /\ 541 < 182 * 3000 / 1000
  /\ IsDust (env := ref) (mkTxOut 541 p2sh) default_rate = false
  /\ Reference.IsWitnessProgram p2wsh = Some (0, replicate 32 x44)
  /\ ~ 300 < 98 * 3000 / 1000
  /\ IsDust (env := ref) (mkTxOut 300 p2wsh) default_rate = true.
Proof.
  split; [reflexivity|]. split; [reflexivity|]. split; [reflexivity|].
  split; [reflexivity|]. split; [reflexivity|]. split; [reflexivity|].
  split; [reflexivity|]. split; [|reflexivity].
  intros H. vm_compute in H. discriminate H.
Qed.

Lemma GetDustThreshold_unspendable_witness :
  Reference.IsUnspendable nulldata = true
  /\ GetDustThreshold (env := ref) (mkTxOut 5 nulldata) default_rate = 0
  /\ IsDust (env := ref) (mkTxOut 5 nulldata) default_rate = false.
Proof.
  split; [reflexivity|].
  destruct (GetDustThreshold_unspendable (env := ref) (mkTxOut 5 nulldata)
              default_rate eq_refl) as [Hzero Hdust].
  split; [exact Hzero|]. apply Hdust. simpl. lia.
Defined.

Lemma IsStandard_multisig_witness :
  (fst (IsStandard (env := ref) (multisig x52 x53 3) true) = true
   <-> (1 <= 3 <= 3 /\ 1 <= 2 <= 3))
  /\ snd (IsStandard (env := ref) (multisig x52 x53 3) true) = TX_MULTISIG
  /\ (3 = 4 -> fst (IsStandard (env := ref) (multisig x52 x53 3) true) = false).
Proof.
  apply (IsStandard_multisig (env := ref) (multisig x52 x53 3) true
           (snd (Reference.Solver (multisig x52 x53 3)))).
  reflexivity.
Defined.

Lemma GetVirtualTransactionSize_ceil_witness :
  is_ceil_div (GetVirtualTransactionSize (env := ref) 1001 3) 1001 4
  /\ GetVirtualTransactionSize (env := ref) 1000 0 = 250
  /\ GetVirtualTransactionSize (env := ref) 0 (100 * 20) = 25 * 20 * 20.
Proof.
  destruct (GetVirtualTransactionSize_ceil (env := ref)) as (Hceil & H250 & Hsq).
  - vm_compute. discriminate.
  - split; [|split; [exact H250|]].
    + apply (Hceil 1001 3); vm_compute; (discriminate || reflexivity).
    + apply Hsq. reflexivity.
Defined.

(** At the default [nBytesPerSigOp] of 20 a sigop cost of 100 * 20 gives
    the virtual size 10000, not 100; and at the top of [int64_t] the
    sum wraps and the result is not the ceiling. *)
Lemma GetVirtualTransactionSize_counterexample :
  GetVirtualTransactionSize (env := ref) 0 (100 * nBytesPerSigOp (Collaborators := ref))
  = 10000
  /\ GetVirtualTransactionSize (env := ref) 0 (100 * nBytesPerSigOp (Collaborators := ref))
     <> 100
  /\ ~ is_ceil_div (GetVirtualTransactionSize (env := ref) (2 ^ 63 - 1) 0)
         (Z.max (2 ^ 63 - 1) (0 * nBytesPerSigOp (Collaborators := ref)))
         WITNESS_SCALE_FACTOR.
Proof.
  split; [reflexivity|]. split; [vm_compute; discriminate|].
  intros [_ H]. vm_compute in H. now apply H.
Qed.

Lemma IsStandardTx_reason_not_ignored_witness :
  IsStandardTx (env := ref) tx_two_nulldata_v0 EmptyString true {["version"]}
  = (false, "multi-op-return")
  /\ ("multi-op-return" ∉ ({["version"]} : gset string)).
Proof.
  split; [reflexivity|].
  apply (IsStandardTx_reason_not_ignored (env := ref) tx_two_nulldata_v0
           EmptyString true {["version"]}).
  reflexivity.
Defined.

Lemma IsStandardTx_irrelevant_override_witness :
  triggers (env := ref) tx_two_nulldata true "dust" = false
  /\ (IsStandardTx (env := ref) tx_two_nulldata EmptyString true (∅ ∪ {["dust"]})
      = IsStandardTx (env := ref) tx_two_nulldata EmptyString true ∅).
Proof.
  split; [reflexivity|].
  apply (IsStandardTx_irrelevant_override (env := ref) tx_two_nulldata EmptyString true ∅ "dust").
  reflexivity.
Defined.

(** The one rule [tx_two_nulldata] triggers. *)
Lemma tx_two_nulldata_triggers (r : string) :
  r <> "multi-op-return" -> triggers (env := ref) tx_two_nulldata true r = false.
Proof.
  intros Hne. unfold triggers.
  repeat (case_bool_decide; [reflexivity|]).
  case_bool_decide; [contradiction|reflexivity].
Qed.

Lemma IsStandardTx_multi_op_return_witness :
  IsStandardTx (env := ref) tx_two_nulldata EmptyString true ∅ = (false, "multi-op-return")
  /\ IsStandardTx (env := ref) tx_two_nulldata EmptyString true {["multi-op-return"]}
     = (true, EmptyString).
Proof.
  destruct (IsStandardTx_multi_op_return (env := ref) tx_two_nulldata EmptyString true ∅)
    as (_ & Habsent & _); [vm_compute; discriminate | reflexivity |].
  destruct (IsStandardTx_multi_op_return (env := ref) tx_two_nulldata EmptyString true
              {["multi-op-return"]})
    as (_ & _ & Hpresent); [vm_compute; discriminate | reflexivity |].
  split.
  - apply Habsent; [apply not_elem_of_empty|].
    intros r Hne Ht. rewrite tx_two_nulldata_triggers in Ht by exact Hne.
    discriminate Ht.
  - apply Hpresent; [now apply elem_of_singleton|].
    intros r Hne Ht. rewrite tx_two_nulldata_triggers in Ht by exact Hne.
    discriminate Ht.
Defined.

(** Two data-carrier outputs and a version of 0: with an empty ignore
    set the transaction is rejected for its version, not with
    "multi-op-return". *)
Lemma IsStandardTx_multi_op_return_counterexample :
  2 <= size_of (List.filter (is_null_data (env := ref) true) (vout tx_two_nulldata_v0))
  /\ ("multi-op-return" ∉ (∅ : gset string))
  /\ IsStandardTx (env := ref) tx_two_nulldata_v0 EmptyString true ∅ = (false, "version").
Proof.
  split; [vm_compute; discriminate|]. split; [apply not_elem_of_empty|reflexivity].
Qed.

Lemma AreInputsStandard_skips_non_pushonly_witness :
  (forall st,
     AreInputsStandard_input (env := ref) (coins_paying p2sh) EmptyString ∅ txin_dup st
     = (Next tt, st))
  /\ AreInputsStandard (env := ref) tx_dup (coins_paying p2sh) EmptyString EmptyString ∅ = (true, EmptyString).
Proof.
  destruct (AreInputsStandard_skips_non_pushonly (env := ref) (coins_paying p2sh) EmptyString ∅
              txin_dup [replicate 20 x22])
    as [Hskip _]; [reflexivity | reflexivity |].
  split; [exact Hskip | reflexivity].
Defined.

(** The structural failures on the reference collaborators, each with its
    own identifier in the ignore set: [OP_RESERVED] is push-only and
    fails to evaluate, an empty scriptSig leaves an empty stack, and a
    pay-to-pubkey-hash output takes no witness. *)
Lemma structural_failures_not_ignorable_witness :
  AreInputsStandard (env := ref) tx_reserved (coins_paying p2sh) EmptyString EmptyString
    {["scriptsig-failure"]} = (false, "scriptsig-failure")
  /\ AreInputsStandard (env := ref) tx_with_witness (coins_paying p2sh) EmptyString EmptyString
       {["scriptcheck-missing"]} = (false, "scriptcheck-missing")
  /\ IsWitnessStandard (env := ref) tx_reserved (coins_paying p2sh) EmptyString EmptyString
       {["scriptsig-failure"]} = (false, "scriptsig-failure")
  /\ IsWitnessStandard (env := ref) tx_with_witness (coins_paying p2sh) EmptyString EmptyString
       {["scriptcheck-missing"]} = (false, "scriptcheck-missing")
  /\ IsWitnessStandard (env := ref) tx_with_witness (coins_paying p2pkh) EmptyString EmptyString
       {["nonwitness-input"]} = (false, "nonwitness-input").
Proof.
  split; [|split; [|split; [|split]]].
  - apply (structural_failures_not_ignorable (env := ref) tx_reserved
             (coins_paying p2sh) EmptyString EmptyString {["scriptsig-failure"]} [] []
             (spend [x50] [[x51]]) eq_refl eq_refl)
      with (st1 := mkState EmptyString []) (vSolutions := [replicate 20 x22]);
      reflexivity.
  - apply (structural_failures_not_ignorable (env := ref) tx_with_witness
             (coins_paying p2sh) EmptyString EmptyString {["scriptcheck-missing"]} [] []
             (spend [] [[x51]]) eq_refl eq_refl)
      with (st1 := mkState EmptyString []) (vSolutions := [replicate 20 x22]);
      reflexivity.
  - apply (structural_failures_not_ignorable (env := ref) tx_reserved
             (coins_paying p2sh) EmptyString EmptyString {["scriptsig-failure"]} [] []
             (spend [x50] [[x51]]) eq_refl eq_refl)
      with (st1 := mkState EmptyString []);
      reflexivity.
  - apply (structural_failures_not_ignorable (env := ref) tx_with_witness
             (coins_paying p2sh) EmptyString EmptyString {["scriptcheck-missing"]} [] []
             (spend [] [[x51]]) eq_refl eq_refl)
      with (st1 := mkState EmptyString []);
      reflexivity.
  - apply (structural_failures_not_ignorable (env := ref) tx_with_witness
             (coins_paying p2pkh) EmptyString EmptyString {["nonwitness-input"]} [] []
             (spend [] [[x51]]) eq_refl eq_refl)
      with (st1 := mkState EmptyString []);
      reflexivity.
Defined.

Lemma IsWitnessStandard_p2wsh_within_limits_witness :
  IsWitnessStandard (env := ref) tx_p2wsh (coins_paying p2wsh) EmptyString EmptyString ∅ = (true, EmptyString).
Proof.
  apply (IsWitnessStandard_p2wsh_within_limits (env := ref) tx_p2wsh
           (coins_paying p2wsh) EmptyString EmptyString ∅).
  intros txin [<-|[]] _. split; [reflexivity|]. split.
  - exists (replicate 32 x44). split; reflexivity.
  - split; [vm_compute; discriminate|]. split; [vm_compute; discriminate|].
    intros item [<-|[<-|[]]]; vm_compute; discriminate.
Defined.

(** ** Further properties of the checkers *)

Section MoreProperties.
Context {env : Collaborators} {sigops : SigOpCollaborators}.

(** *** Output templates *)

(** X1.  A data-carrier script is standard exactly when data carriers are
    accepted and the whole script is within [nMaxDatacarrierBytes]. *)
Theorem IsStandard_null_data (scriptPubKey : CScript) (witnessEnabled : bool)
    (vSolutions : list (list byte)) :
  Solver scriptPubKey = (true, TX_NULL_DATA, vSolutions) ->
  (fst (IsStandard scriptPubKey witnessEnabled) = true
   <-> (fAcceptDatacarrier = true /\ size_of scriptPubKey <= nMaxDatacarrierBytes))
  /\ snd (IsStandard scriptPubKey witnessEnabled) = TX_NULL_DATA.
Proof.
  intros Hs. unfold IsStandard. rewrite Hs. simpl.
  destruct fAcceptDatacarrier; simpl.
  - destruct (nMaxDatacarrierBytes <? size_of scriptPubKey) eqn:E;
      [apply Z.ltb_lt in E|apply Z.ltb_ge in E];
      destruct witnessEnabled; simpl; repeat split; intros; try lia;
      try discriminate; tauto.
  - repeat split; intros; try discriminate; tauto.
Qed.

(** X2.  The two version-0 witness templates are standard exactly when
    [witnessEnabled] is set. *)
Theorem IsStandard_witness_v0 (scriptPubKey : CScript) (witnessEnabled : bool)
    (whichType : txnouttype) (vSolutions : list (list byte)) :
  Solver scriptPubKey = (true, whichType, vSolutions) ->
  whichType = TX_WITNESS_V0_KEYHASH \/ whichType = TX_WITNESS_V0_SCRIPTHASH ->
  IsStandard scriptPubKey witnessEnabled = (witnessEnabled, whichType).
Proof.
  intros Hs [-> | ->]; unfold IsStandard; rewrite Hs; simpl;
    now destruct witnessEnabled.
Qed.

(** X3.  A script the solver fails on, or calls non-standard, is never
    standard; the type the solver gave is handed back all the same, as
    it is on every other path. *)
Theorem IsStandard_unsolved (scriptPubKey : CScript) (witnessEnabled : bool) :
  (fst (fst (Solver scriptPubKey)) = false
   \/ snd (fst (Solver scriptPubKey)) = TX_NONSTANDARD ->
   fst (IsStandard scriptPubKey witnessEnabled) = false)
  /\ snd (IsStandard scriptPubKey witnessEnabled) = snd (fst (Solver scriptPubKey)).
Proof.
  unfold IsStandard.
  destruct (Solver scriptPubKey) as [[solved whichType] vSolutions]. simpl.
  split.
  - intros [-> | ->]; [reflexivity|]. destruct solved; simpl; [|reflexivity].
    now destruct witnessEnabled.
  - destruct solved; simpl; [|reflexivity].
    repeat match goal with
           | |- context [if ?c then _ else _] => destruct c; simpl
           end; reflexivity.
Qed.

(** X4.  Pay-to-pubkey, pay-to-pubkey-hash and pay-to-script-hash scripts
    are standard whenever the solver recognises them, whatever the
    configuration and the witness flag. *)
Theorem IsStandard_plain_templates (scriptPubKey : CScript) (witnessEnabled : bool)
    (whichType : txnouttype) (vSolutions : list (list byte)) :
  Solver scriptPubKey = (true, whichType, vSolutions) ->
  whichType = TX_PUBKEY \/ whichType = TX_PUBKEYHASH \/ whichType = TX_SCRIPTHASH ->
  IsStandard scriptPubKey witnessEnabled = (true, whichType).
Proof.
  intros Hs [-> | [-> | ->]]; unfold IsStandard; rewrite Hs; simpl;
    now destruct witnessEnabled.
Qed.

(** X5.  Enabling witnesses never makes a script non-standard, and for a
    script that is neither of the two witness templates the flag makes
    no difference. *)
Theorem IsStandard_witnessEnabled (scriptPubKey : CScript) :
  (fst (IsStandard scriptPubKey false) = true ->
   fst (IsStandard scriptPubKey true) = true)
  /\ (snd (fst (Solver scriptPubKey)) <> TX_WITNESS_V0_KEYHASH ->
      snd (fst (Solver scriptPubKey)) <> TX_WITNESS_V0_SCRIPTHASH ->
      IsStandard scriptPubKey false = IsStandard scriptPubKey true).
Proof.
  unfold IsStandard.
  destruct (Solver scriptPubKey) as [[solved whichType] vSolutions]. simpl.
  destruct solved; simpl; [|split; [discriminate|reflexivity]].
  split.
  - destruct whichType; simpl; try discriminate; try tauto;
      repeat match goal with
             | |- context [if ?c then _ else _] => destruct c; simpl
             end; tauto.
  - intros Hk Hs. destruct whichType; simpl; try reflexivity; congruence.
Qed.

(** *** What [IsStandardTx] accepts *)

Lemma bind_Return_true_inv {A B : Type} (m : M A) (k : A -> M B) (st st' : state) :
  no_true m ->
  bind m k st = (Return true, st') ->
  exists a st1, m st = (Next a, st1) /\ k a st1 = (Return true, st').
Proof.
  intros Hm H. unfold bind in H. destruct (m st) as [[a|b] st1] eqn:E.
  - now exists a, st1.
  - inversion H; subst. now apply Hm in E.
Qed.

Lemma bind_Next_inv {A B : Type} (m : M A) (k : A -> M B) (st st' : state) (b : B) :
  bind m k st = (Next b, st') ->
  exists a st1, m st = (Next a, st1) /\ k a st1 = (Next b, st').
Proof.
  intros H. unfold bind in H. destruct (m st) as [[a|r] st1] eqn:E.
  - now exists a, st1.
  - discriminate H.
Qed.

Lemma foldM_Next_inv {A B : Type} (body : B -> A -> M B) (l : list A) :
  forall acc st acc' st',
    foldM body l acc st = (Next acc', st') ->
    forall x, In x l -> exists a s1 a' s2, body a x s1 = (Next a', s2).
Proof.
  induction l as [|y l IH]; intros acc st acc' st' H x Hx; [destruct Hx|].
  simpl in H. apply bind_Next_inv in H as (a & st1 & Hy & Hrest).
  destruct Hx as [<-|Hx].
  - now exists acc, st, a, st1.
  - now apply (IH _ _ _ _ Hrest).
Qed.

Lemma when_MaybeReject_Next (c : bool) (reason reason_prefix : string)
    (S : ignore_rejects_type) (st st' : state) :
  when c (MaybeReject reason reason_prefix S) st = (Next tt, st') ->
  (c = true -> count S (reason_prefix +:+ reason) = true) /\ st' = st.
Proof.
  destruct c; simpl.
  - unfold MaybeReject, MaybeReject_.
    destruct (count S (reason_prefix +:+ reason)); intros H; inversion H; now split.
  - intros H. inversion H. now split.
Qed.

Lemma IsStandardTx_input_Next (f : bool) (S : ignore_rejects_type) (txin : CTxIn)
    (s1 s2 : state) :
  IsStandardTx_input f EmptyString S txin s1 = (Next tt, s2) ->
  ((1650 <? size_of (scriptSig txin)) = true -> count S "scriptsig-size" = true)
  /\ f && negb (IsPushOnly (scriptSig txin)) = false.
Proof.
  unfold IsStandardTx_input. intros H.
  apply bind_Next_inv in H as ([] & st1 & H1 & H2).
  apply when_MaybeReject_Next in H1 as [H1 _]. split; [exact H1|].
  destruct (f && negb (IsPushOnly (scriptSig txin))); [discriminate H2|reflexivity].
Qed.

Lemma IsStandardTx_output_Next (we : bool) (S : ignore_rejects_type) (n n' : Z)
    (txout : CTxOut) (s1 s2 : state) :
  IsStandardTx_output we EmptyString S n txout s1 = (Next n', s2) ->
  output_passes S we txout.
Proof.
  unfold IsStandardTx_output, output_passes, is_null_data.
  destruct (IsStandard (scriptPubKey txout) we) as [standard whichType]. simpl.
  intros H. apply bind_Next_inv in H as ([] & st1 & H1 & H2).
  apply when_MaybeReject_Next in H1 as [H1 _].
  split; [intros ->; now apply H1|].
  destruct (bool_decide (whichType = TX_NULL_DATA)) eqn:Enull; simpl.
  - apply bool_decide_eq_true in Enull. subst whichType. simpl.
    split; [discriminate|discriminate].
  - apply bind_Next_inv in H2 as ([] & st2 & H2 & H3).
    apply when_MaybeReject_Next in H2 as [H2 _].
    apply bind_Next_inv in H3 as ([] & st3 & H3 & _).
    apply when_MaybeReject_Next in H3 as [H3 _].
    split; assumption.
Qed.

Lemma triggers_reasons (tx : CTransaction) (we : bool) (r : string) :
  triggers tx we r = true -> In r IsStandardTx_reasons.
Proof.
  unfold triggers, IsStandardTx_reasons.
  repeat (case_bool_decide; [subst; simpl; tauto|]). discriminate.
Qed.

Lemma IsStandardTx_stages_no_true (tx : CTransaction) (we : bool)
    (S : ignore_rejects_type) :
  no_true (when ((MAX_STANDARD_VERSION <? nVersion tx) || (nVersion tx <? 1))
             (MaybeReject "version" EmptyString S))
  /\ no_true (when (negb (count S "tx-size"))
                (when (MAX_STANDARD_TX_WEIGHT <=? uint32 (GetTransactionWeight tx))
                   (set_out_reason "tx-size" ;; return_ false)))
  /\ no_true (when (negb (count S "scriptsig-size")
                    || negb (count S "scriptsig-not-pushonly"))
                (for_each (vin tx)
                   (IsStandardTx_input (negb (count S "scriptsig-not-pushonly"))
                      EmptyString S)))
  /\ no_true (when (negb (count S "scriptpubkey" && count S "bare-multisig"
                          && count S "dust" && count S "multi-op-return"))
                (do nDataOut <-
                   foldM (IsStandardTx_output we EmptyString S) (vout tx) 0 ;
                 when (1 <? nDataOut)
                   (MaybeReject "multi-op-return" EmptyString S))).
Proof.
  repeat split.
  - apply no_true_when, no_true_MaybeReject.
  - apply no_true_when, no_true_when, no_true_set.
  - apply no_true_when. unfold for_each. apply no_true_foldM.
    intros _ txin. apply IsStandardTx_input_no_true.
  - apply no_true_when, no_true_bind.
    + apply no_true_foldM. intros n txout. apply IsStandardTx_output_no_true.
    + intros n. apply no_true_when, no_true_MaybeReject.
Qed.

(** A body that ends well has met no rule that is triggered and not
    ignored. *)
Lemma IsStandardTx_body_true_inv (tx : CTransaction) (we : bool)
    (S : ignore_rejects_type) (st st' : state) :
  IsStandardTx_body tx we S st = (Return true, st') ->
  forall r, tolerates S tx we r.
Proof.
  intros H. unfold IsStandardTx_body in H.
  destruct (IsStandardTx_stages_no_true tx we S) as (N1 & N2 & N3 & N4).
  apply (bind_Return_true_inv _ _ _ _ N1) in H as ([] & st1 & H1 & H).
  apply (bind_Return_true_inv _ _ _ _ N2) in H as ([] & st2 & H2 & H).
  apply (bind_Return_true_inv _ _ _ _ N3) in H as ([] & st3 & H3 & H).
  apply (bind_Return_true_inv _ _ _ _ N4) in H as ([] & st4 & H4 & _).
  apply when_MaybeReject_Next in H1 as [H1 _].
  intros r Ht. pose proof (triggers_reasons tx we r Ht) as Hr.
  unfold IsStandardTx_reasons in Hr. simpl in Hr.
  destruct Hr as [<-|[<-|[<-|[<-|[<-|[<-|[<-|[<-|[]]]]]]]]].
  - (* version *) rewrite triggers_version in Ht. now apply H1.
  - (* tx-size *) rewrite triggers_tx_size in Ht.
    destruct (count S "tx-size"); [reflexivity|]. simpl in H2.
    rewrite Ht in H2. discriminate H2.
  - (* scriptsig-size *) rewrite triggers_scriptsig_size in Ht.
    destruct (count S "scriptsig-size") eqn:Ec; [reflexivity|]. simpl in H3.
    apply existsb_exists in Ht as (txin & Hin & Hsize).
    unfold for_each in H3.
    destruct (foldM_Next_inv _ _ _ _ _ _ H3 txin Hin) as ([] & s1 & [] & s2 & Hb).
    apply IsStandardTx_input_Next in Hb as [Hb _]. rewrite <- Ec. now apply Hb.
  - (* scriptsig-not-pushonly *) rewrite triggers_not_pushonly in Ht.
    destruct (count S "scriptsig-not-pushonly") eqn:Ec; [reflexivity|].
    rewrite orb_true_r in H3. simpl in H3.
    apply existsb_exists in Ht as (txin & Hin & Hpush).
    unfold for_each in H3.
    destruct (foldM_Next_inv _ _ _ _ _ _ H3 txin Hin) as ([] & s1 & [] & s2 & Hb).
    apply IsStandardTx_input_Next in Hb as [_ Hb]. rewrite Hpush in Hb.
    discriminate Hb.
  - (* scriptpubkey *) rewrite triggers_scriptpubkey in Ht.
    destruct (count S "scriptpubkey") eqn:Ec; [reflexivity|]. simpl in H4.
    apply existsb_exists in Ht as (txout & Hin & Hstd).
    apply bind_Next_inv in H4 as (n & s0 & Hloop & _).
    destruct (foldM_Next_inv _ _ _ _ _ _ Hloop txout Hin) as (a & s1 & a' & s2 & Hb).
    apply IsStandardTx_output_Next in Hb as (Hb & _ & _).
    rewrite <- Ec. apply Hb. now apply negb_true_iff.
  - (* bare-multisig *) rewrite triggers_bare_multisig in Ht.
    destruct (count S "bare-multisig") eqn:Ec; [reflexivity|].
    rewrite andb_false_r in H4. simpl in H4.
    apply existsb_exists in Ht as (txout & Hin & Hbare).
    apply bind_Next_inv in H4 as (n & s0 & Hloop & _).
    destruct (foldM_Next_inv _ _ _ _ _ _ Hloop txout Hin) as (a & s1 & a' & s2 & Hb).
    apply IsStandardTx_output_Next in Hb as (_ & Hb & _).
    rewrite <- Ec. now apply Hb.
  - (* dust *) rewrite triggers_dust in Ht.
    destruct (count S "dust") eqn:Ec; [reflexivity|].
    rewrite andb_false_r in H4. simpl in H4.
    apply existsb_exists in Ht as (txout & Hin & Hdust).
    apply bind_Next_inv in H4 as (n & s0 & Hloop & _).
    destruct (foldM_Next_inv _ _ _ _ _ _ Hloop txout Hin) as (a & s1 & a' & s2 & Hb).
    apply IsStandardTx_output_Next in Hb as (_ & _ & Hb).
    rewrite <- Ec. now apply Hb.
  - (* multi-op-return *) rewrite triggers_multi_op_return in Ht.
    destruct (count S "multi-op-return") eqn:Ec; [reflexivity|].
    rewrite andb_false_r in H4. simpl in H4.
    apply bind_Next_inv in H4 as (n & s0 & Hloop & Hlast).
    apply foldM_outputs_Next in Hloop. subst n. rewrite Ht in Hlast.
    apply (when_MaybeReject_Next true) in Hlast as [Hlast _].
    rewrite <- Ec. now apply Hlast.
Qed.

Lemma IsStandardTx_passes (tx : CTransaction) (out_reason0 : string)
    (we : bool) (S : ignore_rejects_type) :
  (forall r, triggers tx we r = true -> r ∈ S) ->
  IsStandardTx tx out_reason0 we S = (true, out_reason0).
Proof.
  intros Hall.
  assert (Htol : forall r, tolerates S tx we r).
  { intros r Ht. apply count_true. now apply Hall. }
  now rewrite (IsStandardTx_run _ _ _ _ _ _
                 (IsStandardTx_body_passes tx we S Htol _)).
Qed.

Lemma IsStandardTx_accepts_inv (tx : CTransaction) (out_reason0 : string)
    (we : bool) (S : ignore_rejects_type) :
  fst (IsStandardTx tx out_reason0 we S) = true ->
  forall r, triggers tx we r = true -> r ∈ S.
Proof.
  unfold IsStandardTx, run.
  destruct (IsStandardTx_body tx we S (mkState out_reason0 []))
    as [[[]|b] st] eqn:E; simpl.
  - exfalso. unfold IsStandardTx_body in E.
    repeat (apply bind_Next_inv in E as (? & ? & _ & E)). discriminate E.
  - intros ->. intros r Ht. apply count_true.
    now apply (IsStandardTx_body_true_inv _ _ _ _ _ E r).
Qed.

(** X6.  [IsStandardTx] accepts a transaction exactly when every rule the
    transaction triggers is in the ignore set. *)
Theorem IsStandardTx_accepts_iff (tx : CTransaction) (out_reason0 : string)
    (witnessEnabled : bool) (S : ignore_rejects_type) :
  fst (IsStandardTx tx out_reason0 witnessEnabled S) = true
  <-> (forall r, triggers tx witnessEnabled r = true -> r ∈ S).
Proof.
  split.
  - apply IsStandardTx_accepts_inv.
  - intros Hall. now rewrite IsStandardTx_passes.
Qed.

(** X7.  An accepted transaction leaves the caller's [out_reason] as it was. *)
Theorem IsStandardTx_accept_keeps_out_reason (tx : CTransaction)
    (out_reason0 : string) (witnessEnabled : bool) (S : ignore_rejects_type) :
  fst (IsStandardTx tx out_reason0 witnessEnabled S) = true ->
  IsStandardTx tx out_reason0 witnessEnabled S = (true, out_reason0).
Proof.
  intros H. apply IsStandardTx_passes.
  now apply (IsStandardTx_accepts_inv tx out_reason0).
Qed.

(** X8.  A larger ignore set accepts whatever a smaller one accepts. *)
Theorem IsStandardTx_ignore_mono (tx : CTransaction) (out_reason0 : string)
    (witnessEnabled : bool) (S S' : ignore_rejects_type) :
  S ⊆ S' ->
  fst (IsStandardTx tx out_reason0 witnessEnabled S) = true ->
  fst (IsStandardTx tx out_reason0 witnessEnabled S') = true.
Proof.
  intros Hsub H. rewrite IsStandardTx_passes; [reflexivity|].
  intros r Ht. apply Hsub. now apply (IsStandardTx_accepts_inv tx out_reason0 _ _ H).
Qed.

(** X9.  With the eight identifiers ignored, every transaction is accepted. *)
Theorem IsStandardTx_all_ignored (tx : CTransaction) (out_reason0 : string)
    (witnessEnabled : bool) (S : ignore_rejects_type) :
  (forall r, In r IsStandardTx_reasons -> r ∈ S) ->
  IsStandardTx tx out_reason0 witnessEnabled S = (true, out_reason0).
Proof.
  intros Hall. apply IsStandardTx_passes. intros r Ht.
  apply Hall. now apply (triggers_reasons tx witnessEnabled).
Qed.

(** *** What [IsStandardTx] rejects with *)

Lemma rejects_with_pure {A : Type} (P : string -> Prop) (a : A) :
  rejects_with P (pure a).
Proof. intros st st' H. discriminate H. Qed.

Lemma rejects_with_bind_strong {A B : Type} (P : string -> Prop)
    (m : M A) (k : A -> M B) :
  rejects_with P m ->
  (forall st a st1, m st = (Next a, st1) -> rejects_with P (k a)) ->
  rejects_with P (bind m k).
Proof.
  intros Hm Hk st st' H. unfold bind in H.
  destruct (m st) as [[a|b] st1] eqn:E.
  - now apply (Hk st a st1 E st1 st').
  - inversion H; subst. now apply (Hm st).
Qed.

Lemma rejects_with_bind {A B : Type} (P : string -> Prop) (m : M A) (k : A -> M B) :
  rejects_with P m -> (forall a, rejects_with P (k a)) ->
  rejects_with P (bind m k).
Proof.
  intros Hm Hk. apply rejects_with_bind_strong; [exact Hm|].
  intros st a st1 _. apply Hk.
Qed.

Lemma rejects_with_when (P : string -> Prop) (c : bool) (m : M unit) :
  (c = true -> rejects_with P m) -> rejects_with P (when c m).
Proof.
  intros Hm. destruct c; simpl; [now apply Hm | apply rejects_with_pure].
Qed.

Lemma rejects_with_foldM {A B : Type} (P : string -> Prop)
    (body : B -> A -> M B) (l : list A) :
  (forall acc x, In x l -> rejects_with P (body acc x)) ->
  forall acc, rejects_with P (foldM body l acc).
Proof.
  induction l as [|x l IH]; intros Hb acc; simpl.
  - apply rejects_with_pure.
  - apply rejects_with_bind; [apply Hb; now left|].
    intros a. apply IH. intros acc' y Hy. apply Hb. now right.
Qed.

Lemma rejects_with_MaybeReject (P : string -> Prop) (reason reason_prefix : string)
    (S : ignore_rejects_type) :
  (count S (reason_prefix +:+ reason) = false -> P (reason_prefix +:+ reason)) ->
  rejects_with P (MaybeReject reason reason_prefix S).
Proof.
  intros HP st st' H. unfold MaybeReject, MaybeReject_ in H.
  destruct (count S (reason_prefix +:+ reason)) eqn:E; inversion H; subst; simpl.
  now apply HP.
Qed.

Lemma rejects_with_MaybeReject0 (P : string -> Prop) (reason : string)
    (S : ignore_rejects_type) :
  (count S reason = false -> P reason) ->
  rejects_with P (MaybeReject reason EmptyString S).
Proof. intros HP. now apply rejects_with_MaybeReject. Qed.

Lemma rejects_with_set (P : string -> Prop) (reason : string) :
  P reason -> rejects_with P (set_out_reason reason ;; @return_ unit false).
Proof.
  intros HP st st' H. unfold bind, set_out_reason, return_ in H.
  inversion H; subst. exact HP.
Qed.

Lemma rejects_with_return_true (P : string -> Prop) :
  rejects_with P (@return_ unit true).
Proof. intros st st' H. discriminate H. Qed.

Lemma IsStandardTx_body_rejects_triggered (tx : CTransaction) (we : bool)
    (S : ignore_rejects_type) :
  rejects_with (fun r => triggers tx we r = true /\ r ∉ S)
    (IsStandardTx_body tx we S).
Proof.
  unfold IsStandardTx_body.
  apply rejects_with_bind; [|intros _].
  { apply rejects_with_when. intros Hc. apply rejects_with_MaybeReject0.
    intros Hn. cbv beta. split; [now rewrite triggers_version|now apply count_false]. }
  apply rejects_with_bind; [|intros _].
  { apply rejects_with_when. intros Hc. apply negb_true_iff in Hc.
    apply rejects_with_when. intros Hw. apply rejects_with_set. cbv beta.
    split; [now rewrite triggers_tx_size|now apply count_false]. }
  apply rejects_with_bind; [|intros _].
  { apply rejects_with_when. intros _. unfold for_each.
    apply rejects_with_foldM. intros _ txin Hin. unfold IsStandardTx_input.
    apply rejects_with_bind; [|intros _].
    - apply rejects_with_when. intros Hc. apply rejects_with_MaybeReject0.
      intros Hn. cbv beta. split; [|now apply count_false].
      rewrite triggers_scriptsig_size. now apply (existsb_true_at _ _ txin).
    - apply rejects_with_when. intros Hc. apply andb_true_iff in Hc as [Hf Hp].
      apply negb_true_iff in Hf. apply rejects_with_set. cbv beta.
      split; [|now apply count_false].
      rewrite triggers_not_pushonly. now apply (existsb_true_at _ _ txin). }
  apply rejects_with_bind; [|intros _; apply rejects_with_return_true].
  apply rejects_with_when. intros _.
  apply rejects_with_bind_strong.
  - apply rejects_with_foldM. intros nDataOut txout Hin.
    unfold IsStandardTx_output.
    pose proof (triggers_scriptpubkey tx we) as Tspk.
    pose proof (triggers_bare_multisig tx we) as Tbare.
    pose proof (triggers_dust tx we) as Tdust.
    unfold is_null_data in Tdust.
    destruct (IsStandard (scriptPubKey txout) we) as [standard whichType] eqn:Estd.
    apply rejects_with_bind; [|intros _].
    { apply rejects_with_when. intros Hc. apply rejects_with_MaybeReject0.
      intros Hn. cbv beta. split; [|now apply count_false].
      rewrite Tspk. apply (existsb_true_at _ _ txout Hin). now rewrite Estd. }
    destruct (bool_decide (whichType = TX_NULL_DATA)) eqn:Enull;
      [apply rejects_with_pure|].
    apply rejects_with_bind; [|intros _; apply rejects_with_bind;
                                [|intros _; apply rejects_with_pure]].
    + apply rejects_with_when. intros Hc. apply rejects_with_MaybeReject0.
      intros Hn. cbv beta. split; [|now apply count_false].
      rewrite Tbare. apply (existsb_true_at _ _ txout Hin). now rewrite Estd.
    + apply rejects_with_when. intros Hc. apply rejects_with_MaybeReject0.
      intros Hn. cbv beta. split; [|now apply count_false].
      rewrite Tdust. apply (existsb_true_at _ _ txout Hin).
      rewrite Estd. simpl. now rewrite Enull, Hc.
  - intros st n st1 Hloop. apply foldM_outputs_Next in Hloop. subst n.
    apply rejects_with_when. intros Hc. apply rejects_with_MaybeReject0.
    intros Hn. cbv beta. split; [now rewrite triggers_multi_op_return|now apply count_false].
Qed.

(** X10.  A rejection names a rule the transaction does trigger: the reason
    left by [IsStandardTx] is one of its eight identifiers, and the
    condition of that rule holds of the transaction. *)
Theorem IsStandardTx_reason_triggered (tx : CTransaction) (out_reason0 : string)
    (witnessEnabled : bool) (S : ignore_rejects_type) (reason : string) :
  IsStandardTx tx out_reason0 witnessEnabled S = (false, reason) ->
  triggers tx witnessEnabled reason = true /\ In reason IsStandardTx_reasons.
Proof.
  unfold IsStandardTx, run. intros H.
  destruct (IsStandardTx_body tx witnessEnabled S (mkState out_reason0 []))
    as [[[]|b] st] eqn:E; inversion H; subst.
  destruct (IsStandardTx_body_rejects_triggered tx witnessEnabled S _ _ E) as [Ht _].
  split; [exact Ht|]. now apply (triggers_reasons tx witnessEnabled).
Qed.

(** X11.  The version is checked before anything else, and the weight right
    after it. *)
Theorem IsStandardTx_first_checks (tx : CTransaction) (out_reason0 : string)
    (witnessEnabled : bool) (S : ignore_rejects_type) :
  (triggers tx witnessEnabled "version" = true -> "version" ∉ S ->
   IsStandardTx tx out_reason0 witnessEnabled S = (false, "version"))
  /\ ((triggers tx witnessEnabled "version" = true -> "version" ∈ S) ->
      triggers tx witnessEnabled "tx-size" = true -> "tx-size" ∉ S ->
      IsStandardTx tx out_reason0 witnessEnabled S = (false, "tx-size")).
Proof.
  split.
  - intros Ht Hn. rewrite triggers_version in Ht. apply count_false in Hn.
    rewrite (IsStandardTx_run _ _ _ _ (Return false)
               (mkState "version" [])); [reflexivity|].
    unfold IsStandardTx_body. apply bind_Return. rewrite Ht. simpl.
    now rewrite MaybeReject_rejects by exact Hn.
  - intros Hv Ht Hn. rewrite triggers_tx_size in Ht. apply count_false in Hn.
    rewrite (IsStandardTx_run _ _ _ _ (Return false)
               (mkState "tx-size" [])); [reflexivity|].
    unfold IsStandardTx_body. rewrite bind_quiet.
    + apply bind_Return. rewrite Hn, Ht. reflexivity.
    + apply (version_quiet S tx witnessEnabled). intros Hc. apply count_true.
      now apply Hv.
Qed.

(** *** Reasons of the input checkers *)

Lemma rejects_with_eval (P : string -> Prop) (script : CScript) :
  rejects_with P (eval script).
Proof. intros st st' H. discriminate H. Qed.

Lemma AreInputsStandard_body_rejects (tx : CTransaction)
    (mapInputs : CCoinsViewCache) (reason_prefix : string)
    (S : ignore_rejects_type) :
  rejects_with
    (fun r =>
       (r = reason_prefix +:+ "script-unknown" /\ r ∉ S)
       \/ r = reason_prefix +:+ "scriptsig-failure"
       \/ r = reason_prefix +:+ "scriptcheck-missing"
       \/ (r = reason_prefix +:+ "scriptcheck-sigops" /\ r ∉ S))
    (AreInputsStandard_body tx mapInputs reason_prefix S).
Proof.
  unfold AreInputsStandard_body.
  destruct (IsCoinBase tx); [apply rejects_with_return_true|].
  apply rejects_with_bind; [|intros _; apply rejects_with_return_true].
  unfold for_each. apply rejects_with_foldM. intros _ txin _.
  unfold AreInputsStandard_input.
  destruct (Solver _) as [[solved whichType] vSolutions].
  apply rejects_with_bind; [|intros _].
  { apply rejects_with_when. intros _. apply rejects_with_MaybeReject.
    intros Hn. left. split; [reflexivity|now apply count_false]. }
  apply rejects_with_when. intros _.
  destruct (negb (IsPushOnly (scriptSig txin))); [apply rejects_with_pure|].
  apply rejects_with_bind; [apply rejects_with_eval|].
  intros [[|item stack]|].
  - apply rejects_with_set. right; right; left. reflexivity.
  - apply rejects_with_when. intros _. apply rejects_with_MaybeReject.
    intros Hn. right; right; right. split; [reflexivity|now apply count_false].
  - apply rejects_with_set. right; left. reflexivity.
Qed.

(** X12.  [AreInputsStandard] rejects with one of four reasons, each after the
    caller's prefix; a reason that is in the ignore set can only be one
    of the two that are not looked up, "scriptsig-failure" and
    "scriptcheck-missing". *)
Theorem AreInputsStandard_reasons (tx : CTransaction) (mapInputs : CCoinsViewCache)
    (reason_prefix out_reason0 : string) (S : ignore_rejects_type) (reason : string) :
  AreInputsStandard tx mapInputs reason_prefix out_reason0 S = (false, reason) ->
  (exists id,
     reason = reason_prefix +:+ id
     /\ In id ["script-unknown"; "scriptsig-failure"; "scriptcheck-missing";
               "scriptcheck-sigops"])
  /\ (reason ∈ S ->
      reason = reason_prefix +:+ "scriptsig-failure"
      \/ reason = reason_prefix +:+ "scriptcheck-missing").
Proof.
  unfold AreInputsStandard, run. intros H.
  destruct (AreInputsStandard_body tx mapInputs reason_prefix S
              (mkState out_reason0 [])) as [[[]|b] st] eqn:E; inversion H; subst.
  pose proof (AreInputsStandard_body_rejects tx mapInputs reason_prefix S _ _ E)
    as [[Hr Hn]|[Hr|[Hr|[Hr Hn]]]]; rewrite Hr in *; split.
  - exists "script-unknown". simpl. tauto.
  - intros Hin. contradiction.
  - exists "scriptsig-failure". simpl. tauto.
  - tauto.
  - exists "scriptcheck-missing". simpl. tauto.
  - tauto.
  - exists "scriptcheck-sigops". simpl. tauto.
  - intros Hin. contradiction.
Qed.

Lemma IsWitnessStandard_program_rejects (reason_prefix : string)
    (S : ignore_rejects_type) (txin : CTxIn) (script : CScript) :
  rejects_with
    (fun r =>
       r = reason_prefix +:+ "nonwitness-input"
       \/ (exists id, r = reason_prefix +:+ id /\ (r ∉ S)
                      /\ In id ["script-size"; "stackitem-count"; "stackitem-size"]))
    (IsWitnessStandard_program reason_prefix S txin script).
Proof.
  unfold IsWitnessStandard_program.
  destruct (IsWitnessProgram script) as [[witnessversion witnessprogram]|].
  - apply rejects_with_when. intros _. unfold IsWitnessStandard_p2wsh.
    apply rejects_with_bind; [|intros _; apply rejects_with_bind; [|intros _]].
    + apply rejects_with_when. intros _. apply rejects_with_MaybeReject.
      intros Hn. right. exists "script-size".
      split; [reflexivity|]. split; [now apply count_false|simpl; tauto].
    + apply rejects_with_when. intros _. apply rejects_with_MaybeReject.
      intros Hn. right. exists "stackitem-count".
      split; [reflexivity|]. split; [now apply count_false|simpl; tauto].
    + unfold for_each. apply rejects_with_foldM. intros _ item _.
      apply rejects_with_when. intros _. apply rejects_with_MaybeReject.
      intros Hn. right. exists "stackitem-size".
      split; [reflexivity|]. split; [now apply count_false|simpl; tauto].
  - apply rejects_with_set. now left.
Qed.

Lemma IsWitnessStandard_body_rejects (tx : CTransaction)
    (mapInputs : CCoinsViewCache) (reason_prefix : string)
    (S : ignore_rejects_type) :
  rejects_with
    (fun r =>
       r = reason_prefix +:+ "scriptsig-failure"
       \/ r = reason_prefix +:+ "scriptcheck-missing"
       \/ r = reason_prefix +:+ "nonwitness-input"
       \/ (exists id, r = reason_prefix +:+ id /\ (r ∉ S)
                      /\ In id ["script-size"; "stackitem-count"; "stackitem-size"]))
    (IsWitnessStandard_body tx mapInputs reason_prefix S).
Proof.
  assert (Hprog : forall txin script,
    rejects_with
      (fun r =>
         r = reason_prefix +:+ "scriptsig-failure"
         \/ r = reason_prefix +:+ "scriptcheck-missing"
         \/ r = reason_prefix +:+ "nonwitness-input"
         \/ (exists id, r = reason_prefix +:+ id /\ (r ∉ S)
                        /\ In id ["script-size"; "stackitem-count"; "stackitem-size"]))
      (IsWitnessStandard_program reason_prefix S txin script)).
  { intros txin script st st' H.
    destruct (IsWitnessStandard_program_rejects reason_prefix S txin script _ _ H);
      tauto. }
  unfold IsWitnessStandard_body.
  destruct (IsCoinBase tx); [apply rejects_with_return_true|].
  apply rejects_with_bind; [|intros _; apply rejects_with_return_true].
  unfold for_each. apply rejects_with_foldM. intros _ txin _.
  unfold IsWitnessStandard_input.
  destruct (IsNull (scriptWitness txin)); [apply rejects_with_pure|].
  destruct (IsPayToScriptHash _); [|apply Hprog].
  apply rejects_with_bind; [apply rejects_with_eval|].
  intros [[|item stack]|].
  - apply rejects_with_set. right; left. reflexivity.
  - apply Hprog.
  - apply rejects_with_set. left. reflexivity.
Qed.

(** X13.  [IsWitnessStandard] rejects with one of six reasons, each after the
    caller's prefix; a reason that is in the ignore set can only be one
    of the three that are not looked up. *)
Theorem IsWitnessStandard_reasons (tx : CTransaction) (mapInputs : CCoinsViewCache)
    (reason_prefix out_reason0 : string) (S : ignore_rejects_type) (reason : string) :
  IsWitnessStandard tx mapInputs reason_prefix out_reason0 S = (false, reason) ->
  (exists id,
     reason = reason_prefix +:+ id
     /\ In id ["scriptsig-failure"; "scriptcheck-missing"; "nonwitness-input";
               "script-size"; "stackitem-count"; "stackitem-size"])
  /\ (reason ∈ S ->
      reason = reason_prefix +:+ "scriptsig-failure"
      \/ reason = reason_prefix +:+ "scriptcheck-missing"
      \/ reason = reason_prefix +:+ "nonwitness-input").
Proof.
  unfold IsWitnessStandard, run. intros H.
  destruct (IsWitnessStandard_body tx mapInputs reason_prefix S
              (mkState out_reason0 [])) as [[[]|b] st] eqn:E; inversion H; subst.
  pose proof (IsWitnessStandard_body_rejects tx mapInputs reason_prefix S _ _ E)
    as [Hr|[Hr|[Hr|(id & Hr & Hn & Hid)]]]; rewrite Hr in *; split.
  - exists "scriptsig-failure". simpl. tauto.
  - tauto.
  - exists "scriptcheck-missing". simpl. tauto.
  - tauto.
  - exists "nonwitness-input". simpl. tauto.
  - tauto.
  - exists id. split; [reflexivity|]. simpl in *. tauto.
  - intros Hin. contradiction.
Qed.

(** *** What is handed to the evaluator *)

Lemma evaluates_only_nothing {A : Type} (Q : CScript -> Prop) (m : M A) :
  (forall st fl st', m st = (fl, st') -> evaluated st' = evaluated st) ->
  evaluates_only Q m.
Proof.
  intros H st fl st' E. exists []. rewrite app_nil_r. split; [eauto|constructor].
Qed.

Lemma evaluates_only_pure {A : Type} (Q : CScript -> Prop) (a : A) :
  evaluates_only Q (pure a).
Proof. apply evaluates_only_nothing. intros st fl st' H. now inversion H. Qed.

Lemma evaluates_only_return {A : Type} (Q : CScript -> Prop) (b : bool) :
  evaluates_only Q (@return_ A b).
Proof. apply evaluates_only_nothing. intros st fl st' H. now inversion H. Qed.

Lemma evaluates_only_set (Q : CScript -> Prop) (reason : string) :
  evaluates_only Q (set_out_reason reason ;; @return_ unit false).
Proof. apply evaluates_only_nothing. intros st fl st' H. now inversion H. Qed.

Lemma evaluates_only_MaybeReject (Q : CScript -> Prop) (reason reason_prefix : string)
    (S : ignore_rejects_type) :
  evaluates_only Q (MaybeReject reason reason_prefix S).
Proof.
  apply evaluates_only_nothing. intros st fl st' H.
  unfold MaybeReject, MaybeReject_ in H.
  destruct (count S _); now inversion H.
Qed.

Lemma evaluates_only_eval (Q : CScript -> Prop) (script : CScript) :
  Q script -> evaluates_only Q (eval script).
Proof.
  intros HQ st fl st' H. inversion H; subst. simpl.
  exists [script]. split; [reflexivity|]. now constructor.
Qed.

Lemma evaluates_only_bind {A B : Type} (Q : CScript -> Prop)
    (m : M A) (k : A -> M B) :
  evaluates_only Q m -> (forall a, evaluates_only Q (k a)) ->
  evaluates_only Q (bind m k).
Proof.
  intros Hm Hk st fl st' H. unfold bind in H.
  destruct (m st) as [[a|b] st1] eqn:E.
  - destruct (Hm _ _ _ E) as (more1 & E1 & Q1).
    destruct (Hk a _ _ _ H) as (more2 & E2 & Q2).
    exists (more1 ++ more2). rewrite E2, E1, app_assoc.
    split; [reflexivity|]. now apply Forall_app.
  - inversion H; subst. now apply (Hm _ _ _ E).
Qed.

Lemma evaluates_only_when (Q : CScript -> Prop) (c : bool) (m : M unit) :
  (c = true -> evaluates_only Q m) -> evaluates_only Q (when c m).
Proof.
  intros Hm. destruct c; simpl; [now apply Hm | apply evaluates_only_pure].
Qed.

Lemma evaluates_only_foldM {A B : Type} (Q : CScript -> Prop)
    (body : B -> A -> M B) (l : list A) :
  (forall acc x, In x l -> evaluates_only Q (body acc x)) ->
  forall acc, evaluates_only Q (foldM body l acc).
Proof.
  induction l as [|x l IH]; intros Hb acc; simpl.
  - apply evaluates_only_pure.
  - apply evaluates_only_bind; [apply Hb; now left|].
    intros a. apply IH. intros acc' y Hy. apply Hb. now right.
Qed.

Lemma evaluates_only_run (Q : CScript -> Prop) (m : M unit) (out_reason0 : string) :
  evaluates_only Q m ->
  Forall Q (evaluated (snd (run m (mkState out_reason0 [])))).
Proof.
  intros Hm. unfold run.
  destruct (m (mkState out_reason0 [])) as [[[]|b] st] eqn:E;
    destruct (Hm _ _ _ E) as (more & E1 & HQ); simpl in *; now rewrite E1.
Qed.

(** X14.  [AreInputsStandard] evaluates nothing but scriptSigs that are
    push-only and belong to an input spending an output the solver typed
    as pay-to-script-hash. *)
Theorem AreInputsStandard_evaluates_only (tx : CTransaction)
    (mapInputs : CCoinsViewCache) (reason_prefix : string)
    (S : ignore_rejects_type) (script : CScript) :
  In script (AreInputsStandard_evaluated tx mapInputs reason_prefix S) ->
  IsCoinBase tx = false
  /\ exists txin,
       In txin (vin tx) /\ script = scriptSig txin
       /\ IsPushOnly (scriptSig txin) = true
       /\ snd (fst (Solver (scriptPubKey (out (AccessCoin mapInputs (prevout txin))))))
          = TX_SCRIPTHASH.
Proof.
  unfold AreInputsStandard_evaluated. intros Hin.
  set (Q := fun script : CScript =>
    IsCoinBase tx = false
    /\ exists txin,
         In txin (vin tx) /\ script = scriptSig txin
         /\ IsPushOnly (scriptSig txin) = true
         /\ snd (fst (Solver (scriptPubKey (out (AccessCoin mapInputs (prevout txin))))))
            = TX_SCRIPTHASH).
  assert (HQ : evaluates_only Q (AreInputsStandard_body tx mapInputs reason_prefix S)).
  { unfold AreInputsStandard_body.
    destruct (IsCoinBase tx) eqn:Ecb; [apply evaluates_only_return|].
    apply evaluates_only_bind; [|intros _; apply evaluates_only_return].
    unfold for_each. apply evaluates_only_foldM. intros _ txin Htxin.
    unfold AreInputsStandard_input.
    destruct (Solver _) as [[solved whichType] vSolutions] eqn:Es.
    apply evaluates_only_bind;
      [apply evaluates_only_when; intros _; apply evaluates_only_MaybeReject|intros _].
    apply evaluates_only_when. intros Ety. apply bool_decide_eq_true in Ety.
    destruct (IsPushOnly (scriptSig txin)) eqn:Ep; simpl;
      [|apply evaluates_only_pure].
    apply evaluates_only_bind.
    - apply evaluates_only_eval. split; [reflexivity|].
      exists txin. rewrite Es. simpl. auto.
    - intros [[|item stack]|].
      + apply evaluates_only_set.
      + apply evaluates_only_when. intros _. apply evaluates_only_MaybeReject.
      + apply evaluates_only_set. }
  pose proof (evaluates_only_run Q _ EmptyString HQ) as Hall.
  rewrite Forall_forall in Hall. apply Hall. now apply list_elem_of_In.
Qed.

(** X15.  [IsWitnessStandard] evaluates nothing but scriptSigs of inputs that
    carry a witness and spend a pay-to-script-hash output. *)
Theorem IsWitnessStandard_evaluates_only (tx : CTransaction)
    (mapInputs : CCoinsViewCache) (reason_prefix : string)
    (S : ignore_rejects_type) (script : CScript) :
  In script (IsWitnessStandard_evaluated tx mapInputs reason_prefix S) ->
  IsCoinBase tx = false
  /\ exists txin,
       In txin (vin tx) /\ script = scriptSig txin
       /\ IsNull (scriptWitness txin) = false
       /\ IsPayToScriptHash (scriptPubKey (out (AccessCoin mapInputs (prevout txin))))
          = true.
Proof.
  unfold IsWitnessStandard_evaluated. intros Hin.
  set (Q := fun script : CScript =>
    IsCoinBase tx = false
    /\ exists txin,
         In txin (vin tx) /\ script = scriptSig txin
         /\ IsNull (scriptWitness txin) = false
         /\ IsPayToScriptHash (scriptPubKey (out (AccessCoin mapInputs (prevout txin))))
            = true).
  assert (Hprog : forall txin script',
    evaluates_only Q (IsWitnessStandard_program reason_prefix S txin script')).
  { intros txin script'. unfold IsWitnessStandard_program.
    destruct (IsWitnessProgram script') as [[v program]|];
      [|apply evaluates_only_set].
    apply evaluates_only_when. intros _. unfold IsWitnessStandard_p2wsh.
    apply evaluates_only_bind;
      [apply evaluates_only_when; intros _; apply evaluates_only_MaybeReject|intros _].
    apply evaluates_only_bind;
      [apply evaluates_only_when; intros _; apply evaluates_only_MaybeReject|intros _].
    unfold for_each. apply evaluates_only_foldM. intros _ item _.
    apply evaluates_only_when. intros _. apply evaluates_only_MaybeReject. }
  assert (HQ : evaluates_only Q (IsWitnessStandard_body tx mapInputs reason_prefix S)).
  { unfold IsWitnessStandard_body.
    destruct (IsCoinBase tx) eqn:Ecb; [apply evaluates_only_return|].
    apply evaluates_only_bind; [|intros _; apply evaluates_only_return].
    unfold for_each. apply evaluates_only_foldM. intros _ txin Htxin.
    unfold IsWitnessStandard_input.
    destruct (IsNull (scriptWitness txin)) eqn:En; [apply evaluates_only_pure|].
    destruct (IsPayToScriptHash _) eqn:Esh; [|apply Hprog].
    apply evaluates_only_bind.
    - apply evaluates_only_eval. split; [reflexivity|]. exists txin. auto.
    - intros [[|item stack]|];
        [apply evaluates_only_set | apply Hprog | apply evaluates_only_set]. }
  pose proof (evaluates_only_run Q _ EmptyString HQ) as Hall.
  rewrite Forall_forall in Hall. apply Hall. now apply list_elem_of_In.
Qed.

(** *** Larger ignore sets *)

Lemma passes_on_refl {A : Type} (m : M A) : passes_on m m.
Proof. now intros st fl st' H _. Qed.

Lemma passes_on_bind {A B : Type} (m m' : M A) (k k' : A -> M B) :
  passes_on m m' -> (forall a, passes_on (k a) (k' a)) ->
  passes_on (bind m k) (bind m' k').
Proof.
  intros Hm Hk st fl st' H Hfl. unfold bind in *.
  destruct (m st) as [[a|b] st1] eqn:E.
  - rewrite (Hm _ _ _ E) by discriminate. now apply Hk.
  - inversion H; subst. rewrite (Hm _ _ _ E); [reflexivity|].
    intros Hb. apply Hfl. inversion Hb. reflexivity.
Qed.

Lemma passes_on_when (c : bool) (m m' : M unit) :
  passes_on m m' -> passes_on (when c m) (when c m').
Proof. intros Hm. destruct c; simpl; [exact Hm | apply passes_on_refl]. Qed.

Lemma passes_on_foldM {A B : Type} (body body' : B -> A -> M B) (l : list A) :
  (forall acc x, passes_on (body acc x) (body' acc x)) ->
  forall acc, passes_on (foldM body l acc) (foldM body' l acc).
Proof.
  intros Hb. induction l as [|x l IH]; intros acc; simpl.
  - apply passes_on_refl.
  - apply passes_on_bind; [apply Hb | apply IH].
Qed.

Lemma passes_on_MaybeReject (reason reason_prefix : string)
    (S S' : ignore_rejects_type) :
  S ⊆ S' ->
  passes_on (MaybeReject reason reason_prefix S) (MaybeReject reason reason_prefix S').
Proof.
  intros Hsub st fl st' H Hfl. unfold MaybeReject, MaybeReject_ in *.
  destruct (count S (reason_prefix +:+ reason)) eqn:E.
  - apply count_true in E. apply Hsub in E. apply count_true in E.
    now rewrite E.
  - inversion H; subst. now contradiction Hfl.
Qed.

Lemma passes_on_run (m m' : M unit) (st : state) :
  passes_on m m' -> fst (run m st) = true -> run m' st = run m st.
Proof.
  intros Hm. unfold run. destruct (m st) as [[[]|b] st1] eqn:E; simpl.
  - intros _. now rewrite (Hm _ _ _ E) by discriminate.
  - intros ->. now rewrite (Hm _ _ _ E) by discriminate.
Qed.

Lemma IsWitnessStandard_program_passes_on (reason_prefix : string)
    (S S' : ignore_rejects_type) (txin : CTxIn) (script : CScript) :
  S ⊆ S' ->
  passes_on (IsWitnessStandard_program reason_prefix S txin script)
            (IsWitnessStandard_program reason_prefix S' txin script).
Proof.
  intros Hsub. unfold IsWitnessStandard_program.
  destruct (IsWitnessProgram script) as [[v program]|]; [|apply passes_on_refl].
  apply passes_on_when. unfold IsWitnessStandard_p2wsh.
  apply passes_on_bind;
    [now apply passes_on_when, passes_on_MaybeReject|intros _].
  apply passes_on_bind;
    [now apply passes_on_when, passes_on_MaybeReject|intros _].
  unfold for_each. apply passes_on_foldM. intros _ item.
  now apply passes_on_when, passes_on_MaybeReject.
Qed.

(** X16.  What [AreInputsStandard] accepts with an ignore set it accepts with
    every larger one, leaving the same [out_reason]. *)
Theorem AreInputsStandard_ignore_mono (tx : CTransaction)
    (mapInputs : CCoinsViewCache) (reason_prefix out_reason0 : string)
    (S S' : ignore_rejects_type) :
  S ⊆ S' ->
  fst (AreInputsStandard tx mapInputs reason_prefix out_reason0 S) = true ->
  AreInputsStandard tx mapInputs reason_prefix out_reason0 S'
  = AreInputsStandard tx mapInputs reason_prefix out_reason0 S.
Proof.
  intros Hsub. unfold AreInputsStandard.
  set (m := AreInputsStandard_body tx mapInputs reason_prefix S).
  set (m' := AreInputsStandard_body tx mapInputs reason_prefix S').
  assert (Hm : passes_on m m').
  { unfold m, m', AreInputsStandard_body.
    destruct (IsCoinBase tx); [apply passes_on_refl|].
    apply passes_on_bind; [|intros _; apply passes_on_refl].
    unfold for_each. apply passes_on_foldM. intros _ txin.
    unfold AreInputsStandard_input.
    destruct (Solver _) as [[solved whichType] vSolutions].
    apply passes_on_bind;
      [now apply passes_on_when, passes_on_MaybeReject|intros _].
    apply passes_on_when.
    destruct (negb (IsPushOnly (scriptSig txin))); [apply passes_on_refl|].
    apply passes_on_bind; [apply passes_on_refl|].
    intros [[|item stack]|]; try apply passes_on_refl.
    now apply passes_on_when, passes_on_MaybeReject. }
  intros H.
  assert (H1 : fst (run m (mkState out_reason0 [])) = true).
  { now destruct (run m (mkState out_reason0 [])). }
  now rewrite (passes_on_run m m' _ Hm H1).
Qed.

(** X17.  What [IsWitnessStandard] accepts with an ignore set it accepts with
    every larger one, leaving the same [out_reason]. *)
Theorem IsWitnessStandard_ignore_mono (tx : CTransaction)
    (mapInputs : CCoinsViewCache) (reason_prefix out_reason0 : string)
    (S S' : ignore_rejects_type) :
  S ⊆ S' ->
  fst (IsWitnessStandard tx mapInputs reason_prefix out_reason0 S) = true ->
  IsWitnessStandard tx mapInputs reason_prefix out_reason0 S'
  = IsWitnessStandard tx mapInputs reason_prefix out_reason0 S.
Proof.
  intros Hsub. unfold IsWitnessStandard.
  set (m := IsWitnessStandard_body tx mapInputs reason_prefix S).
  set (m' := IsWitnessStandard_body tx mapInputs reason_prefix S').
  assert (Hm : passes_on m m').
  { unfold m, m', IsWitnessStandard_body.
    destruct (IsCoinBase tx); [apply passes_on_refl|].
    apply passes_on_bind; [|intros _; apply passes_on_refl].
    unfold for_each. apply passes_on_foldM. intros _ txin.
    unfold IsWitnessStandard_input.
    destruct (IsNull (scriptWitness txin)); [apply passes_on_refl|].
    destruct (IsPayToScriptHash _);
      [|now apply IsWitnessStandard_program_passes_on].
    apply passes_on_bind; [apply passes_on_refl|].
    intros [[|item stack]|]; try apply passes_on_refl.
    now apply IsWitnessStandard_program_passes_on. }
  intros H.
  assert (H1 : fst (run m (mkState out_reason0 [])) = true).
  { now destruct (run m (mkState out_reason0 [])). }
  now rewrite (passes_on_run m m' _ Hm H1).
Qed.

(** *** What the input checkers accept *)

(** X18.  Inputs that spend no pay-to-script-hash output are accepted without
    any evaluation, provided the solver knows each previous script or
    "script-unknown" is ignored. *)
Theorem AreInputsStandard_no_p2sh (tx : CTransaction) (mapInputs : CCoinsViewCache)
    (reason_prefix out_reason0 : string) (S : ignore_rejects_type) :
  (forall txin,
     In txin (vin tx) ->
     let solution := Solver (scriptPubKey (out (AccessCoin mapInputs (prevout txin)))) in
     snd (fst solution) <> TX_SCRIPTHASH
     /\ (fst (fst solution) = false -> reason_prefix +:+ "script-unknown" ∈ S)) ->
  AreInputsStandard tx mapInputs reason_prefix out_reason0 S = (true, out_reason0)
  /\ AreInputsStandard_evaluated tx mapInputs reason_prefix S = [].
Proof.
  intros Hall.
  assert (Hq : IsCoinBase tx = false ->
               quiet (for_each (vin tx)
                        (AreInputsStandard_input mapInputs reason_prefix S))).
  { intros _. apply quiet_for_each. intros txin Hin.
    specialize (Hall txin Hin). simpl in Hall. unfold AreInputsStandard_input.
    destruct (Solver _) as [[solved whichType] vSolutions]. simpl in Hall.
    destruct Hall as [Hty Hsolved].
    apply quiet_bind.
    - apply quiet_when. intros Hc. apply negb_true_iff in Hc.
      intros st. apply MaybeReject_ignored. apply count_true. now apply Hsolved.
    - rewrite bool_decide_eq_false_2 by exact Hty. now intros st. }
  assert (Hbody : forall st,
    AreInputsStandard_body tx mapInputs reason_prefix S st = (Return true, st)).
  { intros st. unfold AreInputsStandard_body.
    destruct (IsCoinBase tx); [reflexivity|]. now rewrite bind_quiet by auto. }
  split.
  - now rewrite (AreInputsStandard_run _ _ _ _ _ _ _ (Hbody _)).
  - unfold AreInputsStandard_evaluated, run. now rewrite Hbody.
Qed.

(** X19.  A transaction none of whose inputs carries a witness is accepted by
    [IsWitnessStandard] whatever the coin view holds, and nothing is
    evaluated. *)
Theorem IsWitnessStandard_no_witness (tx : CTransaction) (mapInputs : CCoinsViewCache)
    (reason_prefix out_reason0 : string) (S : ignore_rejects_type) :
  (forall txin, In txin (vin tx) -> IsNull (scriptWitness txin) = true) ->
  IsWitnessStandard tx mapInputs reason_prefix out_reason0 S = (true, out_reason0)
  /\ IsWitnessStandard_evaluated tx mapInputs reason_prefix S = [].
Proof.
  intros Hall.
  assert (Hbody : forall st,
    IsWitnessStandard_body tx mapInputs reason_prefix S st = (Return true, st)).
  { intros st. unfold IsWitnessStandard_body.
    destruct (IsCoinBase tx); [reflexivity|].
    rewrite bind_quiet; [reflexivity|].
    apply quiet_for_each. intros txin Hin st1. unfold IsWitnessStandard_input.
    now rewrite (Hall txin Hin). }
  split.
  - now rewrite (IsWitnessStandard_run _ _ _ _ _ _ _ (Hbody _)).
  - unfold IsWitnessStandard_evaluated, run. now rewrite Hbody.
Qed.

Lemma IsWitnessStandard_p2wsh_ignored_quiet (reason_prefix : string)
    (S : ignore_rejects_type) (witness : list (list byte)) :
  p2wsh_limits_or_ignored reason_prefix S witness ->
  quiet (IsWitnessStandard_p2wsh reason_prefix S witness).
Proof.
  intros (Hscript & Hcount & Hitems). unfold IsWitnessStandard_p2wsh.
  apply quiet_bind; [|apply quiet_bind].
  - apply quiet_when. intros E. apply Z.ltb_lt in E. intros st.
    apply MaybeReject_ignored, count_true. now apply Hscript.
  - apply quiet_when. intros E. apply Z.ltb_lt in E. intros st.
    apply MaybeReject_ignored, count_true. now apply Hcount.
  - apply quiet_for_each. intros item Hin. apply quiet_when. intros E.
    apply Z.ltb_lt in E. intros st.
    apply MaybeReject_ignored, count_true. now apply (Hitems item).
Qed.

(** The flow of one input that carries a witness whose effective script
    is a witness program. *)
Lemma IsWitnessStandard_input_program (mapInputs : CCoinsViewCache)
    (reason_prefix : string) (S : ignore_rejects_type) (txin : CTxIn)
    (script : CScript) (st : state) :
  IsNull (scriptWitness txin) = false ->
  effective_script mapInputs txin = Some script ->
  exists st1,
    out_reason st1 = out_reason st
    /\ IsWitnessStandard_input mapInputs reason_prefix S txin st
       = IsWitnessStandard_program reason_prefix S txin script st1.
Proof.
  intros Hnull. unfold effective_script, IsWitnessStandard_input. rewrite Hnull.
  destruct (IsPayToScriptHash _).
  - unfold bind, eval.
    destruct (EvalScript (scriptSig txin)) as [[|item stack]|]; try discriminate.
    intros H. inversion H; subst. eexists. split; [|reflexivity]. reflexivity.
  - intros H. inversion H; subst. exists st. now split.
Qed.

Lemma IsWitnessStandard_accepts_body (tx : CTransaction)
    (mapInputs : CCoinsViewCache) (reason_prefix : string)
    (S : ignore_rejects_type) :
  (forall txin,
     In txin (vin tx) ->
     IsNull (scriptWitness txin) = false ->
     exists script version program,
       effective_script mapInputs txin = Some script
       /\ IsWitnessProgram script = Some (version, program)
       /\ (version = 0 -> size_of program = 32 ->
           p2wsh_limits_or_ignored reason_prefix S (stack (scriptWitness txin)))) ->
  forall st, exists st',
    out_reason st' = out_reason st
    /\ for_each (vin tx) (IsWitnessStandard_input mapInputs reason_prefix S) st
       = (Next tt, st').
Proof.
  unfold for_each.
  induction (vin tx) as [|txin txins IH]; intros Hall st; simpl.
  - now exists st.
  - assert (Hx : exists st1, out_reason st1 = out_reason st
               /\ IsWitnessStandard_input mapInputs reason_prefix S txin st
                  = (Next tt, st1)).
    { destruct (IsNull (scriptWitness txin)) eqn:Hnull.
      - exists st. split; [reflexivity|].
        unfold IsWitnessStandard_input. now rewrite Hnull.
      - destruct (Hall txin (or_introl eq_refl) Hnull)
          as (script & v & program & Heff & Hw & Hlim).
        destruct (IsWitnessStandard_input_program mapInputs reason_prefix S
                    txin script st Hnull Heff) as (st1 & Hout & ->).
        exists st1. split; [exact Hout|].
        unfold IsWitnessStandard_program. rewrite Hw.
        destruct ((v =? 0) && (size_of program =? 32)) eqn:E; [|reflexivity].
        apply andb_true_iff in E as [Ev Es].
        apply Z.eqb_eq in Ev, Es. simpl.
        now apply IsWitnessStandard_p2wsh_ignored_quiet, Hlim. }
    destruct Hx as (st1 & Hout & Hx).
    destruct (IH (fun y Hy => Hall y (or_intror Hy)) st1) as (st' & Hout' & Hrest).
    exists st'. split; [congruence|].
    unfold bind. now rewrite Hx.
Qed.

(** X20.  [IsWitnessStandard] accepts a transaction when each witness sits on
    an input whose effective script (the previous script, or the top of
    the stack a pay-to-script-hash scriptSig evaluates to) is a witness
    program, and, where that is a version-0 program of 32 bytes, each
    limit on the witness stack is either kept or ignored. *)
Theorem IsWitnessStandard_accepts (tx : CTransaction)
    (mapInputs : CCoinsViewCache) (reason_prefix out_reason0 : string)
    (S : ignore_rejects_type) :
  (forall txin,
     In txin (vin tx) ->
     IsNull (scriptWitness txin) = false ->
     exists script version program,
       effective_script mapInputs txin = Some script
       /\ IsWitnessProgram script = Some (version, program)
       /\ (version = 0 -> size_of program = 32 ->
           p2wsh_limits_or_ignored reason_prefix S (stack (scriptWitness txin)))) ->
  IsWitnessStandard tx mapInputs reason_prefix out_reason0 S = (true, out_reason0).
Proof.
  intros Hall. unfold IsWitnessStandard, run, IsWitnessStandard_body.
  destruct (IsCoinBase tx); [reflexivity|].
  destruct (IsWitnessStandard_accepts_body tx mapInputs reason_prefix S Hall
              (mkState out_reason0 [])) as (st' & Hout & Hloop).
  unfold bind. rewrite Hloop. simpl in *. now rewrite Hout.
Qed.

(** X21.  Witness programs other than version 0 with 32 bytes are held to no
    limit: whatever the witness stacks, a transaction whose witnesses
    all sit on such programs is accepted. *)
Theorem IsWitnessStandard_other_programs (tx : CTransaction)
    (mapInputs : CCoinsViewCache) (reason_prefix out_reason0 : string)
    (S : ignore_rejects_type) :
  (forall txin,
     In txin (vin tx) ->
     IsNull (scriptWitness txin) = false ->
     exists script version program,
       effective_script mapInputs txin = Some script
       /\ IsWitnessProgram script = Some (version, program)
       /\ (version <> 0 \/ size_of program <> 32)) ->
  IsWitnessStandard tx mapInputs reason_prefix out_reason0 S = (true, out_reason0).
Proof.
  intros Hall. unfold IsWitnessStandard, run, IsWitnessStandard_body.
  destruct (IsCoinBase tx); [reflexivity|].
  destruct (IsWitnessStandard_accepts_body tx mapInputs reason_prefix S)
    with (st := mkState out_reason0 []) as (st' & Hout & Hloop).
  { intros txin Hin Hnull.
    destruct (Hall txin Hin Hnull) as (script & v & program & Heff & Hw & Hother).
    exists script, v, program. split; [exact Heff|]. split; [exact Hw|].
    intros Hv Hs. destruct Hother; contradiction. }
  unfold bind. rewrite Hloop. simpl in *. now rewrite Hout.
Qed.

(** *** What the input checkers reject *)

(** X22.  Once the loop reaches a push-only input that spends a
    pay-to-script-hash output and whose scriptSig evaluates to a
    non-empty stack, the top item is the redeem script: with more than
    [MAX_P2SH_SIGOPS] sigops it is rejected with "scriptcheck-sigops"
    unless that is ignored; otherwise the input is passed, with its
    scriptSig noted as evaluated. *)
Theorem AreInputsStandard_p2sh_sigops (tx : CTransaction)
    (mapInputs : CCoinsViewCache) (reason_prefix out_reason0 : string)
    (S : ignore_rejects_type) (pre post : list CTxIn) (txin : CTxIn)
    (st1 : state) (vSolutions : list (list byte)) (item : list byte)
    (stack : list (list byte)) :
  IsCoinBase tx = false ->
  vin tx = pre ++ txin :: post ->
  for_each pre (AreInputsStandard_input mapInputs reason_prefix S)
    (mkState out_reason0 []) = (Next tt, st1) ->
  Solver (scriptPubKey (out (AccessCoin mapInputs (prevout txin))))
  = (true, TX_SCRIPTHASH, vSolutions) ->
  IsPushOnly (scriptSig txin) = true ->
  EvalScript (scriptSig txin) = Some (item :: stack) ->
  let nSigOps := GetSigOpCount (back (item :: stack)) true in
  (MAX_P2SH_SIGOPS < nSigOps ->
   reason_prefix +:+ "scriptcheck-sigops" ∉ S ->
   AreInputsStandard tx mapInputs reason_prefix out_reason0 S
   = (false, reason_prefix +:+ "scriptcheck-sigops"))
  /\ (nSigOps <= MAX_P2SH_SIGOPS \/ reason_prefix +:+ "scriptcheck-sigops" ∈ S ->
      AreInputsStandard_input mapInputs reason_prefix S txin st1
      = (Next tt, mkState (out_reason st1) (evaluated st1 ++ [scriptSig txin]))).
Proof.
  intros Hcb Hvin Hpre Hs Hp He nSigOps.
  assert (Hin : AreInputsStandard_input mapInputs reason_prefix S txin st1
                = when (MAX_P2SH_SIGOPS <? nSigOps)
                    (MaybeReject "scriptcheck-sigops" reason_prefix S)
                    (mkState (out_reason st1) (evaluated st1 ++ [scriptSig txin]))).
  { unfold AreInputsStandard_input. rewrite Hs, Hp. simpl.
    unfold bind, eval. now rewrite He. }
  split.
  - intros Hgt Hn. apply Z.ltb_lt in Hgt. apply count_false in Hn.
    rewrite Hgt in Hin. simpl in Hin.
    rewrite MaybeReject_rejects in Hin by exact Hn.
    rewrite (AreInputsStandard_run _ _ _ _ _ (Return false)
               (mkState (reason_prefix +:+ "scriptcheck-sigops")
                  (evaluated st1 ++ [scriptSig txin]))); [reflexivity|].
    unfold AreInputsStandard_body. rewrite Hcb, Hvin.
    apply bind_Return. now apply (for_each_leaves _ _ _ _ _ st1).
  - intros Hok. rewrite Hin.
    destruct (MAX_P2SH_SIGOPS <? nSigOps) eqn:E; [|reflexivity]. simpl.
    apply Z.ltb_lt in E. destruct Hok as [Hle|Hig]; [lia|].
    apply MaybeReject_ignored. now apply count_true.
Qed.

Lemma for_each_rejects_at {A : Type} (c : A -> bool) (reason reason_prefix : string)
    (S : ignore_rejects_type) (l : list A) :
  count S (reason_prefix +:+ reason) = false ->
  (exists x, In x l /\ c x = true) ->
  forall st,
    for_each l (fun x => when (c x) (MaybeReject reason reason_prefix S)) st
    = (Return false, mkState (reason_prefix +:+ reason) (evaluated st)).
Proof.
  intros Hn. unfold for_each.
  induction l as [|y l IH]; intros (x & Hx & Hc) st; [destruct Hx|].
  simpl. unfold bind. destruct (c y) eqn:Ey; simpl.
  - now rewrite MaybeReject_rejects by exact Hn.
  - apply IH. destruct Hx as [<-|Hx]; [congruence|]. now exists x.
Qed.

(** X23.  Once the loop reaches an input with a witness whose effective
    script is a version-0 witness program of 32 bytes, the three limits
    are checked in order: the size of the witness script, then the
    number of the remaining items, then the size of each; the first one
    exceeded and not ignored gives the reason. *)
Theorem IsWitnessStandard_p2wsh_limits (tx : CTransaction)
    (mapInputs : CCoinsViewCache) (reason_prefix out_reason0 : string)
    (S : ignore_rejects_type) (pre post : list CTxIn) (txin : CTxIn)
    (st1 : state) (script : CScript) (program : list byte) :
  IsCoinBase tx = false ->
  vin tx = pre ++ txin :: post ->
  for_each pre (IsWitnessStandard_input mapInputs reason_prefix S)
    (mkState out_reason0 []) = (Next tt, st1) ->
  IsNull (scriptWitness txin) = false ->
  effective_script mapInputs txin = Some script ->
  IsWitnessProgram script = Some (0, program) ->
  size_of program = 32 ->
  let witness := stack (scriptWitness txin) in
  let result := IsWitnessStandard tx mapInputs reason_prefix out_reason0 S in
  let script_ok :=
    MAX_STANDARD_P2WSH_SCRIPT_SIZE < size_of (back witness) ->
    reason_prefix +:+ "script-size" ∈ S in
  let count_ok :=
    MAX_STANDARD_P2WSH_STACK_ITEMS < size_of witness - 1 ->
    reason_prefix +:+ "stackitem-count" ∈ S in
  (MAX_STANDARD_P2WSH_SCRIPT_SIZE < size_of (back witness) ->
   reason_prefix +:+ "script-size" ∉ S ->
   result = (false, reason_prefix +:+ "script-size"))
  /\ (script_ok ->
      MAX_STANDARD_P2WSH_STACK_ITEMS < size_of witness - 1 ->
      reason_prefix +:+ "stackitem-count" ∉ S ->
      result = (false, reason_prefix +:+ "stackitem-count"))
  /\ (script_ok -> count_ok ->
      (exists item,
         In item (take (Z.to_nat (size_of witness - 1)) witness)
         /\ MAX_STANDARD_P2WSH_STACK_ITEM_SIZE < size_of item) ->
      reason_prefix +:+ "stackitem-size" ∉ S ->
      result = (false, reason_prefix +:+ "stackitem-size")).
Proof.
  intros Hcb Hvin Hpre Hnull Heff Hw Hlen witness result script_ok count_ok.
  destruct (IsWitnessStandard_input_program mapInputs reason_prefix S txin script
              st1 Hnull Heff) as (st2 & _ & Hin).
  assert (Hin' : IsWitnessStandard_input mapInputs reason_prefix S txin st1
                 = IsWitnessStandard_p2wsh reason_prefix S witness st2).
  { rewrite Hin. unfold IsWitnessStandard_program. rewrite Hw, Hlen. reflexivity. }
  clear Hin.
  assert (Hres : forall reason st3,
    IsWitnessStandard_p2wsh reason_prefix S witness st2 = (Return false, st3) ->
    out_reason st3 = reason -> result = (false, reason)).
  { intros reason st3 Hx <-. unfold result.
    rewrite (IsWitnessStandard_run _ _ _ _ _ (Return false) st3); [reflexivity|].
    unfold IsWitnessStandard_body. rewrite Hcb, Hvin.
    apply bind_Return. apply (for_each_leaves _ _ _ _ _ st1); [exact Hpre|].
    now rewrite Hin'. }
  assert (Qscript : script_ok ->
    quiet (when (MAX_STANDARD_P2WSH_SCRIPT_SIZE <? size_of (back witness))
             (MaybeReject "script-size" reason_prefix S))).
  { intros Hok. apply quiet_when. intros E. apply Z.ltb_lt in E. intros st.
    apply MaybeReject_ignored, count_true. now apply Hok. }
  assert (Qcount : count_ok ->
    quiet (when (MAX_STANDARD_P2WSH_STACK_ITEMS <? size_of witness - 1)
             (MaybeReject "stackitem-count" reason_prefix S))).
  { intros Hok. apply quiet_when. intros E. apply Z.ltb_lt in E. intros st.
    apply MaybeReject_ignored, count_true. now apply Hok. }
  split; [|split].
  - intros Hgt Hn. apply Z.ltb_lt in Hgt. apply count_false in Hn.
    apply (Hres _ (mkState (reason_prefix +:+ "script-size") (evaluated st2)));
      [|reflexivity].
    unfold IsWitnessStandard_p2wsh. apply bind_Return. rewrite Hgt. simpl.
    now apply MaybeReject_rejects.
  - intros Hok Hgt Hn. apply Z.ltb_lt in Hgt. apply count_false in Hn.
    apply (Hres _ (mkState (reason_prefix +:+ "stackitem-count") (evaluated st2)));
      [|reflexivity].
    unfold IsWitnessStandard_p2wsh. rewrite bind_quiet by auto.
    apply bind_Return. rewrite Hgt. simpl. now apply MaybeReject_rejects.
  - intros Hok1 Hok2 (item & Hitem & Hgt) Hn. apply count_false in Hn.
    apply (Hres _ (mkState (reason_prefix +:+ "stackitem-size") (evaluated st2)));
      [|reflexivity].
    unfold IsWitnessStandard_p2wsh.
    rewrite bind_quiet by auto. rewrite bind_quiet by auto.
    apply (for_each_rejects_at
             (fun item => MAX_STANDARD_P2WSH_STACK_ITEM_SIZE <? size_of item));
      [exact Hn|].
    exists item. split; [exact Hitem|]. now apply Z.ltb_lt.
Qed.

(** *** Virtual size, continued *)

(** X24.  Within [int64_t] the virtual size grows with the weight and with
    the sigop cost. *)
Theorem GetVirtualTransactionSize_monotone (nWeight nWeight' nSigOpCost nSigOpCost' : Z) :
  0 <= nBytesPerSigOp ->
  0 <= nWeight <= nWeight' ->
  0 <= nSigOpCost <= nSigOpCost' ->
  Z.max nWeight' (nSigOpCost' * nBytesPerSigOp) + 4 < 2 ^ 63 ->
  GetVirtualTransactionSize nWeight nSigOpCost
  <= GetVirtualTransactionSize nWeight' nSigOpCost'.
Proof.
  intros Hb Hw Hs Hmax.
  assert (nSigOpCost * nBytesPerSigOp <= nSigOpCost' * nBytesPerSigOp) by nia.
  rewrite !GetVirtualTransactionSize_in_range by lia.
  apply Z.div_le_mono; lia.
Qed.

(** X25.  The virtual size of a transaction, in units of 4, covers both its
    weight and its sigop cost times [nBytesPerSigOp]; a sigop cost that
    stays within the weight leaves it at the ceiling of a quarter of the
    weight. *)
Theorem GetVirtualTransactionSize_tx_floor (tx : CTransaction) (nSigOpCost : Z) :
  0 <= nBytesPerSigOp ->
  0 <= GetTransactionWeight tx ->
  0 <= nSigOpCost ->
  Z.max (GetTransactionWeight tx) (nSigOpCost * nBytesPerSigOp) + 4 < 2 ^ 63 ->
  GetTransactionWeight tx <= 4 * GetVirtualTransactionSize_tx tx nSigOpCost
  /\ nSigOpCost * nBytesPerSigOp <= 4 * GetVirtualTransactionSize_tx tx nSigOpCost
  /\ (nSigOpCost * nBytesPerSigOp <= GetTransactionWeight tx ->
      GetVirtualTransactionSize_tx tx nSigOpCost = GetVirtualTransactionSize_tx tx 0
      /\ is_ceil_div (GetVirtualTransactionSize_tx tx nSigOpCost)
           (GetTransactionWeight tx) WITNESS_SCALE_FACTOR).
Proof.
  intros Hb Hw Hs Hmax. unfold GetVirtualTransactionSize_tx.
  rewrite GetVirtualTransactionSize_in_range by lia.
  set (m := Z.max (GetTransactionWeight tx) (nSigOpCost * nBytesPerSigOp)) in *.
  pose proof (Z.div_mod (m + 3) 4 ltac:(lia)) as Hdm.
  pose proof (Z.mod_pos_bound (m + 3) 4 ltac:(lia)) as Hmod.
  split; [lia|]. split; [lia|].
  intros Hle. rewrite GetVirtualTransactionSize_in_range by lia.
  rewrite Z.mul_0_l. unfold m in *.
  rewrite !Z.max_l in * by lia. split; [reflexivity|].
  unfold is_ceil_div, WITNESS_SCALE_FACTOR. lia.
Qed.

(** *** Sigop cost *)

Lemma uint32_range (z : Z) : 0 <= uint32 z < 2 ^ 32.
Proof. unfold uint32. apply Z.mod_pos_bound. lia. Qed.

Lemma uint32_times_4 (z : Z) : uint32 (z * 4) mod 4 = 0.
Proof.
  unfold uint32. rewrite Z.mod_mod_divide.
  - apply Z.mod_mul. lia.
  - exists (2 ^ 30). reflexivity.
Qed.

Lemma witness_sigops_range (inputs : CCoinsViewCache) (flags : Z)
    (txins : list CTxIn) :
  forall n0 n,
    0 <= n0 < 2 ^ 32 ->
    witness_sigops inputs flags txins n0 = Some n ->
    0 <= n < 2 ^ 32.
Proof.
  induction txins as [|txin txins IH]; intros n0 n H0 H; simpl in H.
  - now inversion H; subst.
  - destruct (IsSpent _); [discriminate H|].
    destruct (CountWitnessSigOps _ _ _ _) as [c|]; [|discriminate H].
    apply (IH _ _ (uint32_range _) H).
Qed.

Lemma witness_sigops_spent (inputs : CCoinsViewCache) (flags : Z)
    (txins : list CTxIn) :
  (exists txin, In txin txins /\ IsSpent (AccessCoin inputs (prevout txin)) = true) ->
  forall n0, witness_sigops inputs flags txins n0 = None.
Proof.
  induction txins as [|txin txins IH]; intros (x & Hx & Hspent) n0; [destruct Hx|].
  simpl. destruct (IsSpent (AccessCoin inputs (prevout txin))) eqn:E; [reflexivity|].
  destruct (CountWitnessSigOps _ _ _ _) as [c|]; [|reflexivity].
  apply IH. destruct Hx as [<-|Hx]; [congruence|]. now exists x.
Qed.

Lemma witness_sigops_unspent (inputs : CCoinsViewCache) (flags : Z)
    (txins : list CTxIn) :
  (forall txin, In txin txins ->
     IsSpent (AccessCoin inputs (prevout txin)) = false
     /\ CountWitnessSigOps (scriptSig txin)
          (scriptPubKey (out (AccessCoin inputs (prevout txin))))
          (scriptWitness txin) flags <> None) ->
  forall n0, witness_sigops inputs flags txins n0 <> None.
Proof.
  induction txins as [|txin txins IH]; intros Hall n0; simpl; [discriminate|].
  destruct (Hall txin (or_introl eq_refl)) as [Hspent Hcount].
  rewrite Hspent. destruct (CountWitnessSigOps _ _ _ _) as [c|]; [|contradiction].
  apply IH. intros y Hy. apply Hall. now right.
Qed.

(** X26.  The sigop cost is an [unsigned int]: whenever the function returns,
    its result lies in [0, 2^32), and without witness verification it is
    a multiple of the witness scale factor. *)
Theorem GetAccurateTransactionSigOpCost_range (tx : CTransaction)
    (inputs : CCoinsViewCache) (flags : Z) (n : Z) :
  GetAccurateTransactionSigOpCost tx inputs flags = Some n ->
  0 <= n < 2 ^ 32
  /\ (flag_set flags SCRIPT_VERIFY_WITNESS = false -> n mod WITNESS_SCALE_FACTOR = 0).
Proof.
  unfold GetAccurateTransactionSigOpCost, WITNESS_SCALE_FACTOR.
  destruct (IsCoinBase tx).
  { intros H. inversion H; subst. split; [lia|reflexivity]. }
  destruct (if flag_set flags SCRIPT_VERIFY_P2SH then _ else _) as [nSigOps|];
    [|discriminate].
  destruct (flag_set flags SCRIPT_VERIFY_WITNESS).
  - intros H. split; [|discriminate].
    apply (witness_sigops_range _ _ _ _ _ (uint32_range _) H).
  - intros H. inversion H; subst. split; [apply uint32_range|].
    intros _. apply uint32_times_4.
Qed.


(** X28.  With witness verification asked for, a spent coin behind any input
    of a transaction that is no coinbase stops the function: it does
    not return a cost. *)
Theorem GetAccurateTransactionSigOpCost_spent (tx : CTransaction)
    (inputs : CCoinsViewCache) (flags : Z) (txin : CTxIn) :
  IsCoinBase tx = false ->
  flag_set flags SCRIPT_VERIFY_WITNESS = true ->
  In txin (vin tx) ->
  IsSpent (AccessCoin inputs (prevout txin)) = true ->
  GetAccurateTransactionSigOpCost tx inputs flags = None.
Proof.
  intros Hcb Hw Hin Hspent. unfold GetAccurateTransactionSigOpCost.
  rewrite Hcb, Hw.
  destruct (if flag_set flags SCRIPT_VERIFY_P2SH then _ else _) as [nSigOps|];
    [|reflexivity].
  apply witness_sigops_spent. now exists txin.
Qed.

(** X29.  The function returns a cost whenever every coin it reads is unspent
    and the counters it calls return; for a coinbase it returns 0
    without reading anything. *)
Theorem GetAccurateTransactionSigOpCost_returns (tx : CTransaction)
    (inputs : CCoinsViewCache) (flags : Z) :
  (IsCoinBase tx = false ->
   (flag_set flags SCRIPT_VERIFY_P2SH = true -> GetP2SHSigOpCount tx inputs <> None)
   /\ (flag_set flags SCRIPT_VERIFY_WITNESS = true ->
       forall txin, In txin (vin tx) ->
         IsSpent (AccessCoin inputs (prevout txin)) = false
         /\ CountWitnessSigOps (scriptSig txin)
              (scriptPubKey (out (AccessCoin inputs (prevout txin))))
              (scriptWitness txin) flags <> None)) ->
  GetAccurateTransactionSigOpCost tx inputs flags <> None
  /\ (IsCoinBase tx = true ->
      GetAccurateTransactionSigOpCost tx inputs flags = Some 0).
Proof.
  intros Hall. unfold GetAccurateTransactionSigOpCost.
  destruct (IsCoinBase tx); [split; [discriminate|reflexivity]|].
  destruct (Hall eq_refl) as [Hp Hw]. split; [|discriminate].
  destruct (flag_set flags SCRIPT_VERIFY_P2SH).
  - destruct (GetP2SHSigOpCount tx inputs) as [c|]; [|now contradiction Hp].
    destruct (flag_set flags SCRIPT_VERIFY_WITNESS); [|discriminate].
    apply witness_sigops_unspent. now apply Hw.
  - destruct (flag_set flags SCRIPT_VERIFY_WITNESS); [|discriminate].
    apply witness_sigops_unspent. now apply Hw.
Qed.

End MoreProperties.

(** ** The further properties on concrete transactions *)

Import MoreExamples.

Lemma IsStandard_null_data_witness :
  (fst (IsStandard (env := ref) nulldata true) = true
   <-> (fAcceptDatacarrier (Collaborators := ref) = true
        /\ size_of nulldata <= nMaxDatacarrierBytes (Collaborators := ref)))
  /\ snd (IsStandard (env := ref) nulldata true) = TX_NULL_DATA.
Proof.
  apply (IsStandard_null_data (env := ref) nulldata true []). reflexivity.
Defined.

Lemma IsStandard_witness_v0_witness :
  IsStandard (env := ref) p2wsh false = (false, TX_WITNESS_V0_SCRIPTHASH).
Proof.
  apply (IsStandard_witness_v0 (env := ref) p2wsh false TX_WITNESS_V0_SCRIPTHASH
           [replicate 32 x44]); [reflexivity|now right].
Defined.

Lemma IsStandard_unsolved_witness :
  fst (IsStandard (env := ref) [x76] true) = false
  /\ snd (IsStandard (env := ref) [x76] true) = TX_NONSTANDARD.
Proof.
  destruct (IsStandard_unsolved (env := ref) [x76] true) as [Hfst Hsnd].
  split; [apply Hfst; now left|exact Hsnd].
Defined.

Lemma IsStandard_plain_templates_witness :
  IsStandard (env := ref) p2sh false = (true, TX_SCRIPTHASH).
Proof.
  apply (IsStandard_plain_templates (env := ref) p2sh false TX_SCRIPTHASH
           [replicate 20 x22]); [reflexivity|now right; right].
Defined.

Lemma IsStandard_witnessEnabled_witness :
  fst (IsStandard (env := ref) p2pkh true) = true
  /\ IsStandard (env := ref) p2pkh false = IsStandard (env := ref) p2pkh true.
Proof.
  destruct (IsStandard_witnessEnabled (env := ref) p2pkh) as [Hmono Hsame].
  split; [apply Hmono; reflexivity|apply Hsame; discriminate].
Defined.

Lemma IsStandardTx_accepts_iff_witness :
  fst (IsStandardTx (env := ref) tx_two_nulldata EmptyString true
         {["multi-op-return"]}) = true.
Proof.
  apply (IsStandardTx_accepts_iff (env := ref) tx_two_nulldata EmptyString true
           {["multi-op-return"]}).
  intros r Ht. destruct (decide (r = "multi-op-return")) as [->|Hne].
  - now apply elem_of_singleton.
  - rewrite tx_two_nulldata_triggers in Ht by exact Hne. discriminate Ht.
Defined.

Lemma IsStandardTx_accept_keeps_out_reason_witness :
  IsStandardTx (env := ref) tx_plain "stale" true ∅ = (true, "stale").
Proof.
  apply (IsStandardTx_accept_keeps_out_reason (env := ref) tx_plain "stale" true ∅).
  reflexivity.
Defined.

Lemma IsStandardTx_ignore_mono_witness :
  fst (IsStandardTx (env := ref) tx_two_nulldata EmptyString true
         ({["multi-op-return"]} ∪ {["dust"]})) = true.
Proof.
  apply (IsStandardTx_ignore_mono (env := ref) tx_two_nulldata EmptyString true
           {["multi-op-return"]} ({["multi-op-return"]} ∪ {["dust"]}));
    [apply union_subseteq_l|reflexivity].
Defined.

Lemma IsStandardTx_all_ignored_witness :
  IsStandardTx (env := ref) tx_unknown_and_dust EmptyString true all_reasons
  = (true, EmptyString)
  /\ IsStandardTx (env := ref) tx_unknown_and_dust EmptyString true ∅
     = (false, "version").
Proof.
  split; [|reflexivity].
  apply (IsStandardTx_all_ignored (env := ref) tx_unknown_and_dust EmptyString true
           all_reasons).
  intros r Hr. unfold IsStandardTx_reasons in Hr. simpl in Hr.
  unfold all_reasons.
  destruct Hr as [<-|[<-|[<-|[<-|[<-|[<-|[<-|[<-|[]]]]]]]]]; set_solver.
Defined.

Lemma IsStandardTx_reason_triggered_witness :
  triggers (env := ref) tx_unknown_and_dust true "scriptsig-not-pushonly" = true
  /\ In "scriptsig-not-pushonly" IsStandardTx_reasons.
Proof.
  apply (IsStandardTx_reason_triggered (env := ref) tx_unknown_and_dust EmptyString
           true {["version"]} "scriptsig-not-pushonly").
  reflexivity.
Defined.

Lemma IsStandardTx_first_checks_witness :
  IsStandardTx (env := ref) tx_unknown_and_dust EmptyString true ∅
  = (false, "version").
Proof.
  destruct (IsStandardTx_first_checks (env := ref) tx_unknown_and_dust EmptyString
              true ∅) as [Hversion _].
  apply Hversion; [reflexivity|apply not_elem_of_empty].
Defined.

Lemma AreInputsStandard_reasons_witness :
  (exists id,
     "in-scriptcheck-sigops" = "in-" +:+ id
     /\ In id ["script-unknown"; "scriptsig-failure"; "scriptcheck-missing";
               "scriptcheck-sigops"])
  /\ ("in-scriptcheck-sigops" ∈ (∅ : gset string) ->
      "in-scriptcheck-sigops" = "in-" +:+ "scriptsig-failure"
      \/ "in-scriptcheck-sigops" = "in-" +:+ "scriptcheck-missing").
Proof.
  apply (AreInputsStandard_reasons (env := ref) tx_checksigs (coins_paying p2sh)
           "in-" EmptyString ∅ "in-scriptcheck-sigops").
  reflexivity.
Defined.

Lemma IsWitnessStandard_reasons_witness :
  (exists id,
     "wit-script-size" = "wit-" +:+ id
     /\ In id ["scriptsig-failure"; "scriptcheck-missing"; "nonwitness-input";
               "script-size"; "stackitem-count"; "stackitem-size"])
  /\ ("wit-script-size" ∈ (∅ : gset string) ->
      "wit-script-size" = "wit-" +:+ "scriptsig-failure"
      \/ "wit-script-size" = "wit-" +:+ "scriptcheck-missing"
      \/ "wit-script-size" = "wit-" +:+ "nonwitness-input").
Proof.
  apply (IsWitnessStandard_reasons (env := ref) tx_big_witness_script
           (coins_paying p2wsh) "wit-" EmptyString ∅ "wit-script-size").
  reflexivity.
Defined.

Lemma AreInputsStandard_evaluates_only_witness :
  AreInputsStandard_evaluated (env := ref) tx_checksigs (coins_paying p2sh)
    EmptyString ∅ = [push_16_checksigs]
  /\ exists txin,
       In txin (vin tx_checksigs) /\ push_16_checksigs = scriptSig txin
       /\ IsPushOnly (Collaborators := ref) (scriptSig txin) = true
       /\ snd (fst (Solver (Collaborators := ref)
                      (scriptPubKey (out (coins_paying p2sh (prevout txin))))))
          = TX_SCRIPTHASH.
Proof.
  split; [reflexivity|].
  apply (AreInputsStandard_evaluates_only (env := ref) tx_checksigs
           (coins_paying p2sh) EmptyString ∅ push_16_checksigs).
  vm_compute. left. reflexivity.
Defined.

Lemma IsWitnessStandard_evaluates_only_witness :
  IsWitnessStandard_evaluated (env := ref) tx_wrapped_p2wsh (coins_paying p2sh)
    EmptyString ∅ = [push_p2wsh]
  /\ exists txin,
       In txin (vin tx_wrapped_p2wsh) /\ push_p2wsh = scriptSig txin
       /\ IsNull (scriptWitness txin) = false
       /\ IsPayToScriptHash (Collaborators := ref)
            (scriptPubKey (out (coins_paying p2sh (prevout txin)))) = true.
Proof.
  split; [reflexivity|].
  apply (IsWitnessStandard_evaluates_only (env := ref) tx_wrapped_p2wsh
           (coins_paying p2sh) EmptyString ∅ push_p2wsh).
  vm_compute. left. reflexivity.
Defined.

Lemma AreInputsStandard_ignore_mono_witness :
  AreInputsStandard (env := ref) tx_checksigs (coins_paying p2sh) EmptyString
    EmptyString ({["scriptcheck-sigops"]} ∪ {["dust"]})
  = AreInputsStandard (env := ref) tx_checksigs (coins_paying p2sh) EmptyString
      EmptyString {["scriptcheck-sigops"]}.
Proof.
  apply (AreInputsStandard_ignore_mono (env := ref) tx_checksigs (coins_paying p2sh)
           EmptyString EmptyString {["scriptcheck-sigops"]}
           ({["scriptcheck-sigops"]} ∪ {["dust"]}));
    [apply union_subseteq_l|reflexivity].
Defined.

Lemma IsWitnessStandard_ignore_mono_witness :
  IsWitnessStandard (env := ref) tx_big_witness_script (coins_paying p2wsh)
    EmptyString EmptyString ({["script-size"]} ∪ {["dust"]})
  = IsWitnessStandard (env := ref) tx_big_witness_script (coins_paying p2wsh)
      EmptyString EmptyString {["script-size"]}.
Proof.
  apply (IsWitnessStandard_ignore_mono (env := ref) tx_big_witness_script
           (coins_paying p2wsh) EmptyString EmptyString {["script-size"]}
           ({["script-size"]} ∪ {["dust"]}));
    [apply union_subseteq_l|reflexivity].
Defined.

Lemma AreInputsStandard_no_p2sh_witness :
  AreInputsStandard (env := ref) tx_plain (coins_paying p2pkh) EmptyString "stale" ∅
  = (true, "stale")
  /\ AreInputsStandard_evaluated (env := ref) tx_plain (coins_paying p2pkh)
       EmptyString ∅ = [].
Proof.
  apply (AreInputsStandard_no_p2sh (env := ref) tx_plain (coins_paying p2pkh)
           EmptyString "stale" ∅).
  intros txin [<-|[]]. split; [discriminate|discriminate].
Defined.

Lemma IsWitnessStandard_no_witness_witness :
  IsWitnessStandard (env := ref) tx_plain coins_spent EmptyString "stale" ∅
  = (true, "stale")
  /\ IsWitnessStandard_evaluated (env := ref) tx_plain coins_spent EmptyString ∅ = [].
Proof.
  apply (IsWitnessStandard_no_witness (env := ref) tx_plain coins_spent
           EmptyString "stale" ∅).
  intros txin [<-|[]]. reflexivity.
Defined.

Lemma IsWitnessStandard_accepts_witness :
  IsWitnessStandard (env := ref) tx_wrapped_p2wsh (coins_paying p2sh) EmptyString
    EmptyString ∅ = (true, EmptyString).
Proof.
  apply (IsWitnessStandard_accepts (env := ref) tx_wrapped_p2wsh (coins_paying p2sh)
           EmptyString EmptyString ∅).
  intros txin [<-|[]] _. exists p2wsh, 0, (replicate 32 x44).
  split; [reflexivity|]. split; [reflexivity|]. intros _ _.
  split; [intros H; vm_compute in H; discriminate H|].
  split; [intros H; vm_compute in H; discriminate H|].
  intros item [<-|[]] H. vm_compute in H. discriminate H.
Defined.

Lemma IsWitnessStandard_other_programs_witness :
  IsWitnessStandard (env := ref) tx_big_witness_script (coins_paying witness_v1)
    EmptyString EmptyString ∅ = (true, EmptyString).
Proof.
  apply (IsWitnessStandard_other_programs (env := ref) tx_big_witness_script
           (coins_paying witness_v1) EmptyString EmptyString ∅).
  intros txin [<-|[]] _. exists witness_v1, 1, (replicate 32 x55).
  split; [reflexivity|]. split; [reflexivity|]. left. discriminate.
Defined.

Lemma AreInputsStandard_p2sh_sigops_witness :
  AreInputsStandard (env := ref) tx_checksigs (coins_paying p2sh) "in-" EmptyString ∅
  = (false, "in-scriptcheck-sigops").
Proof.
  apply (AreInputsStandard_p2sh_sigops (env := ref) tx_checksigs
           (coins_paying p2sh) "in-" EmptyString ∅ [] []
           (spend push_16_checksigs []) (mkState EmptyString [])
           [replicate 20 x22] (replicate 16 xac) []);
    try (vm_compute; reflexivity).
  apply not_elem_of_empty.
Defined.

Lemma IsWitnessStandard_p2wsh_limits_witness :
  IsWitnessStandard (env := ref) tx_big_witness_script (coins_paying p2wsh) "wit-"
    EmptyString ∅ = (false, "wit-script-size").
Proof.
  apply (IsWitnessStandard_p2wsh_limits (env := ref) tx_big_witness_script
           (coins_paying p2wsh) "wit-" EmptyString ∅ [] []
           (spend [] [[x01]; replicate 3601 x51]) (mkState EmptyString [])
           p2wsh (replicate 32 x44));
    try (vm_compute; reflexivity).
  apply not_elem_of_empty.
Defined.

Lemma GetVirtualTransactionSize_monotone_witness :
  GetVirtualTransactionSize (env := ref) 1000 3
  <= GetVirtualTransactionSize (env := ref) 1001 60.
Proof.
  apply (GetVirtualTransactionSize_monotone (env := ref) 1000 1001 3 60);
    vm_compute; (discriminate || (split; discriminate) || reflexivity).
Defined.

Lemma GetVirtualTransactionSize_tx_floor_witness :
  GetTransactionWeight (Collaborators := ref) tx_plain
  <= 4 * GetVirtualTransactionSize_tx (env := ref) tx_plain 3
  /\ 3 * nBytesPerSigOp (Collaborators := ref)
     <= 4 * GetVirtualTransactionSize_tx (env := ref) tx_plain 3
  /\ GetVirtualTransactionSize_tx (env := ref) tx_plain 3
     = GetVirtualTransactionSize_tx (env := ref) tx_plain 0.
Proof.
  destruct (GetVirtualTransactionSize_tx_floor (env := ref) tx_plain 3)
    as (Hweight & Hsigops & Hsame);
    try (vm_compute; (discriminate || reflexivity)).
  split; [exact Hweight|]. split; [exact Hsigops|].
  apply Hsame. vm_compute. discriminate.
Defined.

Lemma GetAccurateTransactionSigOpCost_range_witness :
  0 <= 64 < 2 ^ 32
  /\ (flag_set 1 (SCRIPT_VERIFY_WITNESS (SigOpCollaborators := refops)) = false ->
      64 mod WITNESS_SCALE_FACTOR = 0).
Proof.
  apply (GetAccurateTransactionSigOpCost_range (env := ref) (sigops := refops)
           tx_checksigs (coins_paying p2sh) 1 64).
  reflexivity.
Defined.


Lemma GetAccurateTransactionSigOpCost_spent_witness :
  GetAccurateTransactionSigOpCost (env := ref) (sigops := refops)
    tx_p2wsh coins_spent 2049 = None.
Proof.
  apply (GetAccurateTransactionSigOpCost_spent (env := ref) (sigops := refops)
           tx_p2wsh coins_spent 2049 (spend [] [[x01]; [x02; x03]; [x51]]));
    try reflexivity.
  left. reflexivity.
Defined.

Lemma GetAccurateTransactionSigOpCost_returns_witness :
  GetAccurateTransactionSigOpCost (env := ref) (sigops := refops)
    tx_checksigs (coins_paying p2sh) 2049 <> None.
Proof.
  apply (GetAccurateTransactionSigOpCost_returns (env := ref) (sigops := refops)
           tx_checksigs (coins_paying p2sh) 2049).
  intros _. split; [discriminate|].
  intros _ txin [<-|[]]. split; [reflexivity|discriminate].
Defined.
